(** * RANSAC line and plane fitting: a shallow embedding and its properties

    The two programs of the repository, [RANSAC_line.cpp] and
    [RANSAC_plane.cpp], are embedded function by function.  A C++ [double]
    is a binary64 float of the Standard Library ([PrimFloat]), so that every
    definition computes on concrete inputs exactly as the compiled program
    does on IEEE-754 hardware (no fused multiply-add, no extended
    precision).  An [int] is a [Z] with the 32-bit narrowing written out.
    Random number generators are explicit oracles.  Where a statement is
    about rounding, a double is read as the real number it stands for, and
    the bounds are derived from the specification of the binary64
    operations ([SpecFloat]). *)

From Stdlib Require Import Floats ZArith List Bool Lia Permutation Sorted.
From Stdlib Require Uint63.
From Stdlib Require Reals Lra Psatz QArith Qreals.
Import ListNotations.

Set Warnings "-inexact-float".

(** ** C++ scalars and outcomes *)

Module Cxx.

Definition double := float.

Definition INT_MAX : Z := 2147483647.

(** Narrowing of a [size_t] to [int] (two's complement, 32 bits). *)
Definition to_int (z : Z) : Z := ((z + 2147483648) mod 4294967296 - 2147483648)%Z.

(** Conversion of an [int] to [size_t] in a mixed comparison (64 bits). *)
Definition to_size_t (z : Z) : Z := (z mod 18446744073709551616)%Z.

(** Conversion of an [int] to [double]; exact on the whole [int] range. *)
Definition double_of_int (z : Z) : double :=
  if (z <? 0)%Z then PrimFloat.opp (PrimFloat.of_uint63 (Uint63.of_Z (- z)))
  else PrimFloat.of_uint63 (Uint63.of_Z z).

(** What running a piece of code can do: return a value, hit undefined
    behaviour (a zero divisor, an index out of range, a signed overflow),
    or still be looping when the fuel given to its [while] loops is
    spent. *)
Inductive outcome (A : Type) : Type :=
| Ret (a : A)
| Undefined
| OutOfFuel.
Arguments Ret {A} a.
Arguments Undefined {A}.
Arguments OutOfFuel {A}.

Definition bind {A B : Type} (x : outcome A) (k : A -> outcome B) : outcome B :=
  match x with
  | Ret a => k a
  | Undefined => Undefined
  | OutOfFuel => OutOfFuel
  end.

(** The built-in [/] on doubles: a zero divisor is undefined behaviour
    ([expr.mul]); a NaN divisor is not zero. *)
Definition fdiv (x y : double) : outcome double :=
  if PrimFloat.eqb y 0%float then Undefined else Ret (PrimFloat.div x y).

(** [x / n] with [n] an [int] promoted to [double]: the promoted divisor is
    zero exactly when [n] is. *)
Definition fdiv_int (x : double) (n : Z) : outcome double :=
  if (n =? 0)%Z then Undefined else Ret (PrimFloat.div x (double_of_int n)).

(** [v[i]] on a [std::vector]: out of range is undefined behaviour. *)
Definition at_index {A : Type} (v : list A) (i : nat) : outcome A :=
  match nth_error v i with
  | Some x => Ret x
  | None => Undefined
  end.

(** [v.push_back(x)]. *)
Definition push_back {A : Type} (v : list A) (x : A) : list A := v ++ [x].

Section ForLoop.

(** [for (int i = 0; i < n; i++) { ... if (...) break; }]: one pass of the
    body takes the state on entry to a record of what the pass did, which
    holds the state it leaves ([after]) and whether it ended at [break]
    ([left_loop]). *)
Context {St Ev : Type}.
Variable body : St -> outcome Ev.
Variable after : Ev -> St.
Variable left_loop : Ev -> bool.

(** The loop with [remaining] passes left; returns the log of the passes
    made and how the loop ended: in a final state, or in the pass that did
    not return. *)
Fixpoint for_loop (remaining : nat) (st : St) : list Ev * outcome St :=
  match remaining with
  | O => ([], Ret st)
  | S remaining' =>
      match body st with
      | Ret ev =>
          if left_loop ev then ([ev], Ret (after ev))
          else
            let '(evs, r) := for_loop remaining' (after ev) in
            (ev :: evs, r)
      | Undefined => ([], Undefined)
      | OutOfFuel => ([], OutOfFuel)
      end
  end.

End ForLoop.

End Cxx.

Import Cxx.

Declare Scope outcome_scope.
Delimit Scope outcome_scope with outcome.
Notation "x <- c1 ;; c2" := (bind c1 (fun x => c2))
  (at level 61, c1 at next level, right associativity) : outcome_scope.
Notation "' pat <- c1 ;; c2" := (bind c1 (fun x => match x with pat => c2 end))
  (at level 61, pat pattern, c1 at next level, right associativity) : outcome_scope.

(** ** RANSAC_line.cpp *)

Module Line.

Local Open Scope float_scope.
Local Open Scope outcome_scope.

(** [Pair<double, double>]: [first] is x, [second] is y. *)
Definition Point2 : Type := double * double.

Record LineModel : Type := { m : double; b : double }.

(** [LineModel() = default] with the member initialisers [m = 0], [b = 0]. *)
Definition LineModel_default : LineModel := {| m := 0; b := 0 |}.

Definition sentinel_slope : double := 1e10.

(** [LineModel(p1, p2)]. *)
Definition LineModel_from (p1 p2 : Point2) : outcome LineModel :=
  m_ <- (if negb (fst p2 - fst p1 =? 0)
         then fdiv (snd p2 - snd p1) (fst p2 - fst p1)
         else Ret sentinel_slope) ;;
  Ret {| m := m_; b := snd p1 - m_ * fst p1 |}.

(** [LineModel::computeError]. *)
Definition computeError (model : LineModel) (pt : Point2) : double :=
  let y_estimated := m model * fst pt + b model in
  abs (y_estimated - snd pt).

(** The four running sums of [FitLeastSquares], in the order
    [(sumX, sumY, sumX2, sumXY)]. *)
Definition Sums : Type := (double * double * double * double)%type.

Definition accumulate (acc : Sums) (pt : Point2) : Sums :=
  let '(sumX, sumY, sumX2, sumXY) := acc in
  (sumX + fst pt, sumY + snd pt, sumX2 + fst pt * fst pt, sumXY + fst pt * snd pt).

(** [RANSAC::FitLeastSquares]. *)
Definition FitLeastSquares (points : list Point2) : outcome LineModel :=
  let '(sumX, sumY, sumX2, sumXY) := fold_left accumulate points (0, 0, 0, 0) in
  let n := to_int (Z.of_nat (length points)) in
  let denom := double_of_int n * sumX2 - sumX * sumX in
  if denom =? 0 then Ret LineModel_default
  else
    m_ <- fdiv (double_of_int n * sumXY - sumX * sumY) denom ;;
    b_ <- fdiv_int (sumY - m_ * sumX) n ;;
    Ret {| m := m_; b := b_ |}.

(** The fields of [class RANSAC]. *)
Record RANSAC : Type := {
  data : list Point2;
  tolerance : double;
  max_iterations : Z;
  threshold : Z
}.

(** The consensus loop of [run]:
    [for (pt : data) if (model.computeError(pt) < tolerance) push_back]. *)
Definition consensus_loop (self : RANSAC) (model : LineModel) : list Point2 :=
  fold_left
    (fun consensus_set pt =>
       if computeError model pt <? tolerance self
       then push_back consensus_set pt else consensus_set)
    (data self) [].

(** The condition of the resampling loop,
    [pt1.first == pt2.first && pt1.second == pt2.second]. *)
Definition same_point (pt1 pt2 : Point2) : bool :=
  (fst pt1 =? fst pt2) && (snd pt1 =? snd pt2).

Section Run.

(** The process-wide generator behind [rand()]: [rnd k] is the value of
    the [k]-th call, the state is the number of calls made so far. *)
Variable rnd : nat -> N.

Variable self : RANSAC.

Definition rand (calls : nat) : N * nat := (rnd calls, S calls).

(** [data[rand() % data.size()]]; [%] by zero is undefined behaviour. *)
Definition draw (calls : nat) : outcome (Point2 * nat) :=
  let '(r, calls') := rand calls in
  match length (data self) with
  | O => Undefined
  | size => pt <- at_index (data self) (N.to_nat r mod size) ;; Ret (pt, calls')
  end.

(** [while (pt1 == pt2) Pair<double,double> pt2 = data[rand() % size];]
    The body declares a fresh [pt2] that goes out of scope at once: the
    [pt2] of the condition is never assigned.  [fuel] bounds the number of
    times the body is run. *)
Fixpoint resample (fuel : nat) (pt1 pt2 : Point2) (calls : nat) : outcome nat :=
  if same_point pt1 pt2
  then
    match fuel with
    | O => OutOfFuel
    | S fuel' => '(_, calls') <- draw calls ;; resample fuel' pt1 pt2 calls'
    end
  else Ret calls.

Record State : Type := {
  bestModel : LineModel;
  bestInLiers : Z;
  calls : nat
}.

(** What one pass through the body of the [for] loop did. *)
Record Event : Type := {
  sample : Point2 * Point2;
  candidate : LineModel;
  consensus_set : list Point2;
  before : State;
  after : State;
  left_loop : bool
}.

Definition initial : State :=
  {| bestModel := LineModel_default; bestInLiers := 0; calls := 0 |}.

(** The body of the [for] loop. *)
Definition iteration (fuel : nat) (st : State) : outcome Event :=
  '(pt1, c1) <- draw (calls st) ;;
  '(pt2, c2) <- draw c1 ;;
  c3 <- resample fuel pt1 pt2 c2 ;;
  model <- LineModel_from pt1 pt2 ;;
  let cs := consensus_loop self model in
  st' <- (if (Z.of_nat (length cs) >? to_size_t (bestInLiers st))%Z
          then
            refit <- FitLeastSquares cs ;;
            Ret {| bestModel := refit;
                   bestInLiers := to_int (Z.of_nat (length cs));
                   calls := c3 |}
          else
            Ret {| bestModel := bestModel st;
                   bestInLiers := bestInLiers st;
                   calls := c3 |}) ;;
  Ret {| sample := (pt1, pt2); candidate := model; consensus_set := cs;
         before := st; after := st';
         left_loop := (bestInLiers st' >=? threshold self)%Z |}.

(** [for (int i = 0; i < max_iterations; i++)]; no pass is made when
    [max_iterations] is zero or negative. *)
Definition run_log (fuel : nat) : list Event * outcome State :=
  for_loop (iteration fuel) after left_loop (Z.to_nat (max_iterations self)) initial.

(** [RANSAC::run]. *)
Definition run (fuel : nat) : outcome LineModel :=
  final <- snd (run_log fuel) ;; Ret (bestModel final).

End Run.

End Line.


(** ** Eigen::Vector3d

    Eigen is an external library; the operations the program calls are
    written out from their documented meaning.  The sums of three terms are
    taken left to right; Eigen may associate them otherwise, and nothing
    proved below depends on the order. *)

Module Eigen.

Local Open Scope float_scope.

Record Vector3d : Type := { x : double; y : double; z : double }.

Definition Zero : Vector3d := {| x := 0; y := 0; z := 0 |}.

Definition plus (u v : Vector3d) : Vector3d :=
  {| x := x u + x v; y := y u + y v; z := z u + z v |}.

Definition minus (u v : Vector3d) : Vector3d :=
  {| x := x u - x v; y := y u - y v; z := z u - z v |}.

Definition negate (u : Vector3d) : Vector3d :=
  {| x := - x u; y := - y u; z := - z u |}.

(** [u / s] and [u /= s] with a scalar. *)
Definition over (u : Vector3d) (s : double) : Vector3d :=
  {| x := x u / s; y := y u / s; z := z u / s |}.

Definition cross (u v : Vector3d) : Vector3d :=
  {| x := y u * z v - z u * y v;
     y := z u * x v - x u * z v;
     z := x u * y v - y u * x v |}.

Definition dot (u v : Vector3d) : double := x u * x v + y u * y v + z u * z v.

Definition squaredNorm (u : Vector3d) : double := dot u u.

Definition norm (u : Vector3d) : double := PrimFloat.sqrt (squaredNorm u).

(** [normalized()] leaves a vector of squared norm zero (or NaN) as it is. *)
Definition normalized (u : Vector3d) : Vector3d :=
  let n := squaredNorm u in
  if 0 <? n then over u (PrimFloat.sqrt n) else u.

(** A [size_t] promoted to the scalar type [double]. *)
Definition scalar_of_size (n : nat) : double :=
  PrimFloat.of_uint63 (Uint63.of_Z (Z.of_nat n)).

End Eigen.

(** ** RANSAC_plane.cpp *)

Module Plane.

Import Eigen.
Local Open Scope float_scope.
Local Open Scope outcome_scope.

Definition Point3d : Type := Vector3d.

Record PlaneModel : Type := {
  a : double;
  b : double;
  c : double;
  d : double;
  normal : Point3d
}.

(** [PlaneModel()]: value-initialisation of a class whose default
    constructor is defaulted zero-fills the object first, [normal]
    included, then applies the member initialisers. *)
Definition PlaneModel_default : PlaneModel :=
  {| a := 0; b := 0; c := 0; d := 0; normal := Zero |}.

(** [PlaneModel(pt1, pt2, pt3)].  The constructor is user-provided, so
    [normal] starts out holding whatever its storage held
    ([indeterminate]) and keeps it on the early return. *)
Definition PlaneModel_from_points (indeterminate : Point3d) (pt1 pt2 pt3 : Point3d)
  : PlaneModel :=
  let V1 := minus pt2 pt1 in
  let V2 := minus pt3 pt1 in
  let cross_product := cross V1 V2 in
  if norm cross_product <? 1e-9
  then {| a := 0; b := 0; c := 0; d := 0; normal := indeterminate |}
  else
    let normal := normalized cross_product in
    {| a := x normal; b := y normal; c := z normal;
       d := - dot normal pt1; normal := normal |}.

(** [PlaneModel(normal_vec, centroid)]. *)
Definition PlaneModel_from_normal (normal_vec centroid : Point3d) : PlaneModel :=
  let normal := normalized normal_vec in
  {| a := x normal; b := y normal; c := z normal;
     d := - dot normal centroid; normal := normal |}.

Definition sentinel_distance : double := 1e10.

(** [PlaneModel::computeDistance]. *)
Definition computeDistance (model : PlaneModel) (pt : Point3d) : double :=
  if a model * a model + b model * b model + c model * c model <? 1e-18
  then sentinel_distance
  else abs (a model * x pt + b model * y pt + c model * z pt + d model).

(** [PlaneModel::isValid]. *)
Definition isValid (model : PlaneModel) : bool := 1e-9 <? norm (normal model).

(** The fields of [class RANSAC] but the generator. *)
Record RANSAC : Type := {
  data : list Point3d;
  error_tolerance : double;
  max_iterations : Z;
  min_consensus : Z
}.

Section Methods.

(** [Eigen::JacobiSVD<MatrixXd>(centered_data, ComputeThinV).matrixV().col(2)]
    as a function of the rows of [centered_data]. *)
Variable JacobiSVD_V_col2 : list Point3d -> Point3d.

(** [std::shuffle(indices.begin(), indices.end(), rng)]: [shuffle k v] is
    what the [k]-th shuffle of the run makes of [v]. *)
Variable shuffle : nat -> list nat -> list nat.

(** The content of a [normal] that was never written. *)
Variable indeterminate : Point3d.

Variable self : RANSAC.

(** [RANSAC::fitModel]. *)
Definition fitModel (consensus_set : list Point3d) : PlaneModel :=
  if (length consensus_set <? 3)%nat then PlaneModel_default
  else
    let centroid := fold_left plus consensus_set Zero in
    let centroid := over centroid (scalar_of_size (length consensus_set)) in
    let centered_data := map (fun pt => minus pt centroid) consensus_set in
    let normal_vector := JacobiSVD_V_col2 centered_data in
    let normal_vector :=
      if 0 <? dot normal_vector centroid then negate normal_vector else normal_vector in
    PlaneModel_from_normal normal_vector centroid.

(** [RANSAC::getConsensusSet]. *)
Definition getConsensusSet (model : PlaneModel) : list Point3d :=
  if negb (isValid model) then []
  else
    fold_left
      (fun consensus_set pt =>
         if computeDistance model pt <? error_tolerance self
         then push_back consensus_set pt else consensus_set)
      (data self) [].

(** [RANSAC::areCollinear]. *)
Definition areCollinear (p1 p2 p3 : Point3d) : bool :=
  let v1 := minus p2 p1 in
  let v2 := minus p3 p1 in
  norm (cross v1 v2) <? 1e-9.

(** The scan for three non-collinear points, [remaining] passes left:
    [Some model] when [found_valid_sample] ends up true. *)
Fixpoint find_sample (remaining attempt : nat) (indices : list nat)
  : outcome (option PlaneModel) :=
  match remaining with
  | O => Ret None
  | S remaining' =>
      if (length indices <? 3)%nat then Ret None
      else
        i1 <- at_index indices attempt ;;
        p1 <- at_index (data self) i1 ;;
        i2 <- at_index indices (attempt + 1) ;;
        p2 <- at_index (data self) i2 ;;
        i3 <- at_index indices (attempt + 2) ;;
        p3 <- at_index (data self) i3 ;;
        if negb (areCollinear p1 p2 p3)
        then
          let currentModel := PlaneModel_from_points indeterminate p1 p2 p3 in
          if isValid currentModel then Ret (Some currentModel)
          else find_sample remaining' (S attempt) indices
        else find_sample remaining' (S attempt) indices
  end.

Record State : Type := {
  bestInliersCount : Z;
  bestConsensusSet : list Point3d;
  attempts_without_improvement : Z;
  shuffles : nat
}.

(** What one pass through the body of the outer [for] loop did;
    [candidate] is [None] when the pass ended at [continue], and the pass
    then has no consensus set ([consensus_set] is empty). *)
Record Event : Type := {
  candidate : option PlaneModel;
  consensus_set : list Point3d;
  before : State;
  after : State;
  left_loop : bool
}.

Definition initial : State :=
  {| bestInliersCount := 0; bestConsensusSet := [];
     attempts_without_improvement := 0; shuffles := 0 |}.

Definition max_attempts_without_improvement : Z := (max_iterations self ÷ 4)%Z.

(** The body of the outer [for] loop. *)
Definition iteration (st : State) : outcome Event :=
  let size := length (data self) in
  let indices := shuffle (shuffles st) (seq 0 size) in
  found <- find_sample (Z.to_nat (Z.min 10 (to_int (Z.of_nat size) - 2))) 0 indices ;;
  match found with
  | None =>
      Ret {| candidate := None; consensus_set := []; before := st;
             after := {| bestInliersCount := bestInliersCount st;
                         bestConsensusSet := bestConsensusSet st;
                         attempts_without_improvement := attempts_without_improvement st;
                         shuffles := S (shuffles st) |};
             left_loop := false |}
  | Some currentModel =>
      let currentConsensusSet := getConsensusSet currentModel in
      let st' :=
        if (to_int (Z.of_nat (length currentConsensusSet)) >? bestInliersCount st)%Z
        then {| bestInliersCount := to_int (Z.of_nat (length currentConsensusSet));
                bestConsensusSet := currentConsensusSet;
                attempts_without_improvement := 0;
                shuffles := S (shuffles st) |}
        else {| bestInliersCount := bestInliersCount st;
                bestConsensusSet := bestConsensusSet st;
                attempts_without_improvement := attempts_without_improvement st + 1;
                shuffles := S (shuffles st) |} in
      Ret {| candidate := Some currentModel; consensus_set := currentConsensusSet;
             before := st; after := st';
             left_loop := (bestInliersCount st' >=? min_consensus self)%Z
                          && (attempts_without_improvement st'
                              >? max_attempts_without_improvement)%Z |}
  end.

(** [for (int i = 0; i < max_iterations; i++)]; no pass is made when
    [max_iterations] is zero or negative. *)
Definition run_log : list Event * outcome State :=
  for_loop iteration after left_loop (Z.to_nat (max_iterations self)) initial.

(** The part of [run] after the loop. *)
Definition final_fit (best : list Point3d) : PlaneModel :=
  if negb (match best with [] => true | _ => false end) && (3 <=? length best)%nat
  then
    let finalModel := fitModel best in
    if isValid finalModel then finalModel else PlaneModel_default
  else PlaneModel_default.

(** [RANSAC::run]. *)
Definition run : outcome PlaneModel :=
  if (length (data self) <? 3)%nat then Ret PlaneModel_default
  else
    final <- snd run_log ;;
    Ret (final_fit (bestConsensusSet final)).

(** One pass of the loop of [evaluateModel] over [(total_error,
    inlier_count)]; [inlier_count++] on [INT_MAX] is a signed overflow. *)
Definition tally (model : PlaneModel) (acc : outcome (double * Z)) (pt : Point3d)
  : outcome (double * Z) :=
  '(total_error, inlier_count) <- acc ;;
  let dist := computeDistance model pt in
  if dist <? error_tolerance self
  then
    if (inlier_count >=? INT_MAX)%Z then Undefined
    else Ret (total_error + dist, (inlier_count + 1)%Z)
  else Ret (total_error, inlier_count).

(** [RANSAC::evaluateModel]. *)
Definition evaluateModel (model : PlaneModel) : outcome double :=
  if negb (isValid model) then Ret sentinel_distance
  else
    '(total_error, inlier_count) <- fold_left (tally model) (data self) (Ret (0, 0%Z)) ;;
    if (inlier_count =? 0)%Z then Ret sentinel_distance
    else fdiv_int total_error inlier_count.

End Methods.

End Plane.



(** * Notions used in the statements *)

(** ** Passes of a loop *)

Section PassesOf.

Context {St Ev : Type}.
Variable body : St -> outcome Ev.
Variable after : Ev -> St.

(** [passes st log final]: the passes recorded in [log], made one after
    the other from [st], end in [final]. *)
Inductive passes : St -> list Ev -> St -> Prop :=
| passes_nil (st : St) : passes st [] st
| passes_cons (st : St) (ev : Ev) (evs : list Ev) (final : St) :
    body st = Ret ev -> passes (after ev) evs final -> passes st (ev :: evs) final.

End PassesOf.

Section UpdateRule.

Context {St Ev Kept : Type}.
Variable after : Ev -> St.

(** The best-inlier count of a state and what is kept along with it. *)
Variable best : St -> Z.
Variable kept : St -> Kept.

(** The size of the consensus set of a pass and what the pass would have
    the state keep. *)
Variable size : Ev -> Z.
Variable gain : Ev -> Kept.

(** The update rule: a strictly larger consensus set replaces the best
    count and what is kept, anything else leaves both alone. *)
Definition tracked (st : St) (ev : Ev) : Prop :=
  (best st < size ev /\ best (after ev) = size ev /\ kept (after ev) = gain ev)%Z
  \/ (size ev <= best st /\ best (after ev) = best st /\ kept (after ev) = kept st)%Z.

End UpdateRule.

(** [last_best cs log ev]: [ev] is the pass of [log] whose consensus set
    [cs ev] is larger than those of the passes before it and at least as
    large as those of the passes after it, that is the last pass that beat
    the best-inlier count. *)
Definition last_best {Ev A : Type} (cs : Ev -> list A) (log : list Ev) (ev : Ev) : Prop :=
  exists l1 l2,
    log = l1 ++ ev :: l2
    /\ Forall (fun e => length (cs e) < length (cs ev)) l1
    /\ Forall (fun e => length (cs e) <= length (cs ev)) l2.

(** ** Runs of the line variant *)

Module LineLog.

Import Line.

Section Notions.

Variable rnd : nat -> N.
Variable self : RANSAC.

(** The points are few enough for their number to fit an [int]. *)
Definition countable : Prop := (Z.of_nat (length (data self)) <= INT_MAX)%Z.

Definition Inv (st : State) : Prop :=
  (0 <= bestInLiers st <= Z.of_nat (length (data self)))%Z.

Definition size (ev : Event) : Z := Z.of_nat (length (consensus_set ev)).

Definition kept (st : State) : outcome LineModel := Ret (bestModel st).

Definition gain (ev : Event) : outcome LineModel := FitLeastSquares (consensus_set ev).

(** The point that the [k]-th call of [rand()] picks. *)
Definition pick (k : nat) : Point2 :=
  nth (N.to_nat (rnd k) mod length (data self)) (data self) (0, 0)%float.

(** In each pass of the budget the two draws pick points that the
    resampling loop tells apart: pass [i] makes the calls [2 i] and
    [2 i + 1]. *)
Definition distinct_draws : bool :=
  forallb (fun i => negb (same_point (pick (2 * i)) (pick (2 * i + 1))))
    (seq 0 (Z.to_nat (max_iterations self))).

(** The two draws of every pass that a run starts differ.  The run is
    followed pass by pass, with [remaining] passes of the budget left:
    the pass that starts in [st] draws with the calls [calls st] and
    [calls st + 1], and another pass starts after it unless it ended at
    [break].  The draws that the budget would allow after the [break] are
    not looked at. *)
Fixpoint draws_differ_from (fuel remaining : nat) (st : State) : bool :=
  match remaining with
  | O => true
  | S remaining' =>
      negb (same_point (pick (calls st)) (pick (S (calls st))))
      && match iteration rnd self fuel st with
         | Ret ev => left_loop ev || draws_differ_from fuel remaining' (after ev)
         | Undefined | OutOfFuel => true
         end
  end.

Definition draws_differ (fuel : nat) : bool :=
  draws_differ_from fuel (Z.to_nat (max_iterations self)) initial.

End Notions.

End LineLog.

(** ** Runs of the plane variant *)

Module PlaneLog.

Import Eigen Plane.

Section Notions.

Variable indeterminate : Point3d.
Variable self : RANSAC.

(** The points are few enough for their number to fit an [int]. *)
Definition countable : Prop := (Z.of_nat (length (data self)) <= INT_MAX)%Z.

Definition Inv (st : State) : Prop :=
  (0 <= bestInliersCount st <= Z.of_nat (length (data self)))%Z.

Definition size (ev : Event) : Z := Z.of_nat (length (consensus_set ev)).

(** A pass that left the best-inlier count as it was. *)
Definition stale (ev : Event) : Prop :=
  bestInliersCount (after ev) = bestInliersCount (before ev).

(** A candidate is a valid model through three stored points that
    [areCollinear] does not take for collinear. *)
Definition sampled (model : PlaneModel) : Prop :=
  isValid model = true
  /\ exists p1 p2 p3,
       List.In p1 (data self) /\ List.In p2 (data self) /\ List.In p3 (data self)
       /\ areCollinear p1 p2 p3 = false
       /\ model = PlaneModel_from_points indeterminate p1 p2 p3.

End Notions.

End PlaneLog.

(** ** Least squares as the normal equations state it *)

Module LeastSquares.

Import Line.
Local Open Scope float_scope.

(** The sums of the normal equations, each taken on its own, in the order
    of the consensus set. *)
Definition Sigma (f : Point2 -> double) (points : list Point2) : double :=
  fold_left (fun s pt => s + f pt) points 0.

Definition count (points : list Point2) : double :=
  double_of_int (Z.of_nat (length points)).

(** [n Σx² − (Σx)²]. *)
Definition denominator (points : list Point2) : double :=
  count points * Sigma (fun pt => fst pt * fst pt) points
  - Sigma fst points * Sigma fst points.

(** [m = (n Σxy − Σx Σy) / (n Σx² − (Σx)²)]. *)
Definition slope (points : list Point2) : double :=
  (count points * Sigma (fun pt => fst pt * snd pt) points
   - Sigma fst points * Sigma snd points) / denominator points.

(** [b = (Σy − m Σx) / n]. *)
Definition intercept (points : list Point2) : double :=
  (Sigma snd points - slope points * Sigma fst points) / count points.

End LeastSquares.

(** ** The mean distance of the points within the tolerance *)

Module Quality.

Import Eigen Plane.
Local Open Scope float_scope.

Section Score.

Variable self : RANSAC.
Variable model : PlaneModel.

Definition close (pt : Point3d) : bool :=
  computeDistance model pt <? error_tolerance self.

(** The points strictly within the tolerance. *)
Definition within : list Point3d := filter close (data self).

(** The arithmetic mean of their distances. *)
Definition mean_distance : double :=
  fold_left (fun s pt => s + computeDistance model pt) within 0
  / double_of_int (Z.of_nat (length within)).

End Score.

End Quality.

(** ** The centroid and the centred points of [fitModel] *)

Definition centroid_of (consensus_set : list Plane.Point3d) : Plane.Point3d :=
  Eigen.over (fold_left Eigen.plus consensus_set Eigen.Zero)
    (Eigen.scalar_of_size (length consensus_set)).

Definition centered_on_centroid (consensus_set : list Plane.Point3d)
  : list Plane.Point3d :=
  map (fun pt => Eigen.minus pt (centroid_of consensus_set)) consensus_set.

(** ** The best count as the size of the best set *)

(** The best count of a state of the plane variant is the size of its best
    set, which holds no more points than the store. *)
Definition sized (self : Plane.RANSAC) (st : Plane.State) : Prop :=
  Plane.bestInliersCount st = Z.of_nat (length (Plane.bestConsensusSet st))
  /\ (length (Plane.bestConsensusSet st) <= length (Plane.data self))%nat.

(** ** Doubles as real numbers *)

Module RealValue.

Import Reals.
Local Open Scope R_scope.

(** The real number [m * 2 ^ e]. *)
Definition F2R (m e : Z) : R := IZR m * powerRZ 2 e.

(** The real number that a finite binary64 number stands for; 0 for the
    others. *)
Definition SF2R (u : spec_float) : R :=
  match u with
  | S754_finite s m e => F2R (cond_Zopp s (Zpos m)) e
  | _ => 0
  end.

Definition value (r : float) : R := SF2R (Prim2SF r).



(** A normal number: finite, with a mantissa of 53 bits. *)
Definition normal (r : float) : bool :=
  match Prim2SF r with
  | S754_finite _ m _ => (4503599627370496 <=? Zpos m)%Z
  | _ => false
  end.

Definition is_zero (r : float) : bool :=
  match Prim2SF r with
  | S754_zero _ => true
  | _ => false
  end.







End RealValue.


(** ** Binary64 numbers that are not a zero *)

Definition not_a_zero (x : spec_float) : bool :=
  match x with
  | S754_zero _ => false
  | _ => true
  end.

(** Two binary64 numbers that are the same, or both a zero. *)
Definition same_or_zeros (u v : spec_float) : Prop :=
  u = v \/ (not_a_zero u = false /\ not_a_zero v = false).

(** A double that is a zero of either sign, or a NaN. *)
Definition zero_or_nan (r : float) : Prop :=
  match Prim2SF r with
  | S754_zero _ | S754_nan => True
  | _ => False
  end.

(** A binary64 number whose sign bit is clear, or a NaN. *)
Definition sign_clear (u : spec_float) : Prop :=
  match u with
  | S754_nan => True
  | S754_zero s | S754_infinity s | S754_finite s _ _ => s = false
  end.

(** ** The same store with another tolerance *)

Definition line_with_tolerance (self : Line.RANSAC) (tol : double) : Line.RANSAC :=
  {| Line.data := Line.data self; Line.tolerance := tol;
     Line.max_iterations := Line.max_iterations self;
     Line.threshold := Line.threshold self |}.

Definition plane_with_tolerance (self : Plane.RANSAC) (tol : double) : Plane.RANSAC :=
  {| Plane.data := Plane.data self; Plane.error_tolerance := tol;
     Plane.max_iterations := Plane.max_iterations self;
     Plane.min_consensus := Plane.min_consensus self |}.

(** ** Inputs to try the statements on *)

Definition pt3 (x y z : double) : Eigen.Vector3d :=
  {| Eigen.x := x; Eigen.y := y; Eigen.z := z |}.

(** The points of [main] in [RANSAC_line.cpp], with its tolerance, budget
    and threshold. *)
Definition line_of_main : Line.RANSAC :=
  {| Line.data :=
       [(0, 1.2); (1, 3.1); (2, 5.0); (3, 6.8); (4, 9.2);
        (5, 10.9); (6, 13.0); (7, 15.1); (8, 16.8); (9, 19.2);
        (1, 10.0); (2, -3.5); (3, 20.0); (4, 1.0); (6, 25.0);
        (7, -5.0); (8, 30.0); (10, -10.0); (11, 35.0); (12, 0.0)]%float;
     Line.tolerance := 0.5%float;
     Line.max_iterations := 100%Z;
     Line.threshold := 10%Z |}.

(** A generator that picks the points in turn. *)
Definition in_turn (k : nat) : N := N.of_nat k.

(** A generator whose first eight values are 10, 3, 0, 10, 1, 2, 0, 9 and
    that picks the points in turn from then on. *)
Definition eight_draws (k : nat) : N :=
  nth k [10; 3; 0; 10; 1; 2; 0; 9]%N (N.of_nat k).

(** A generator with the same first eight values that gives 0 from then
    on. *)
Definition eight_then_zero (k : nat) : N :=
  nth k [10; 3; 0; 10; 1; 2; 0; 9]%N 0%N.

(** A generator that gives 0 twice and then goes on as [later] says. *)
Definition twice_zero (later : nat -> N) (k : nat) : N :=
  match k with
  | O | S O => 0%N
  | _ => later k
  end.

(** Four points on [y = 2x + 1], and three points one above the other. *)
Definition on_the_line : list Line.Point2 :=
  [(0, 1); (1, 3); (2, 5); (3, 7)]%float.

Definition upright : list Line.Point2 := [(1, 0); (1, 5); (1, 9)]%float.

(** Two points one above the other, a budget of one pass and a threshold of
    two points. *)
Definition upright_pair : Line.RANSAC :=
  {| Line.data := [(1, 0); (1, 5)]%float;
     Line.tolerance := 0.5%float;
     Line.max_iterations := 1%Z;
     Line.threshold := 2%Z |}.

(** The points of [main] in [RANSAC_plane.cpp] with its tolerance, a budget
    of 12 passes and a threshold of 8 points. *)
Definition plane_of_main : Plane.RANSAC :=
  {| Plane.data :=
       [pt3 1.0 1.0 3.5; pt3 2.0 1.0 5.5; pt3 1.0 2.0 4.0; pt3 3.0 2.0 8.0;
        pt3 0.0 0.0 1.0; pt3 2.5 1.5 7.25; pt3 1.5 0.5 4.25; pt3 0.5 1.5 2.75;
        pt3 10.0 10.0 10.0; pt3 10.0 20.0 10.0; pt3 5.0 5.0 100.0;
        pt3 (-5.0) (-5.0) (-5.0); pt3 50.0 1.0 1.0; pt3 20.0 20.0 5.0;
        pt3 1.0 1.0 (-50.0); pt3 (-10.0) 10.0 10.0]%float;
     Plane.error_tolerance := 0.4%float;
     Plane.max_iterations := 12%Z;
     Plane.min_consensus := 8%Z |}.

(** A shuffle that rotates the vector, further at each call. *)
Definition rotation (k : nat) (v : list nat) : list nat :=
  let r := (11 * (k + 1) mod length v)%nat in skipn r v ++ firstn r v.

(** A stand-in for the decomposition, to run [fitModel] on: the normal of
    the plane spanned by the first two centred rows. *)
Definition two_row_normal (rows : list Plane.Point3d) : Plane.Point3d :=
  match rows with
  | r1 :: r2 :: _ => Eigen.cross r1 r2
  | _ => Eigen.Zero
  end.

(** The plane [z = 0], and a store with two points on it, one a quarter
    above and one far away. *)
Definition ground : Plane.PlaneModel :=
  (Plane.PlaneModel_from_normal (pt3 0 0 2) (pt3 0 0 0))%float.

Definition scattered : Plane.RANSAC :=
  {| Plane.data := [pt3 1 0 0; pt3 0 1 0.25; pt3 2 2 0; pt3 0 0 50]%float;
     Plane.error_tolerance := 0.5%float;
     Plane.max_iterations := 4%Z; Plane.min_consensus := 3%Z |}.

(** One point and a tolerance above the sentinel distance. *)
Definition lax : Plane.RANSAC :=
  {| Plane.data := [Eigen.Zero]; Plane.error_tolerance := 1e11%float;
     Plane.max_iterations := 1%Z; Plane.min_consensus := 1%Z |}.

(** [scattered] with a tolerance of zero. *)
Definition scattered_strict : Plane.RANSAC :=
  {| Plane.data := Plane.data scattered; Plane.error_tolerance := 0%float;
     Plane.max_iterations := 4%Z; Plane.min_consensus := 3%Z |}.

(** The four points on [y = 2x + 1] with a tolerance of zero, a budget of
    three passes and a threshold of two points. *)
Definition on_the_line_strict : Line.RANSAC :=
  {| Line.data := on_the_line; Line.tolerance := 0%float;
     Line.max_iterations := 3%Z; Line.threshold := 2%Z |}.

(** An empty store and a budget of zero passes; the points of [main] and
    a negative budget. *)
Definition no_budget_line : Line.RANSAC :=
  {| Line.data := []; Line.tolerance := 0.5%float;
     Line.max_iterations := 0%Z; Line.threshold := 2%Z |}.

Definition no_budget_plane : Plane.RANSAC :=
  {| Plane.data := Plane.data plane_of_main; Plane.error_tolerance := 0.4%float;
     Plane.max_iterations := (-1)%Z; Plane.min_consensus := 8%Z |}.

(** The points of [main] with a threshold of zero points. *)
Definition no_threshold : Line.RANSAC :=
  {| Line.data := Line.data line_of_main; Line.tolerance := 0.5%float;
     Line.max_iterations := 100%Z; Line.threshold := 0%Z |}.

(** Three times the same point. *)
Definition thrice : Line.RANSAC :=
  {| Line.data := [(1, 2); (1, 2); (1, 2)]%float; Line.tolerance := 0.5%float;
     Line.max_iterations := 100%Z; Line.threshold := 2%Z |}.

(** Three points on one line in space, with the budget and the tolerance
    of [scattered]. *)
Definition aligned : Plane.RANSAC :=
  {| Plane.data := [pt3 0 0 0; pt3 1 1 1; pt3 2 2 2; pt3 3 3 3]%float;
     Plane.error_tolerance := 0.5%float;
     Plane.max_iterations := 4%Z; Plane.min_consensus := 3%Z |}.

(** The sixteen indices of the points of [main], in order and with the
    last four turned round. *)
Definition sixteen : list nat := seq 0 16.

Definition sixteen_turned : list nat := seq 0 12 ++ [15; 14; 13; 12]%nat.

(** The four points on [y = 2x + 1] with a threshold of five points, and
    [scattered] with a threshold of five points. *)
Definition out_of_reach_line : Line.RANSAC :=
  {| Line.data := on_the_line; Line.tolerance := 0.5%float;
     Line.max_iterations := 3%Z; Line.threshold := 5%Z |}.

Definition out_of_reach_plane : Plane.RANSAC :=
  {| Plane.data := Plane.data scattered; Plane.error_tolerance := 0.5%float;
     Plane.max_iterations := 4%Z; Plane.min_consensus := 5%Z |}.


(** * Properties *)

(** ** Integers and loops that collect *)

Section Prelude.

Local Open Scope Z_scope.

Lemma to_int_id (z : Z) : 0 <= z <= INT_MAX -> to_int z = z.
Proof.
  unfold to_int, INT_MAX. intros Hz.
  rewrite Z.mod_small by lia. lia.
Qed.

Lemma to_size_t_id (z : Z) : 0 <= z <= INT_MAX -> to_size_t z = z.
Proof.
  unfold to_size_t, INT_MAX. intros Hz.
  apply Z.mod_small. lia.
Qed.

Lemma push_back_loop {A : Type} (keep : A -> bool) (v acc : list A) :
  fold_left (fun cs pt => if keep pt then push_back cs pt else cs) v acc
  = acc ++ filter keep v.
Proof.
  revert acc. induction v as [|pt v IH]; intros acc; simpl.
  - now rewrite app_nil_r.
  - rewrite IH. destruct (keep pt); unfold push_back; simpl.
    + now rewrite <- app_assoc.
    + reflexivity.
Qed.

Lemma filter_length_le {A : Type} (keep : A -> bool) (v : list A) :
  (length (filter keep v) <= length v)%nat.
Proof.
  induction v as [|pt v IH]; simpl; [lia|].
  destruct (keep pt); simpl; lia.
Qed.

End Prelude.

(** ** Binary64 arithmetic

    Facts of IEEE-754 double arithmetic that the statements rest on, derived
    from the specification of the primitive operations ([SpecFloat]). *)

Module Binary64.

Local Open Scope Z_scope.


Local Abbreviation fexp := (SpecFloat.fexp prec emax).

Lemma fexp_ge_emin (e : Z) : emin <= fexp e.
Proof. unfold SpecFloat.fexp. lia. Qed.

Lemma digits2_pos_iter_xO (m d : positive) :
  Zpos (digits2_pos (Pos.iter xO m d)) = Zpos (digits2_pos m) + Zpos d.
Proof.
  induction d as [|d IH] using Pos.peano_ind.
  - simpl. lia.
  - rewrite Pos.iter_succ. simpl digits2_pos. lia.
Qed.

(** [2 ^ (digits m - 1) <= m]. *)
Lemma digits2_pos_lower (m : positive) :
  2 ^ (Zpos (digits2_pos m) - 1) <= Zpos m.
Proof.
  induction m as [m IH|m IH|]; simpl digits2_pos.
  - replace (Zpos (Pos.succ (digits2_pos m)) - 1) with ((Zpos (digits2_pos m) - 1) + 1) by lia.
    rewrite Z.pow_add_r by lia. lia.
  - replace (Zpos (Pos.succ (digits2_pos m)) - 1) with ((Zpos (digits2_pos m) - 1) + 1) by lia.
    rewrite Z.pow_add_r by lia. lia.
  - simpl. lia.
Qed.

Lemma iter_pos_nat {A : Type} (f : A -> A) (p : positive) (x : A) :
  SpecFloat.iter_pos f p x = Nat.iter (Pos.to_nat p) f x.
Proof.
  revert x. induction p as [p IH|p IH|]; intros x; cbn [SpecFloat.iter_pos].
  - rewrite !IH. rewrite Pos2Nat.inj_xI.
    replace (S (2 * Pos.to_nat p)) with (Pos.to_nat p + (Pos.to_nat p + 1))%nat by lia.
    rewrite !Nat.iter_add. reflexivity.
  - rewrite !IH. rewrite Pos2Nat.inj_xO.
    replace (2 * Pos.to_nat p)%nat with (Pos.to_nat p + Pos.to_nat p)%nat by lia.
    rewrite Nat.iter_add. reflexivity.
  - reflexivity.
Qed.

Lemma shr_1_lower (mrs : shr_record) (j : Z) :
  0 <= j -> 2 ^ (j + 1) <= shr_m mrs -> 2 ^ j <= shr_m (shr_1 mrs).
Proof.
  intros Hj. destruct mrs as [m r s]. simpl shr_m.
  rewrite Z.pow_add_r by lia. change (2 ^ 1) with 2.
  pose proof (Z.pow_pos_nonneg 2 j ltac:(lia) Hj) as Hpow.
  destruct m as [|[p|p|]|p]; simpl; lia.
Qed.

Lemma shr_iter_lower (n : nat) (mrs : shr_record) :
  2 ^ Z.of_nat n <= shr_m mrs -> 1 <= shr_m (Nat.iter n shr_1 mrs).
Proof.
  revert mrs. induction n as [|n IH]; intros mrs H.
  - simpl in *. lia.
  - rewrite Nat.iter_succ_r. apply IH.
    apply shr_1_lower; [lia|]. rewrite Nat2Z.inj_succ in H.
    replace (Z.of_nat n + 1) with (Z.succ (Z.of_nat n)) by lia. exact H.
Qed.

Lemma shr_record_of_loc_m (m : Z) (l : location) : shr_m (shr_record_of_loc m l) = m.
Proof. destruct l as [|[]]; reflexivity. Qed.

Lemma Zdigits2_pos (m : Z) : 0 < m -> 2 ^ (Zdigits2 m - 1) <= m /\ 0 < Zdigits2 m.
Proof.
  destruct m as [|p|p]; try lia. intros _. simpl. split; [apply digits2_pos_lower | lia].
Qed.

(** Rounding a positive mantissa at an exponent not below [emin] leaves a
    positive mantissa, still not below [emin]. *)
Lemma shr_fexp_positive (m e : Z) (l : location) :
  0 < m -> emin <= e ->
  0 < shr_m (fst (shr_fexp prec emax m e l)) /\ emin <= snd (shr_fexp prec emax m e l).
Proof.
  intros Hm He. unfold shr_fexp, shr.
  destruct (Zdigits2_pos m Hm) as [Hlow Hdig].
  destruct (fexp (Zdigits2 m + e) - e) as [|n|n] eqn:Hn; simpl fst; simpl snd;
    try (rewrite shr_record_of_loc_m; lia).
  split.
  - rewrite iter_pos_nat.
    enough (1 <= shr_m (Nat.iter (Pos.to_nat n) shr_1 (shr_record_of_loc m l))) by lia.
    apply shr_iter_lower.
    rewrite shr_record_of_loc_m. rewrite positive_nat_Z.
    eapply Z.le_trans; [|exact Hlow].
    apply Z.pow_le_mono_r; [lia|].
    unfold SpecFloat.fexp, SpecFloat.emin, prec, emax in *. lia.
  - lia.
Qed.

Lemma round_nearest_even_positive (m : Z) (l : location) :
  0 < m -> 0 < round_nearest_even m l.
Proof.
  intros Hm. destruct l as [|[]]; simpl; try lia.
  destruct (Z.even m); lia.
Qed.

Lemma binary_round_aux_nonzero (s : bool) (m e : Z) (l : location) :
  0 < m -> emin <= e -> not_a_zero (binary_round_aux prec emax s m e l) = true.
Proof.
  intros Hm He. unfold binary_round_aux.
  pose proof (shr_fexp_positive m e l Hm He) as [H1 H2].
  destruct (shr_fexp prec emax m e l) as [mrs' e']. simpl fst in H1. simpl snd in H2.
  pose proof (round_nearest_even_positive (shr_m mrs') (loc_of_shr_record mrs') H1) as Hr.
  pose proof (shr_fexp_positive _ e' loc_Exact Hr H2) as [H3 H4].
  destruct (shr_fexp prec emax _ e' loc_Exact) as [mrs'' e'']. simpl fst in H3.
  destruct (shr_m mrs'') as [|p|p]; try lia.
  destruct (e'' <=? emax - prec); reflexivity.
Qed.

Lemma binary_round_nonzero (s : bool) (m : positive) (e : Z) :
  emin <= e -> not_a_zero (binary_round prec emax s m e) = true.
Proof.
  intros He. unfold binary_round, shl_align.
  pose proof (fexp_ge_emin (Zpos (digits2_pos m) + e)) as Hf.
  destruct (fexp (Zpos (digits2_pos m) + e) - e) eqn:Hd;
    apply binary_round_aux_nonzero; lia.
Qed.

Lemma binary_normalize_nonzero (m e : Z) (szero : bool) :
  m <> 0 -> emin <= e -> not_a_zero (binary_normalize prec emax m e szero) = true.
Proof.
  intros Hm He. destruct m as [|p|p]; [congruence| |]; simpl;
    now apply binary_round_nonzero.
Qed.

Lemma bounded_exponent (m : positive) (e : Z) :
  bounded prec emax m e = true ->
  fexp (Zpos (digits2_pos m) + e) = e /\ emin <= e.
Proof.
  unfold bounded, canonical_mantissa. intros H.
  apply andb_true_iff in H. destruct H as [H _]. apply Z.eqb_eq in H.
  split; [exact H|]. rewrite <- H. apply fexp_ge_emin.
Qed.

(** Two canonical mantissas brought to the smaller of their exponents are
    equal only if the mantissas and the exponents are. *)
Lemma aligned_equal (mx my : positive) (ex ey : Z) :
  bounded prec emax mx ex = true -> bounded prec emax my ey = true ->
  fst (shl_align mx ex (Z.min ex ey)) = fst (shl_align my ey (Z.min ex ey)) ->
  ex = ey /\ mx = my.
Proof.
  intros Hx Hy. apply bounded_exponent in Hx, Hy.
  destruct Hx as [Hx _], Hy as [Hy _]. unfold shl_align.
  destruct (Z.lt_trichotomy ex ey) as [Hlt|[Heq|Hgt]].
  - rewrite Z.min_l by lia. rewrite Z.sub_diag.
    destruct (ex - ey) as [|d|d] eqn:Hd; try lia. simpl. intros ->.
    rewrite digits2_pos_iter_xO in Hx.
    replace (Zpos (digits2_pos my) + Zpos d + ex) with (Zpos (digits2_pos my) + ey) in Hx by lia.
    lia.
  - subst ey. rewrite Z.min_id, Z.sub_diag. simpl. auto.
  - rewrite Z.min_r by lia. rewrite Z.sub_diag.
    destruct (ey - ex) as [|d|d] eqn:Hd; try lia. simpl. intros <-.
    rewrite digits2_pos_iter_xO in Hy.
    replace (Zpos (digits2_pos mx) + Zpos d + ey) with (Zpos (digits2_pos mx) + ex) in Hy by lia.
    lia.
Qed.

Lemma finite_eqb_true (sx sy : bool) (mx my : positive) (ex ey : Z) :
  SFeqb (S754_finite sx mx ex) (S754_finite sy my ey) = true ->
  sx = sy /\ ex = ey /\ mx = my.
Proof.
  unfold SFeqb, SFcompare. fold (Pos.compare mx my).
  destruct sx, sy; try discriminate;
    destruct (Z.compare_spec ex ey); try discriminate;
    destruct (Pos.compare_spec mx my); try discriminate; auto.
Qed.

Lemma finite_eqb_refl (s : bool) (m : positive) (e : Z) :
  SFeqb (S754_finite s m e) (S754_finite s m e) = true.
Proof.
  unfold SFeqb, SFcompare. fold (Pos.compare m m).
  rewrite Z.compare_refl, Pos.compare_refl. destruct s; reflexivity.
Qed.

(** The difference of two finite numbers that compare different is not a
    zero. *)
Lemma SFsub_finite_nonzero (sx sy : bool) (mx my : positive) (ex ey : Z) :
  bounded prec emax mx ex = true -> bounded prec emax my ey = true ->
  SFeqb (S754_finite sy my ey) (S754_finite sx mx ex) = false ->
  not_a_zero (SFsub prec emax (S754_finite sx mx ex) (S754_finite sy my ey)) = true.
Proof.
  intros Hx Hy Hne. cbn [SFsub].
  apply binary_normalize_nonzero.
  - pose proof (aligned_equal mx my ex ey Hx Hy) as Heq.
    destruct (shl_align mx ex (Z.min ex ey)) as [ax ?].
    destruct (shl_align my ey (Z.min ex ey)) as [ay ?]. simpl fst in *.
    destruct sx, sy; unfold cond_Zopp; try lia.
    + intros H. assert (ax = ay) as E by lia.
      destruct (Heq E) as [-> ->]. now rewrite finite_eqb_refl in Hne.
    + intros H. assert (ax = ay) as E by lia.
      destruct (Heq E) as [-> ->]. now rewrite finite_eqb_refl in Hne.
  - apply bounded_exponent in Hx, Hy. lia.
Qed.

Lemma SFsub_nonzero (a b : spec_float) :
  valid_binary a = true -> valid_binary b = true ->
  SFeqb b a = false -> not_a_zero (SFsub prec emax a b) = true.
Proof.
  intros Ha Hb Hne.
  destruct a as [sa|sa| |sa ma ea], b as [sb|sb| |sb mb eb];
    try reflexivity; try discriminate.
  - destruct sa, sb; try reflexivity; discriminate.
  - now apply SFsub_finite_nonzero.
Qed.

Lemma SFsub_zero (a b : spec_float) :
  SFeqb b a = true -> (forall s, b <> S754_infinity s) ->
  not_a_zero (SFsub prec emax a b) = false.
Proof.
  intros Heq Hfin.
  destruct a as [sa|sa| |sa ma ea], b as [sb|sb| |sb mb eb];
    try discriminate; try (destruct sa; discriminate); try (destruct sb; discriminate).
  - destruct sa, sb; reflexivity.
  - now destruct (Hfin sb).
  - apply finite_eqb_true in Heq. destruct Heq as (-> & -> & ->).
    cbn [SFsub]. rewrite Z.sub_diag. reflexivity.
Qed.

Lemma eqb_zero (r : float) : (r =? 0)%float = negb (not_a_zero (Prim2SF r)).
Proof.
  rewrite FloatAxioms.eqb_spec. change (Prim2SF 0) with (S754_zero false).
  destruct (Prim2SF r) as [s|s| |s m e]; try reflexivity; destruct s; reflexivity.
Qed.

Lemma is_infinity_false (x : float) :
  is_infinity x = false -> forall s, Prim2SF x <> S754_infinity s.
Proof.
  unfold is_infinity. rewrite FloatAxioms.eqb_spec, abs_spec.
  change (Prim2SF infinity) with (S754_infinity false).
  intros H s E. rewrite E in H. discriminate.
Qed.

(** Two doubles that compare different have a difference that is not
    zero (gradual underflow). *)
Theorem sub_differ (x y : float) :
  (x =? y)%float = false -> (y - x =? 0)%float = false.
Proof.
  intros H. rewrite eqb_zero, sub_spec. rewrite FloatAxioms.eqb_spec in H.
  unfold SF64sub. rewrite SFsub_nonzero; auto using Prim2SF_valid.
Qed.

(** Two doubles that compare equal and are not infinite have a zero
    difference. *)
Theorem sub_equal (x y : float) :
  (x =? y)%float = true -> is_infinity x = false -> (y - x =? 0)%float = true.
Proof.
  intros H Hfin. rewrite eqb_zero, sub_spec. rewrite FloatAxioms.eqb_spec in H.
  unfold SF64sub. rewrite SFsub_zero; auto using is_infinity_false.
Qed.

(** An absolute value is never below zero, and is at least zero unless it
    is a NaN. *)
Theorem abs_not_negative (x : float) :
  (abs x <? 0)%float = false /\ (is_nan (abs x) || (0 <=? abs x))%float = true.
Proof.
  unfold is_nan. rewrite FloatAxioms.ltb_spec, FloatAxioms.leb_spec, FloatAxioms.eqb_spec, abs_spec.
  change (Prim2SF 0) with (S754_zero false).
  destruct (Prim2SF x) as [s|s| |s m e]; try (split; reflexivity).
  split; [reflexivity|]. cbn [SFabs]. rewrite finite_eqb_refl. reflexivity.
Qed.

End Binary64.

(** ** Loops with a log *)

Lemma bind_Ret {A B : Type} (x : outcome A) (k : A -> outcome B) (r : B) :
  bind x k = Ret r -> exists v, x = Ret v /\ k v = Ret r.
Proof. destruct x as [v| |]; simpl; intros H; [eauto | discriminate | discriminate]. Qed.

Ltac bind_inv H :=
  let v := fresh "v" in
  let E := fresh "E" in
  apply bind_Ret in H; destruct H as [v [E H]].

Section Passes.

Context {St Ev : Type}.
Variable body : St -> outcome Ev.
Variable after : Ev -> St.
Variable left_loop : Ev -> bool.

Local Abbreviation loop := (for_loop body after left_loop).
Local Abbreviation passes := (passes body after).

Lemma for_loop_S (n : nat) (st : St) :
  loop (S n) st
  = match body st with
    | Ret ev =>
        if left_loop ev then ([ev], Ret (after ev))
        else (ev :: fst (loop n (after ev)), snd (loop n (after ev)))
    | Undefined => ([], Undefined)
    | OutOfFuel => ([], OutOfFuel)
    end.
Proof.
  simpl. destruct (body st) as [ev| |]; try reflexivity.
  destruct (left_loop ev); [reflexivity|].
  now destruct (for_loop body after left_loop n (after ev)).
Qed.

(** The log of a loop is made of passes, whether the loop returns or not. *)
Lemma for_loop_log (n : nat) (st : St) : exists mid, passes st (fst (loop n st)) mid.
Proof.
  revert st. induction n as [|n IH]; intros st.
  - exists st. constructor.
  - rewrite for_loop_S. destruct (body st) as [ev| |] eqn:Hb.
    + destruct (left_loop ev).
      * exists (after ev). simpl. econstructor; [eassumption | constructor].
      * destruct (IH (after ev)) as [mid Hmid]. exists mid. simpl.
        econstructor; eassumption.
    + exists st. constructor.
    + exists st. constructor.
Qed.

(** When the loop returns, the passes of its log end in the state it
    returns. *)
Lemma for_loop_passes (n : nat) (st final : St) :
  snd (loop n st) = Ret final -> passes st (fst (loop n st)) final.
Proof.
  revert st. induction n as [|n IH]; intros st.
  - simpl. intros H. injection H as <-. constructor.
  - rewrite for_loop_S. destruct (body st) as [ev| |] eqn:Hb; try discriminate.
    destruct (left_loop ev); simpl.
    + intros H. injection H as <-. econstructor; [eassumption | constructor].
    + intros H. econstructor; [eassumption | now apply IH].
Qed.

Lemma for_loop_budget (n : nat) (st : St) : (length (fst (loop n st)) <= n)%nat.
Proof.
  revert st. induction n as [|n IH]; intros st.
  - simpl. lia.
  - rewrite for_loop_S. destruct (body st) as [ev| |]; simpl; try lia.
    destruct (left_loop ev); simpl; [lia|]. specialize (IH (after ev)). lia.
Qed.

(** A pass that ended at [break] is the last of the log. *)
Lemma for_loop_break_last (n : nat) (st : St) (l l' : list Ev) (ev : Ev) :
  fst (loop n st) = l ++ ev :: l' -> left_loop ev = true -> l' = [].
Proof.
  revert st l. induction n as [|n IH]; intros st l Hlog Hleft.
  - simpl in Hlog. destruct l; discriminate.
  - rewrite for_loop_S in Hlog.
    destruct (body st) as [e| |]; simpl in Hlog; try (destruct l; discriminate).
    destruct (left_loop e) eqn:He; simpl in Hlog.
    + destruct l as [|e' l]; simpl in Hlog.
      * now injection Hlog as _ <-.
      * injection Hlog as _ Hl. destruct l; discriminate.
    + destruct l as [|e' l]; simpl in Hlog.
      * injection Hlog as -> _. congruence.
      * injection Hlog as _ Hl. eapply IH; eassumption.
Qed.

(** A pass that ended at [break] ends the loop: the loop returns the state
    that the pass left. *)
Lemma for_loop_break_returns (n : nat) (st : St) (l l' : list Ev) (ev : Ev) :
  fst (loop n st) = l ++ ev :: l' -> left_loop ev = true ->
  snd (loop n st) = Ret (after ev).
Proof.
  revert st l. induction n as [|n IH]; intros st l Hlog Hleft.
  - simpl in Hlog. destruct l; discriminate.
  - rewrite for_loop_S in *.
    destruct (body st) as [e| |]; simpl in Hlog; try (destruct l; discriminate).
    destruct (left_loop e) eqn:He; simpl in *.
    + destruct l as [|e' l]; simpl in Hlog.
      * now injection Hlog as -> _.
      * injection Hlog as _ Hl. destruct l; discriminate.
    + destruct l as [|e' l]; simpl in Hlog.
      * injection Hlog as -> _. congruence.
      * injection Hlog as _ Hl. eapply IH; eassumption.
Qed.

(** A loop that returned after fewer passes than its budget ended at
    [break]. *)
Lemma for_loop_early (n : nat) (st final : St) :
  snd (loop n st) = Ret final ->
  (length (fst (loop n st)) < n)%nat ->
  exists l ev, fst (loop n st) = l ++ [ev] /\ left_loop ev = true.
Proof.
  revert st. induction n as [|n IH]; intros st.
  - simpl. lia.
  - rewrite for_loop_S. destruct (body st) as [ev| |]; try discriminate.
    destruct (left_loop ev) eqn:Hev; simpl.
    + intros _ _. exists [], ev. auto.
    + intros Hr Hlt. destruct (IH (after ev) Hr) as (l & e & Hl & He); [lia|].
      exists (ev :: l), e. rewrite Hl. auto.
Qed.

(** A loop whose passes all return returns. *)
Lemma for_loop_returns (P : nat -> St -> Prop) :
  (forall n st, P (S n) st -> exists ev, body st = Ret ev /\ P n (after ev)) ->
  forall n st, P n st -> exists final, snd (loop n st) = Ret final.
Proof.
  intros Hstep n. induction n as [|n IH]; intros st HP.
  - exists st. reflexivity.
  - rewrite for_loop_S. destruct (Hstep n st HP) as (ev & -> & HP').
    destruct (left_loop ev); simpl; eauto.
Qed.

Lemma passes_last (st final : St) (l : list Ev) (ev : Ev) :
  passes st (l ++ [ev]) final -> final = after ev.
Proof.
  revert st. induction l as [|e l IH]; intros st Hp; simpl in Hp.
  - inversion Hp as [|? ? ? ? _ Hrest]; subst. now inversion Hrest.
  - inversion Hp; subst. eapply IH; eassumption.
Qed.

End Passes.

(** ** Keeping the best so far *)

Section BestSoFar.

Context {St Ev Kept : Type}.
Variable body : St -> outcome Ev.
Variable after : Ev -> St.

(** The best-inlier count of a state and what is kept along with it. *)
Variable best : St -> Z.
Variable kept : St -> Kept.

(** The size of the consensus set of a pass and what the pass would have
    the state keep. *)
Variable size : Ev -> Z.
Variable gain : Ev -> Kept.

Variable Inv : St -> Prop.

Local Open Scope Z_scope.

Local Abbreviation tracked := (tracked after best kept size gain).
Local Abbreviation passes := (passes body after).

Hypothesis body_tracked :
  forall st ev, Inv st -> body st = Ret ev -> tracked st ev /\ Inv (after ev).

Lemma passes_Inv (st final : St) (log : list Ev) :
  Inv st -> passes st log final -> Inv final.
Proof.
  intros HI Hp. induction Hp as [st | st ev evs final Hb Hp IH]; [assumption|].
  apply IH. now apply (body_tracked st ev).
Qed.

Lemma passes_sorted (st final : St) (log : list Ev) :
  Inv st -> passes st log final ->
  StronglySorted Z.le (best st :: map (fun ev => best (after ev)) log).
Proof.
  intros HI Hp. induction Hp as [st | st ev evs final Hb Hp IH]; simpl.
  - repeat constructor.
  - destruct (body_tracked st ev HI Hb) as [Ht HI'].
    specialize (IH HI'). constructor; [assumption|].
    apply StronglySorted_inv in IH. destruct IH as [_ Hall].
    assert (Hle : best st <= best (after ev))
      by (destruct Ht as [(? & ? & ?)|(? & ? & ?)]; lia).
    constructor; [assumption|].
    eapply Forall_impl; [|exact Hall]. simpl. intros; lia.
Qed.

(** What is kept at the end comes from the last pass that beat the
    count, whose consensus set is at least as large as any other of the
    log; or it is what was kept at the start, no pass beating the count. *)
Lemma passes_last_gain (st final : St) (log : list Ev) :
  Inv st -> passes st log final ->
  (best final = best st /\ kept final = kept st
   /\ Forall (fun e => size e <= best st) log)
  \/ (exists l1 ev l2,
         log = l1 ++ ev :: l2
         /\ best st < size ev /\ best final = size ev /\ kept final = gain ev
         /\ Forall (fun e => size e < size ev) l1
         /\ Forall (fun e => size e <= size ev) l2).
Proof.
  intros HI Hp. induction Hp as [st | st ev evs final Hb Hp IH].
  - left. auto.
  - destruct (body_tracked st ev HI Hb) as [Ht HI'].
    destruct (IH HI') as [(Hb' & Hk' & Hall) | (l1 & ev' & l2 & -> & Hlt & Hbf & Hkf & H1 & H2)].
    + destruct Ht as [(Hgt & Hbest & Hkept) | (Hle & Hbest & Hkept)].
      * right. exists [], ev, evs. repeat split; try congruence; auto.
        eapply Forall_impl; [|exact Hall]. simpl. intros; lia.
      * left. repeat split; try congruence.
        constructor; [assumption|].
        eapply Forall_impl; [|exact Hall]. simpl. intros; lia.
    + right. exists (ev :: l1), ev', l2.
      assert (best st <= best (after ev) /\ size ev <= best (after ev))
        by (destruct Ht as [(? & ? & ?)|(? & ? & ?)]; lia).
      repeat split; auto; try lia.
      constructor; [lia | assumption].
Qed.

(** Each pass records the state it started from. *)
Variable before : Ev -> St.
Hypothesis body_before : forall st ev, body st = Ret ev -> before ev = st.

Lemma passes_each (st final : St) (log : list Ev) :
  Inv st -> passes st log final ->
  Forall (fun ev => Inv (before ev) /\ body (before ev) = Ret ev) log.
Proof.
  intros HI Hp. induction Hp as [st | st ev evs final Hb Hp IH]; constructor.
  - rewrite (body_before st ev Hb). auto.
  - apply IH. now apply (body_tracked st ev).
Qed.

Lemma passes_linked (st final : St) (log : list Ev) :
  passes st log final ->
  map before log = firstn (length log) (st :: map after log).
Proof.
  intros Hp. induction Hp as [st | st ev evs final Hb Hp IH]; simpl; [reflexivity|].
  rewrite (body_before st ev Hb). f_equal. exact IH.
Qed.

End BestSoFar.

(** ** Consensus sets *)


Lemma line_consensus_filter (self : Line.RANSAC) (model : Line.LineModel) :
  Line.consensus_loop self model
  = filter (fun pt => Line.computeError model pt <? Line.tolerance self)%float
      (Line.data self).
Proof.
  unfold Line.consensus_loop.
  now rewrite (push_back_loop (fun pt => Line.computeError model pt <? _)%float).
Qed.

Lemma plane_consensus_filter (self : Plane.RANSAC) (model : Plane.PlaneModel) :
  Plane.getConsensusSet self model
  = if Plane.isValid model
    then filter (fun pt => Plane.computeDistance model pt <? Plane.error_tolerance self)%float
           (Plane.data self)
    else [].
Proof.
  unfold Plane.getConsensusSet.
  destruct (Plane.isValid model); simpl; [|reflexivity].
  now rewrite (push_back_loop (fun pt => Plane.computeDistance model pt <? _)%float).
Qed.

Lemma line_consensus_length (self : Line.RANSAC) (model : Line.LineModel) :
  (length (Line.consensus_loop self model) <= length (Line.data self))%nat.
Proof. rewrite line_consensus_filter. apply filter_length_le. Qed.

Lemma plane_consensus_length (self : Plane.RANSAC) (model : Plane.PlaneModel) :
  (length (Plane.getConsensusSet self model) <= length (Plane.data self))%nat.
Proof.
  rewrite plane_consensus_filter. destruct (Plane.isValid model).
  - apply filter_length_le.
  - simpl. lia.
Qed.

(** C1, as stated, fails: on [lax] and the default (zero-normal) model the
    points whose error is strictly below the tolerance are the whole store,
    while [getConsensusSet] returns the empty set. *)
Lemma consensus_invalid_model_not_filter :
  filter (fun pt => Plane.computeDistance Plane.PlaneModel_default pt
                    <? Plane.error_tolerance lax)%float (Plane.data lax)
  = [Eigen.Zero]
  /\ Plane.getConsensusSet lax Plane.PlaneModel_default = []
  /\ Plane.getConsensusSet lax Plane.PlaneModel_default
     <> filter (fun pt => Plane.computeDistance Plane.PlaneModel_default pt
                          <? Plane.error_tolerance lax)%float (Plane.data lax).
Proof.
  repeat split; try (vm_compute; reflexivity).
  vm_compute. discriminate.
Qed.

(** C1 (amended): for every point store, the plane evaluator returns, in
    store order, exactly the points whose distance is strictly below the
    tolerance when the model passes [isValid], and the empty set when it
    does not; the consensus loop of the line variant returns, in store
    order, exactly the points whose error is strictly below the tolerance,
    for every model. *)
Theorem consensus_set_exact :
  (forall (self : Plane.RANSAC) (model : Plane.PlaneModel),
      Plane.getConsensusSet self model
      = if Plane.isValid model
        then filter (fun pt => Plane.computeDistance model pt
                               <? Plane.error_tolerance self)%float (Plane.data self)
        else [])
  /\ (forall (self : Line.RANSAC) (model : Line.LineModel),
         Line.consensus_loop self model
         = filter (fun pt => Line.computeError model pt <? Line.tolerance self)%float
             (Line.data self)).
Proof.
  split; intros self model.
  - unfold Plane.getConsensusSet.
    destruct (Plane.isValid model); cbn [negb]; [|reflexivity].
    rewrite (push_back_loop
               (fun pt => Plane.computeDistance model pt <? Plane.error_tolerance self)%float).
    reflexivity.
  - unfold Line.consensus_loop.
    rewrite (push_back_loop
               (fun pt => Line.computeError model pt <? Line.tolerance self)%float).
    reflexivity.
Qed.

(** ** Least squares on a line *)

Section NormalEquations.

Import Line LeastSquares.
Local Open Scope float_scope.

Lemma accumulate_sums (points : list Point2) (sx sy sx2 sxy : double) :
  fold_left accumulate points (sx, sy, sx2, sxy)
  = (fold_left (fun s pt => s + fst pt) points sx,
     fold_left (fun s pt => s + snd pt) points sy,
     fold_left (fun s pt => s + fst pt * fst pt) points sx2,
     fold_left (fun s pt => s + fst pt * snd pt) points sxy).
Proof.
  revert sx sy sx2 sxy.
  induction points as [|pt points IH]; intros; simpl; [reflexivity|].
  apply IH.
Qed.

Lemma FitLeastSquares_sums (points : list Point2) :
  FitLeastSquares points
  = let n := to_int (Z.of_nat (length points)) in
    if double_of_int n * Sigma (fun pt => fst pt * fst pt) points
       - Sigma fst points * Sigma fst points =? 0
    then Ret LineModel_default
    else
      bind (fdiv (double_of_int n * Sigma (fun pt => fst pt * snd pt) points
                  - Sigma fst points * Sigma snd points)
                 (double_of_int n * Sigma (fun pt => fst pt * fst pt) points
                  - Sigma fst points * Sigma fst points))
        (fun m_ =>
           bind (fdiv_int (Sigma snd points - m_ * Sigma fst points) n)
             (fun b_ => Ret {| m := m_; b := b_ |})).
Proof.
  unfold FitLeastSquares. rewrite accumulate_sums. reflexivity.
Qed.

(** [FitLeastSquares] divides by nothing that is zero. *)
Lemma FitLeastSquares_Ret (points : list Point2) :
  (Z.of_nat (length points) <= INT_MAX)%Z ->
  exists model, FitLeastSquares points = Ret model.
Proof.
  intros Hlen. destruct points as [|pt points].
  - exists LineModel_default. reflexivity.
  - rewrite FitLeastSquares_sums. cbv zeta.
    rewrite to_int_id by lia.
    match goal with |- context [if ?cond then _ else _] => destruct cond eqn:Hden end;
      [eauto|].
    unfold fdiv. rewrite Hden. cbn [bind]. unfold fdiv_int.
    destruct (Z.eqb_spec (Z.of_nat (length (pt :: points))) 0) as [H0|_];
      [simpl in H0; lia|].
    cbn [bind]. eauto.
Qed.

End NormalEquations.

(** C3 (amended): on a non-empty consensus set (of at most [INT_MAX]
    points, so that its size fits the [int n] of the code)
    [FitLeastSquares] returns, with no division by zero, the default model
    when the denominator [n Σx² − (Σx)²], as computed in binary64 with the
    sums taken in the order of the set, is zero, and otherwise the line
    with [m = (n Σxy − Σx Σy) / (n Σx² − (Σx)²)] and
    [b = (Σy − m Σx) / n], computed likewise. *)
Theorem FitLeastSquares_is_ordinary_least_squares (points : list Line.Point2) :
  points <> [] ->
  (Z.of_nat (length points) <= INT_MAX)%Z ->
  Line.FitLeastSquares points
  = Ret (if (LeastSquares.denominator points =? 0)%float
         then Line.LineModel_default
         else {| Line.m := LeastSquares.slope points;
                 Line.b := LeastSquares.intercept points |}).
Proof.
  intros Hne Hlen.
  rewrite FitLeastSquares_sums. cbv zeta.
  rewrite to_int_id by lia.
  fold (LeastSquares.count points). fold (LeastSquares.denominator points).
  destruct (LeastSquares.denominator points =? 0)%float eqn:Hden; [reflexivity|].
  unfold fdiv. rewrite Hden. cbn [bind].
  unfold fdiv_int.
  destruct (Z.eqb_spec (Z.of_nat (length points)) 0) as [H0|_].
  - destruct points; [congruence | simpl in H0; lia].
  - reflexivity.
Qed.

Lemma FitLeastSquares_is_ordinary_least_squares_witness :
  Line.FitLeastSquares on_the_line = Ret {| Line.m := 2%float; Line.b := 1%float |}
  /\ Line.FitLeastSquares upright = Ret Line.LineModel_default.
Proof.
  split.
  - rewrite (FitLeastSquares_is_ordinary_least_squares on_the_line).
    + vm_compute. reflexivity.
    + discriminate.
    + vm_compute. discriminate.
  - rewrite (FitLeastSquares_is_ordinary_least_squares upright).
    + vm_compute. reflexivity.
    + discriminate.
    + vm_compute. discriminate.
Defined.

(** C3, as stated, fails: the guard is on the denominator as computed in
    binary64, and that is not zero exactly when all x-coordinates are
    equal.  Ten points with the x-coordinate [0.1] have a computed
    denominator of 6.7e-16 and get the line [m = 21.33, b = 2.37] of the
    formula, not the default model; the three points with the distinct
    x-coordinates 1e8, 1e8 + 1 and 1e8 + 2 have a computed denominator of
    zero and get the default model. *)
Lemma equal_abscissas_may_pass_the_guard :
  let tenth := map (fun y => (0.1, y)%float) [0; 1; 2; 3; 4; 5; 6; 7; 8; 9]%float in
  let far := [(100000000, 0); (100000001, 1); (100000002, 2)]%float in
  map fst tenth = repeat 0.1%float 10
  /\ (LeastSquares.denominator tenth =? 0)%float = false
  /\ Line.FitLeastSquares tenth
     = Ret {| Line.m := 21.333333333333332%float; Line.b := 2.3666666666666671%float |}
  /\ Line.FitLeastSquares tenth <> Ret Line.LineModel_default
  /\ (LeastSquares.denominator far =? 0)%float = true
  /\ Line.FitLeastSquares far = Ret Line.LineModel_default.
Proof.
  vm_compute. repeat split; try reflexivity. discriminate.
Qed.

(** ** The quality score of a plane *)

Section Score.

Import Eigen Plane Quality.
Local Open Scope float_scope.

Variable self : RANSAC.
Variable model : PlaneModel.

Lemma tally_loop (v : list Point3d) (total : double) (n : Z) :
  (0 <= n)%Z ->
  (n + Z.of_nat (length v) <= INT_MAX)%Z ->
  fold_left (tally self model) v (Ret (total, n))
  = Ret (fold_left (fun s pt => s + computeDistance model pt) (filter (close self model) v) total,
         (n + Z.of_nat (length (filter (close self model) v)))%Z).
Proof.
  revert total n.
  induction v as [|pt v IH]; intros total n Hn Hmax.
  - simpl. now rewrite Z.add_0_r.
  - cbn [fold_left filter]. unfold tally at 2. cbn [bind].
    cbn [length] in Hmax.
    change (computeDistance model pt <? error_tolerance self) with (close self model pt).
    destruct (close self model pt).
    + destruct (Z.geb_spec n INT_MAX) as [Hge|Hlt]; [lia|].
      rewrite IH by lia. cbn [fold_left length]. f_equal. f_equal. lia.
    + apply IH; lia.
Qed.

End Score.

(** C10: on a store of at most [INT_MAX] points (the range of the [int]
    counter) [evaluateModel] returns without dividing by zero: the sentinel
    [1e10] when the model is invalid or when no point lies strictly within
    the tolerance, and otherwise the arithmetic mean of the distances of
    the points strictly within the tolerance. *)
Theorem evaluateModel_mean_or_sentinel (self : Plane.RANSAC) (model : Plane.PlaneModel) :
  (Z.of_nat (length (Plane.data self)) <= INT_MAX)%Z ->
  Plane.evaluateModel self model
  = Ret (if negb (Plane.isValid model) then 1e10%float
         else match Quality.within self model with
              | [] => 1e10%float
              | _ :: _ => Quality.mean_distance self model
              end).
Proof.
  intros Hlen. unfold Plane.evaluateModel.
  destruct (Plane.isValid model); cbn [negb]; [|reflexivity].
  rewrite tally_loop by lia. cbn [bind]. rewrite Z.add_0_l.
  unfold Quality.mean_distance. fold (Quality.within self model).
  destruct (Quality.within self model) as [|pt w]; [reflexivity|].
  unfold fdiv_int.
  destruct (Z.eqb_spec (Z.of_nat (length (pt :: w))) 0) as [H0|_];
    [simpl in H0; lia | reflexivity].
Qed.

Lemma evaluateModel_mean_or_sentinel_witness :
  Plane.evaluateModel scattered ground = Ret (0.25 / 3)%float
  /\ Plane.evaluateModel scattered Plane.PlaneModel_default = Ret 1e10%float.
Proof.
  split.
  - rewrite (evaluateModel_mean_or_sentinel scattered ground).
    + vm_compute. reflexivity.
    + vm_compute. discriminate.
  - rewrite (evaluateModel_mean_or_sentinel scattered Plane.PlaneModel_default).
    + vm_compute. reflexivity.
    + vm_compute. discriminate.
Defined.

(** ** The controller of the line variant *)

Module LineFacts.

Import Line LineLog.

Section Facts.

Variable rnd : nat -> N.
Variable self : RANSAC.

Local Open Scope Z_scope.

Lemma draw_pick (c : nat) :
  data self <> [] -> draw rnd self c = Ret (pick rnd self c, S c).
Proof.
  intros Hne. unfold draw, rand, pick.
  destruct (length (data self)) as [|n] eqn:Hlen.
  - destruct (data self); [congruence | discriminate].
  - unfold at_index.
    assert (Hlt : (N.to_nat (rnd c) mod S n < length (data self))%nat)
      by (rewrite Hlen; apply Nat.mod_upper_bound; lia).
    rewrite (@nth_error_nth' Point2 (data self) _ (0, 0)%float Hlt). reflexivity.
Qed.

Lemma draw_empty (c : nat) : data self = [] -> draw rnd self c = Undefined.
Proof. intros H. unfold draw, rand. now rewrite H. Qed.

Lemma draw_In (c c' : nat) (pt : Point2) :
  draw rnd self c = Ret (pt, c') -> List.In pt (data self).
Proof.
  unfold draw, rand. destruct (length (data self)); [discriminate|].
  unfold at_index. destruct (nth_error _ _) as [q|] eqn:Hnth; [|discriminate].
  simpl. intros H. injection H as <- _. eapply nth_error_In; eassumption.
Qed.

(** The [while] loop never ends once entered: its condition reads a [pt2]
    that its body does not write. *)
Lemma resample_stuck (fuel c : nat) (pt1 pt2 : Point2) :
  data self <> [] -> same_point pt1 pt2 = true ->
  resample rnd self fuel pt1 pt2 c = OutOfFuel.
Proof.
  intros Hne Hsame. revert c.
  induction fuel as [|fuel IH]; intros c; simpl; rewrite Hsame; [reflexivity|].
  rewrite draw_pick by assumption. simpl. apply IH.
Qed.

(** With samples that differ the loop is not entered. *)
Lemma resample_skip (fuel c : nat) (pt1 pt2 : Point2) :
  same_point pt1 pt2 = false ->
  resample rnd self fuel pt1 pt2 c = Ret c.
Proof. intros Hdiff. destruct fuel; simpl; now rewrite Hdiff. Qed.

Lemma resample_Ret (fuel c c' : nat) (pt1 pt2 : Point2) :
  resample rnd self fuel pt1 pt2 c = Ret c' -> same_point pt1 pt2 = false /\ c' = c.
Proof.
  revert c. induction fuel as [|fuel IH]; intros c; simpl;
    destruct (same_point pt1 pt2) eqn:Hsame; try discriminate;
    try (intros H; injection H as <-; auto).
  intros H. bind_inv H. destruct v as [q c1]. apply IH in H.
  destruct H; discriminate.
Qed.

Lemma iteration_stuck (fuel c1 c2 : nat) (st : State) (pt1 pt2 : Point2) :
  draw rnd self (calls st) = Ret (pt1, c1) ->
  draw rnd self c1 = Ret (pt2, c2) ->
  same_point pt1 pt2 = true ->
  iteration rnd self fuel st = OutOfFuel.
Proof.
  intros H1 H2 Hsame. unfold iteration. rewrite H1. simpl. rewrite H2. simpl.
  rewrite resample_stuck; [reflexivity | | assumption].
  intros Hnil. rewrite draw_empty in H1 by assumption. discriminate.
Qed.

Lemma LineModel_from_Ret (p1 p2 : Point2) : exists model, LineModel_from p1 p2 = Ret model.
Proof.
  unfold LineModel_from.
  destruct (fst p2 - fst p1 =? 0)%float eqn:Hd; cbn [negb].
  - simpl. eauto.
  - unfold fdiv. rewrite Hd. simpl. eauto.
Qed.

(** What a pass that returns has done. *)
Lemma line_iteration_Ret (fuel : nat) (st : State) (ev : Event) :
  countable self -> Inv self st -> iteration rnd self fuel st = Ret ev ->
  before ev = st
  /\ List.In (fst (sample ev)) (data self) /\ List.In (snd (sample ev)) (data self)
  /\ same_point (fst (sample ev)) (snd (sample ev)) = false
  /\ LineModel_from (fst (sample ev)) (snd (sample ev)) = Ret (candidate ev)
  /\ consensus_set ev = consensus_loop self (candidate ev)
  /\ left_loop ev = (bestInLiers (after ev) >=? threshold self)
  /\ tracked after bestInLiers kept size gain st ev
  /\ Inv self (after ev).
Proof.
  unfold countable, Inv. intros Hcount HI H. unfold iteration in H.
  bind_inv H. destruct v as [pt1 c1].
  bind_inv H. destruct v as [pt2 c2].
  bind_inv H. rename v into c3.
  bind_inv H. rename v into model.
  pose proof (line_consensus_length self model) as Hlen.
  rewrite to_size_t_id in H by (unfold INT_MAX in *; lia).
  apply resample_Ret in E1. destruct E1 as [Hdiff _].
  apply draw_In in E, E0.
  destruct (Z.gtb_spec (Z.of_nat (length (consensus_loop self model))) (bestInLiers st))
    as [Hgt|Hle].
  - bind_inv H. bind_inv E1. rename v0 into refit.
    injection E1 as <-. injection H as <-. cbn.
    rewrite to_int_id by lia.
    repeat split; auto; try lia.
    left. unfold size, kept, gain. cbn. repeat split; auto; lia.
  - bind_inv H. injection E1 as <-. injection H as <-. cbn.
    repeat split; auto; try lia.
    right. unfold size, kept, gain. cbn. repeat split; auto; lia.
Qed.

Lemma line_iteration_tracked (fuel : nat) :
  countable self ->
  forall st ev, Inv self st -> iteration rnd self fuel st = Ret ev ->
  tracked after bestInLiers kept size gain st ev /\ Inv self (after ev).
Proof.
  intros Hcount st ev HI H.
  destruct (line_iteration_Ret fuel st ev Hcount HI H)
    as (_ & _ & _ & _ & _ & _ & _ & Ht & HI').
  auto.
Qed.

Lemma line_before (fuel : nat) (st : State) (ev : Event) :
  iteration rnd self fuel st = Ret ev -> before ev = st.
Proof.
  unfold iteration. intros H.
  bind_inv H. destruct v as [pt1 c1]. bind_inv H. destruct v as [pt2 c2].
  bind_inv H. bind_inv H. bind_inv H. now injection H as <-.
Qed.

Lemma line_initial_Inv : Inv self initial.
Proof. unfold Inv, initial. simpl. lia. Qed.

(** A pass whose two draws differ returns, having called [rand()] twice. *)
Lemma line_iteration_returns (fuel : nat) (st : State) :
  data self <> [] -> countable self -> Inv self st ->
  same_point (pick rnd self (calls st)) (pick rnd self (S (calls st))) = false ->
  exists ev, iteration rnd self fuel st = Ret ev
             /\ calls (after ev) = S (S (calls st)).
Proof.
  intros Hne Hcount HI Hdiff. unfold iteration.
  rewrite draw_pick by assumption. cbn [bind].
  rewrite draw_pick by assumption. cbn [bind].
  rewrite resample_skip by assumption. cbn [bind].
  destruct (LineModel_from_Ret (pick rnd self (calls st)) (pick rnd self (S (calls st))))
    as [model ->]. cbn [bind].
  destruct (_ >? _).
  - destruct (FitLeastSquares_Ret (consensus_loop self model)) as [refit ->].
    + pose proof (line_consensus_length self model). unfold countable in Hcount. lia.
    + cbn [bind]. eexists. split; reflexivity.
  - cbn [bind]. eexists. split; reflexivity.
Qed.

(** With draws that differ in every pass of the budget, the loop returns. *)
Lemma line_run_log_returns (fuel : nat) :
  data self <> [] -> countable self -> distinct_draws rnd self = true ->
  exists final, snd (run_log rnd self fuel) = Ret final.
Proof.
  intros Hne Hcount Hdistinct. unfold run_log.
  set (budget := Z.to_nat (max_iterations self)).
  apply (for_loop_returns _ _ _
           (fun n st => Inv self st /\ (n <= budget)%nat
                        /\ calls st = (2 * (budget - n))%nat)).
  - intros n st (HI & Hn & Hcalls).
    unfold distinct_draws in Hdistinct. rewrite forallb_forall in Hdistinct.
    specialize (Hdistinct (budget - S n)%nat).
    rewrite in_seq, negb_true_iff in Hdistinct. fold budget in Hdistinct.
    replace (2 * (budget - S n) + 1)%nat with (S (2 * (budget - S n)))%nat in Hdistinct
      by lia.
    rewrite <- Hcalls in Hdistinct.
    destruct (line_iteration_returns fuel st Hne Hcount HI) as (ev & Hev & Hc);
      [apply Hdistinct; lia|].
    exists ev. split; [exact Hev|]. split; [|split; [lia|]].
    + now apply (line_iteration_tracked fuel Hcount st ev).
    + rewrite Hc, Hcalls. lia.
  - split; [apply line_initial_Inv|]. split; [lia|].
    simpl. lia.
Qed.

(** A run all of whose passes draw two points that differ returns. *)
Lemma line_run_log_returns_along (fuel : nat) :
  data self <> [] -> countable self -> draws_differ rnd self fuel = true ->
  exists final, snd (run_log rnd self fuel) = Ret final.
Proof.
  intros Hne Hcount. unfold draws_differ, run_log.
  generalize (line_initial_Inv : Inv self initial). generalize initial.
  induction (Z.to_nat (max_iterations self)) as [|n IH]; intros st HI Hdiff.
  - exists st. reflexivity.
  - simpl in Hdiff. apply andb_prop in Hdiff. destruct Hdiff as [Hpick Hrest].
    apply negb_true_iff in Hpick.
    destruct (line_iteration_returns fuel st Hne Hcount HI Hpick) as (ev & Hev & _).
    rewrite for_loop_S, Hev. rewrite Hev in Hrest.
    destruct (left_loop ev); simpl in *; [eauto|].
    apply IH; [|exact Hrest]. now apply (line_iteration_tracked fuel Hcount st ev).
Qed.

(** Draws that differ for every pass of the budget differ for every pass
    of the run. *)
Lemma distinct_draws_differ (fuel : nat) :
  data self <> [] -> countable self -> distinct_draws rnd self = true ->
  draws_differ rnd self fuel = true.
Proof.
  intros Hne Hcount Hdistinct. unfold draws_differ.
  set (budget := Z.to_nat (max_iterations self)).
  assert (H : forall n st,
             Inv self st -> (n <= budget)%nat -> calls st = (2 * (budget - n))%nat ->
             draws_differ_from rnd self fuel n st = true).
  { induction n as [|n IH]; intros st HI Hn Hcalls; [reflexivity|].
    unfold distinct_draws in Hdistinct. rewrite forallb_forall in Hdistinct.
    specialize (Hdistinct (budget - S n)%nat).
    rewrite in_seq, negb_true_iff in Hdistinct. fold budget in Hdistinct.
    replace (2 * (budget - S n) + 1)%nat with (S (2 * (budget - S n)))%nat in Hdistinct
      by lia.
    rewrite <- Hcalls in Hdistinct.
    assert (Hpick : same_point (pick rnd self (calls st)) (pick rnd self (S (calls st)))
                    = false) by (apply Hdistinct; lia).
    destruct (line_iteration_returns fuel st Hne Hcount HI Hpick) as (ev & Hev & Hc).
    simpl. rewrite Hpick, Hev. simpl.
    destruct (left_loop ev); [reflexivity|]. simpl.
    apply IH; [now apply (line_iteration_tracked fuel Hcount st ev) | lia |].
    rewrite Hc, Hcalls. lia. }
  apply H; [apply line_initial_Inv | lia |]. simpl. lia.
Qed.

Lemma run_of_log (fuel : nat) (final : State) :
  snd (run_log rnd self fuel) = Ret final ->
  run rnd self fuel = Ret (bestModel final).
Proof. intros H. unfold run. now rewrite H. Qed.

(** A first pass that does not return is all there is to the run. *)
Lemma run_first_pass (fuel : nat) :
  0 < max_iterations self ->
  (forall ev, iteration rnd self fuel initial <> Ret ev) ->
  run rnd self fuel = bind (iteration rnd self fuel initial) (fun _ => Undefined).
Proof.
  intros Hpos Hfail. unfold run, run_log.
  destruct (Z.to_nat (max_iterations self)) as [|n] eqn:Hn; [lia|].
  rewrite for_loop_S.
  destruct (iteration rnd self fuel initial) as [ev| |]; try reflexivity.
  now destruct (Hfail ev).
Qed.

End Facts.

End LineFacts.
(** ** The controller of the plane variant *)

Module PlaneFacts.

Import Eigen Plane PlaneLog.

Section Facts.

Variable JacobiSVD_V_col2 : list Point3d -> Point3d.
Variable shuffle : nat -> list nat -> list nat.
Variable indeterminate : Point3d.
Variable self : RANSAC.

Local Open Scope Z_scope.

Lemma at_index_In {A : Type} (v : list A) (i : nat) (x : A) :
  at_index v i = Ret x -> List.In x v.
Proof.
  unfold at_index. destruct (nth_error v i) eqn:Hnth; [|discriminate].
  intros H. injection H as <-. eapply nth_error_In; eassumption.
Qed.

Lemma find_sample_Some (remaining attempt : nat) (indices : list nat) (model : PlaneModel) :
  find_sample indeterminate self remaining attempt indices = Ret (Some model) ->
  sampled indeterminate self model.
Proof.
  revert attempt. induction remaining as [|remaining IH]; intros attempt H; simpl in H.
  - discriminate.
  - destruct (length indices <? 3)%nat; [discriminate|].
    bind_inv H. rename v into i1. bind_inv H. rename v into p1.
    bind_inv H. rename v into i2. bind_inv H. rename v into p2.
    bind_inv H. rename v into i3. bind_inv H. rename v into p3.
    destruct (areCollinear p1 p2 p3) eqn:Hcol; simpl in H.
    + eapply IH; eassumption.
    + destruct (isValid (PlaneModel_from_points indeterminate p1 p2 p3)) eqn:Hvalid.
      * injection H as <-. split; [assumption|].
        exists p1, p2, p3. repeat split; eauto using at_index_In.
      * eapply IH; eassumption.
Qed.

(** What a pass that returns has done. *)
Lemma plane_iteration_Ret (st : State) (ev : Event) :
  countable self -> Inv self st -> iteration shuffle indeterminate self st = Ret ev ->
  before ev = st
  /\ shuffles (after ev) = S (shuffles st)
  /\ match candidate ev with
     | None =>
         consensus_set ev = [] /\ left_loop ev = false
         /\ attempts_without_improvement (after ev) = attempts_without_improvement st
     | Some model =>
         sampled indeterminate self model
         /\ consensus_set ev = getConsensusSet self model
         /\ left_loop ev
            = (bestInliersCount (after ev) >=? min_consensus self)
              && (attempts_without_improvement (after ev)
                  >? max_attempts_without_improvement self)
         /\ (bestInliersCount st < size ev -> attempts_without_improvement (after ev) = 0)
         /\ (size ev <= bestInliersCount st ->
             attempts_without_improvement (after ev) = attempts_without_improvement st + 1)
     end
  /\ tracked after bestInliersCount bestConsensusSet size consensus_set st ev
  /\ Inv self (after ev).
Proof.
  unfold countable, Inv. intros Hcount HI H. unfold iteration in H.
  bind_inv H. destruct v as [model|].
  - pose proof (plane_consensus_length self model) as Hlen.
    apply find_sample_Some in E.
    rewrite to_int_id in H by lia.
    destruct (Z.gtb_spec (Z.of_nat (length (getConsensusSet self model)))
                (bestInliersCount st)) as [Hgt|Hle];
      injection H as <-; unfold size, tracked; cbn.
    + split; [reflexivity|]. split; [reflexivity|]. split.
      * split; [exact E|]. split; [reflexivity|]. split; [reflexivity|].
        split; intros; lia.
      * split; [left; repeat split; lia | lia].
    + split; [reflexivity|]. split; [reflexivity|]. split.
      * split; [exact E|]. split; [reflexivity|]. split; [reflexivity|].
        split; intros; lia.
      * split; [right; repeat split; lia | lia].
  - injection H as <-. unfold size, tracked; cbn.
    repeat split; try reflexivity; try lia. right. repeat split; lia.
Qed.

Lemma plane_iteration_tracked :
  countable self ->
  forall st ev, Inv self st -> iteration shuffle indeterminate self st = Ret ev ->
  tracked after bestInliersCount bestConsensusSet size consensus_set st ev
  /\ Inv self (after ev).
Proof.
  intros Hcount st ev HI H.
  destruct (plane_iteration_Ret st ev Hcount HI H) as (_ & _ & _ & Ht & HI'). auto.
Qed.

Lemma plane_initial_Inv : Inv self initial.
Proof. unfold Inv, initial. simpl. lia. Qed.

(** The stagnation counter never exceeds the number of passes, at the end
    of the log, that left the best-inlier count as it was. *)
Lemma attempts_trailing (st final : State) (log : list Event) :
  countable self -> Inv self st ->
  passes (iteration shuffle indeterminate self) after st log final ->
  exists l1 l2,
    log = l1 ++ l2 /\ Forall stale l2
    /\ ((l1 = [] /\ attempts_without_improvement final
                    <= attempts_without_improvement st + Z.of_nat (length l2))
        \/ attempts_without_improvement final <= Z.of_nat (length l2)).
Proof.
  intros Hcount HI Hp. induction Hp as [st | st ev evs final Hb Hp IH].
  - exists [], []. repeat split; auto. left. simpl. split; [reflexivity | lia].
  - destruct (plane_iteration_Ret st ev Hcount HI Hb) as (Hbef & _ & Hcand & Ht & HI').
    destruct (IH HI') as (l1 & l2 & -> & Hstale & Hatt).
    destruct Hatt as [[-> Hatt] | Hatt].
    + destruct Ht as [(Hgt & Hbest & _) | (Hle & Hbest & _)].
      * exists [ev], l2. repeat split; auto. right.
        destruct (candidate ev) as [model|].
        -- destruct Hcand as (_ & _ & _ & Hzero & _). rewrite Hzero in Hatt by assumption. lia.
        -- destruct Hcand as (Hnil & _). unfold size in Hgt. rewrite Hnil in Hgt.
           simpl in Hgt. destruct HI. lia.
      * exists [], (ev :: l2). repeat split; auto.
        -- constructor; [|assumption]. unfold stale. congruence.
        -- left. split; [reflexivity|]. cbn [length].
           destruct (candidate ev) as [model|].
           ++ destruct Hcand as (_ & _ & _ & _ & Hinc). rewrite Hinc in Hatt by assumption. lia.
           ++ destruct Hcand as (_ & _ & Hsame). lia.
    + exists (ev :: l1), l2. repeat split; auto.
Qed.

(** The pass that ended at [break] met both conditions of the test. *)
Lemma break_conditions (st : State) (ev : Event) :
  countable self -> Inv self st -> iteration shuffle indeterminate self st = Ret ev ->
  left_loop ev = true ->
  min_consensus self <= bestInliersCount (after ev)
  /\ max_attempts_without_improvement self < attempts_without_improvement (after ev).
Proof.
  intros Hcount HI Hb Hleft.
  destruct (plane_iteration_Ret st ev Hcount HI Hb) as (_ & _ & Hcand & _).
  destruct (candidate ev) as [model|].
  - destruct Hcand as (_ & _ & Hl & _). rewrite Hl in Hleft.
    apply andb_true_iff in Hleft. destruct Hleft as [H1 H2].
    split; [apply Z.geb_le in H1 | apply Z.gtb_lt in H2]; lia.
  - destruct Hcand as (_ & Hl & _). congruence.
Qed.

Lemma plane_before (st : State) (ev : Event) :
  iteration shuffle indeterminate self st = Ret ev -> before ev = st.
Proof.
  unfold iteration. intros H.
  bind_inv H. destruct v as [model|]; now injection H as <-.
Qed.

Lemma at_index_Ret {A : Type} (v : list A) (i : nat) :
  (i < length v)%nat -> exists x, at_index v i = Ret x /\ List.In x v.
Proof.
  intros Hlt. unfold at_index.
  destruct (nth_error v i) as [x|] eqn:Hnth.
  - exists x. split; [reflexivity|]. eapply nth_error_In; eassumption.
  - apply nth_error_None in Hnth. lia.
Qed.

(** The scan reads inside the index vector and inside the store when the
    indices are those of the store. *)
Lemma find_sample_returns (remaining attempt : nat) (indices : list nat) :
  Forall (fun i => (i < length (data self))%nat) indices ->
  (remaining = 0 \/ remaining + attempt + 2 <= length indices)%nat ->
  exists found, find_sample indeterminate self remaining attempt indices = Ret found.
Proof.
  intros Hin. rewrite Forall_forall in Hin. revert attempt.
  induction remaining as [|remaining IH]; intros attempt Hroom; simpl.
  - eauto.
  - destruct (length indices <? 3)%nat; [eauto|].
    destruct Hroom as [Hroom|Hroom]; [discriminate|].
    destruct (at_index_Ret indices attempt) as (i1 & -> & Hi1); [lia|]. cbn [bind].
    destruct (at_index_Ret (data self) i1) as (p1 & -> & _); [auto|]. cbn [bind].
    destruct (at_index_Ret indices (attempt + 1)) as (i2 & -> & Hi2); [lia|]. cbn [bind].
    destruct (at_index_Ret (data self) i2) as (p2 & -> & _); [auto|]. cbn [bind].
    destruct (at_index_Ret indices (attempt + 2)) as (i3 & -> & Hi3); [lia|]. cbn [bind].
    destruct (at_index_Ret (data self) i3) as (p3 & -> & _); [auto|]. cbn [bind].
    destruct (areCollinear p1 p2 p3); cbn [negb].
    + apply IH. lia.
    + destruct (isValid _); [eauto|]. apply IH. lia.
Qed.

(** A shuffle that permutes makes every pass return. *)
Lemma plane_iteration_returns (st : State) :
  (forall k v, Permutation v (shuffle k v)) -> countable self ->
  exists ev, iteration shuffle indeterminate self st = Ret ev.
Proof.
  intros Hperm Hcount. unfold iteration. cbv zeta.
  set (size := length (data self)).
  pose proof (Hperm (shuffles st) (seq 0 size)) as Hp.
  destruct (find_sample_returns
              (Z.to_nat (Z.min 10 (to_int (Z.of_nat size) - 2))) 0
              (shuffle (shuffles st) (seq 0 size))) as [found ->].
  - eapply Permutation_Forall; [exact Hp|].
    apply Forall_forall. intros i Hi. apply in_seq in Hi. fold size. lia.
  - rewrite <- (Permutation_length Hp), length_seq.
    unfold countable in Hcount. fold size in Hcount.
    rewrite to_int_id by lia. lia.
  - cbn [bind]. destruct found; eauto.
Qed.

Lemma plane_run_log_returns :
  (forall k v, Permutation v (shuffle k v)) -> countable self ->
  exists final, snd (run_log shuffle indeterminate self) = Ret final.
Proof.
  intros Hperm Hcount. unfold run_log.
  apply (for_loop_returns _ _ _ (fun _ _ => True)); [|exact I].
  intros n st _. destruct (plane_iteration_returns st Hperm Hcount) as [ev Hev].
  eauto.
Qed.

End Facts.

End PlaneFacts.

(** ** The best-inlier count along a run *)

(** C4: in a run of either controller on a store of at most [INT_MAX]
    points, whether the run returns or not, the best-inlier count, read at
    the start and after every pass of the loop, never decreases; each pass
    starts from the state the pass before it left; and a pass that changes
    what is kept as best (the best model of the line variant, the best
    consensus set of the plane variant) has a consensus set strictly
    larger than the best-inlier count it started from. *)
Theorem best_count_never_decreases
  (rnd : nat -> N) (lself : Line.RANSAC) (fuel : nat)
  (shuffle : nat -> list nat -> list nat) (indeterminate : Plane.Point3d)
  (pself : Plane.RANSAC) :
  LineLog.countable lself ->
  PlaneLog.countable pself ->
  (let log := fst (Line.run_log rnd lself fuel) in
   StronglySorted Z.le
     (Line.bestInLiers Line.initial
      :: map (fun ev => Line.bestInLiers (Line.after ev)) log)
   /\ map Line.before log = firstn (length log) (Line.initial :: map Line.after log)
   /\ Forall (fun ev =>
                Line.bestModel (Line.after ev) <> Line.bestModel (Line.before ev) ->
                (Line.bestInLiers (Line.before ev)
                 < Z.of_nat (length (Line.consensus_set ev)))%Z) log)
  /\ (let log := fst (Plane.run_log shuffle indeterminate pself) in
      StronglySorted Z.le
        (Plane.bestInliersCount Plane.initial
         :: map (fun ev => Plane.bestInliersCount (Plane.after ev)) log)
      /\ map Plane.before log
         = firstn (length log) (Plane.initial :: map Plane.after log)
      /\ Forall (fun ev =>
                   Plane.bestConsensusSet (Plane.after ev)
                   <> Plane.bestConsensusSet (Plane.before ev) ->
                   (Plane.bestInliersCount (Plane.before ev)
                    < Z.of_nat (length (Plane.consensus_set ev)))%Z) log).
Proof.
  intros Hlc Hpc. split; cbv zeta.
  - unfold Line.run_log.
    destruct (for_loop_log (Line.iteration rnd lself fuel) Line.after Line.left_loop
                (Z.to_nat (Line.max_iterations lself)) Line.initial) as [mid Hl].
    pose proof (LineFacts.line_iteration_tracked rnd lself fuel Hlc) as Ht.
    split; [|split].
    + eapply passes_sorted; eauto using LineFacts.line_initial_Inv.
    + eapply passes_linked; eauto using LineFacts.line_before.
    + pose proof (passes_each _ _ _ _ _ _ _ Ht _ (LineFacts.line_before rnd lself fuel)
                    _ _ _ (LineFacts.line_initial_Inv lself) Hl) as Hall.
      eapply Forall_impl; [|exact Hall]. cbn beta. intros ev [HI Hb] Hchg.
      destruct (Ht _ _ HI Hb) as [[(Hgt & _) | (_ & _ & Hsame)] _].
      * exact Hgt.
      * unfold LineLog.kept in Hsame. congruence.
  - unfold Plane.run_log.
    destruct (for_loop_log (Plane.iteration shuffle indeterminate pself)
                Plane.after Plane.left_loop
                (Z.to_nat (Plane.max_iterations pself)) Plane.initial) as [mid Hp].
    pose proof (PlaneFacts.plane_iteration_tracked shuffle indeterminate pself Hpc) as Ht.
    split; [|split].
    + eapply passes_sorted; eauto using PlaneFacts.plane_initial_Inv.
    + eapply passes_linked; eauto using PlaneFacts.plane_before.
    + pose proof (passes_each _ _ _ _ _ _ _ Ht _
                    (PlaneFacts.plane_before shuffle indeterminate pself)
                    _ _ _ (PlaneFacts.plane_initial_Inv pself) Hp) as Hall.
      eapply Forall_impl; [|exact Hall]. cbn beta. intros ev [HI Hb] Hchg.
      destruct (Ht _ _ HI Hb) as [[(Hgt & _) | (_ & _ & Hsame)] _].
      * exact Hgt.
      * congruence.
Qed.

Lemma best_count_never_decreases_witness :
  map (fun ev => Line.bestInLiers (Line.after ev))
    (fst (Line.run_log eight_draws line_of_main 1))
  = [2; 2; 8; 10]%Z
  /\ StronglySorted Z.le
       (0%Z :: map (fun ev => Line.bestInLiers (Line.after ev))
                 (fst (Line.run_log eight_draws line_of_main 1)))
  /\ map (fun ev => Plane.bestInliersCount (Plane.after ev))
       (fst (Plane.run_log rotation Eigen.Zero plane_of_main))
     = [3; 4; 8; 8; 8; 8; 8]%Z
  /\ StronglySorted Z.le
       (0%Z :: map (fun ev => Plane.bestInliersCount (Plane.after ev))
                 (fst (Plane.run_log rotation Eigen.Zero plane_of_main))).
Proof.
  destruct (best_count_never_decreases
              eight_draws line_of_main 1 rotation Eigen.Zero plane_of_main)
    as [[Hl _] [Hp _]].
  - vm_compute. discriminate.
  - vm_compute. discriminate.
  - split; [vm_compute; reflexivity|]. split; [exact Hl|].
    split; [vm_compute; reflexivity | exact Hp].
Defined.

(** ** Leaving the loop *)

Lemma quarter_exceeded (budget attempts : Z) :
  (0 <= budget -> budget ÷ 4 < attempts -> budget < 4 * attempts)%Z.
Proof.
  intros Hb Hq.
  pose proof (Z.quot_rem' budget 4) as Hqr.
  pose proof (Z.rem_bound_pos budget 4 Hb ltac:(lia)) as Hr. lia.
Qed.

(** C7: in a run on a store of at most [INT_MAX] points, either loop makes
    at most [max_iterations] passes.  The loop of the plane variant returns
    after fewer only if, at the end, the best-inlier count is at least
    [min_consensus] and the stagnation counter exceeds a quarter of
    [max_iterations]; that counter is at most the number of passes, at the
    end of the log, that left the best-inlier count as it was.  The loop
    of the line variant returns after fewer only if the best-inlier count
    is at least [threshold], and a pass after which the count is at least
    [threshold] is the last pass: the loop returns there, in the state
    that pass left, without starting another pass. *)
Theorem loop_exit_conditions
  (rnd : nat -> N) (lself : Line.RANSAC) (fuel : nat)
  (shuffle : nat -> list nat -> list nat) (indeterminate : Plane.Point3d)
  (pself : Plane.RANSAC) :
  LineLog.countable lself ->
  PlaneLog.countable pself ->
  (let log := fst (Plane.run_log shuffle indeterminate pself) in
   (length log <= Z.to_nat (Plane.max_iterations pself))%nat
   /\ forall final,
        snd (Plane.run_log shuffle indeterminate pself) = Ret final ->
        (length log < Z.to_nat (Plane.max_iterations pself))%nat ->
        (Plane.min_consensus pself <= Plane.bestInliersCount final)%Z
        /\ (Plane.max_iterations pself
            < 4 * Plane.attempts_without_improvement final)%Z
        /\ exists l1 l2,
             log = l1 ++ l2 /\ Forall PlaneLog.stale l2
             /\ (Plane.attempts_without_improvement final <= Z.of_nat (length l2))%Z)
  /\ (let log := fst (Line.run_log rnd lself fuel) in
      (length log <= Z.to_nat (Line.max_iterations lself))%nat
      /\ (forall final,
             snd (Line.run_log rnd lself fuel) = Ret final ->
             (length log < Z.to_nat (Line.max_iterations lself))%nat ->
             (Line.threshold lself <= Line.bestInLiers final)%Z)
      /\ (forall l ev l',
             log = l ++ ev :: l' ->
             (Line.threshold lself <= Line.bestInLiers (Line.after ev))%Z ->
             l' = []
             /\ snd (Line.run_log rnd lself fuel) = Ret (Line.after ev)
             /\ Line.run rnd lself fuel = Ret (Line.bestModel (Line.after ev)))).
Proof.
  intros Hlc Hpc. split; cbv zeta.
  - split; [apply for_loop_budget|].
    intros final Hr Hearly. unfold Plane.run_log in *.
    pose proof (for_loop_passes _ _ _ _ _ _ Hr) as Hp.
    destruct (for_loop_early _ _ _ _ _ _ Hr Hearly) as (l & ev & Hlog & Hleft).
    rewrite Hlog in Hp.
    pose proof (PlaneFacts.plane_iteration_tracked shuffle indeterminate pself Hpc) as Ht.
    pose proof (passes_each _ _ _ _ _ _ _ Ht _
                  (PlaneFacts.plane_before shuffle indeterminate pself)
                  _ _ _ (PlaneFacts.plane_initial_Inv pself) Hp) as Hall.
    apply Forall_app in Hall. destruct Hall as [_ Hev].
    apply Forall_inv in Hev. destruct Hev as [HI Hb].
    pose proof (passes_last _ _ _ _ _ _ Hp) as ->.
    destruct (PlaneFacts.break_conditions shuffle indeterminate pself _ _ Hpc HI Hb Hleft)
      as [Hmin Hatt].
    split; [exact Hmin|]. split.
    + apply quarter_exceeded; [lia | exact Hatt].
    + destruct (PlaneFacts.attempts_trailing shuffle indeterminate pself _ _ _ Hpc
                  (PlaneFacts.plane_initial_Inv pself) Hp) as (l1 & l2 & Hsplit & Hstale & Hle).
      exists l1, l2. rewrite Hlog. repeat split; auto.
      destruct Hle as [[_ Hle] | Hle]; [simpl in Hle|]; lia.
  - split; [apply for_loop_budget|].
    pose proof (LineFacts.line_iteration_tracked rnd lself fuel Hlc) as Ht.
    unfold Line.run_log in *.
    split.
    + intros final Hr Hearly.
      pose proof (for_loop_passes _ _ _ _ _ _ Hr) as Hp.
      destruct (for_loop_early _ _ _ _ _ _ Hr Hearly) as (l & ev & Hlog & Hleft).
      rewrite Hlog in Hp.
      pose proof (passes_each _ _ _ _ _ _ _ Ht _ (LineFacts.line_before rnd lself fuel)
                    _ _ _ (LineFacts.line_initial_Inv lself) Hp) as Hall.
      apply Forall_app in Hall. destruct Hall as [_ Hev].
      apply Forall_inv in Hev. destruct Hev as [HI Hb].
      pose proof (passes_last _ _ _ _ _ _ Hp) as ->.
      destruct (LineFacts.line_iteration_Ret rnd lself fuel _ _ Hlc HI Hb)
        as (_ & _ & _ & _ & _ & _ & Hll & _).
      rewrite Hll in Hleft. apply Z.geb_le in Hleft. exact Hleft.
    + intros l ev l' Hlog Hreach.
      destruct (for_loop_log (Line.iteration rnd lself fuel) Line.after Line.left_loop
                  (Z.to_nat (Line.max_iterations lself)) Line.initial) as [mid Hp].
      pose proof (passes_each _ _ _ _ _ _ _ Ht _ (LineFacts.line_before rnd lself fuel)
                    _ _ _ (LineFacts.line_initial_Inv lself) Hp) as Hall.
      rewrite Hlog in Hall.
      apply Forall_app in Hall. destruct Hall as [_ Hev].
      apply Forall_inv in Hev. destruct Hev as [HI Hb].
      destruct (LineFacts.line_iteration_Ret rnd lself fuel _ _ Hlc HI Hb)
        as (_ & _ & _ & _ & _ & _ & Hll & _).
      assert (Hleft : Line.left_loop ev = true)
        by (rewrite Hll; apply Z.geb_le; exact Hreach).
      pose proof (for_loop_break_returns _ _ _ _ _ _ _ _ Hlog Hleft) as Hr.
      split; [eapply for_loop_break_last; eassumption|].
      split; [exact Hr|]. unfold Line.run, Line.run_log. now rewrite Hr.
Qed.

Lemma loop_exit_conditions_witness :
  (length (fst (Plane.run_log rotation Eigen.Zero plane_of_main)) = 7%nat
   /\ forall final,
        snd (Plane.run_log rotation Eigen.Zero plane_of_main) = Ret final ->
        (Plane.min_consensus plane_of_main <= Plane.bestInliersCount final)%Z
        /\ (Plane.max_iterations plane_of_main
            < 4 * Plane.attempts_without_improvement final)%Z)
  /\ (length (fst (Line.run_log eight_draws line_of_main 1)) = 4%nat
      /\ (forall final,
             snd (Line.run_log eight_draws line_of_main 1) = Ret final ->
             (Line.threshold line_of_main <= Line.bestInLiers final)%Z)
      /\ exists l ev,
           fst (Line.run_log eight_draws line_of_main 1) = l ++ [ev]
           /\ Line.bestInLiers (Line.after ev) = 10%Z
           /\ snd (Line.run_log eight_draws line_of_main 1) = Ret (Line.after ev)).
Proof.
  destruct (loop_exit_conditions
              eight_draws line_of_main 1 rotation Eigen.Zero plane_of_main)
    as [[_ Hp] [_ [Hl Hbreak]]].
  - vm_compute. discriminate.
  - vm_compute. discriminate.
  - split; (split; [vm_compute; reflexivity|]).
    + intros final Hr. destruct (Hp final Hr) as (Hmin & Hquarter & _).
      * vm_compute. lia.
      * auto.
    + split; [intros final Hr; apply (Hl final Hr); vm_compute; lia|].
      assert (Hne : fst (Line.run_log eight_draws line_of_main 1) <> [])
        by (vm_compute; discriminate).
      destruct (exists_last Hne) as (l & ev & Hlog).
      assert (Hv : Line.bestInLiers
                     (last (map Line.after (fst (Line.run_log eight_draws line_of_main 1)))
                        Line.initial) = 10%Z) by (vm_compute; reflexivity).
      rewrite Hlog, map_app in Hv. simpl map in Hv. rewrite last_last in Hv.
      exists l, ev. split; [exact Hlog|]. split; [exact Hv|].
      apply (Hbreak l ev [] Hlog). rewrite Hv. vm_compute. discriminate.
Defined.

(** ** What [run] returns *)

Lemma final_fit_eq (svd : list Plane.Point3d -> Plane.Point3d) (best : list Plane.Point3d) :
  Plane.final_fit svd best
  = if (3 <=? length best)%nat && Plane.isValid (Plane.fitModel svd best)
    then Plane.fitModel svd best
    else Plane.PlaneModel_default.
Proof.
  unfold Plane.final_fit.
  destruct best as [|p best]; [reflexivity|]. cbn [negb andb].
  destruct (3 <=? length (p :: best))%nat; [|reflexivity].
  cbn [andb]. reflexivity.
Qed.

Lemma short_means_empty {A : Type} (v : list A) (n : Z) :
  (Z.of_nat (length v) <= n)%Z -> (n <= 0)%Z -> v = [].
Proof. destruct v; [reflexivity|]. simpl. lia. Qed.

(** What the line variant keeps when its loop returns. *)
Lemma line_run_result (rnd : nat -> N) (self : Line.RANSAC) (fuel : nat)
  (final : Line.State) :
  LineLog.countable self ->
  snd (Line.run_log rnd self fuel) = Ret final ->
  Forall (fun ev =>
            Line.LineModel_from (fst (Line.sample ev)) (snd (Line.sample ev))
            = Ret (Line.candidate ev)
            /\ Line.consensus_set ev = Line.consensus_loop self (Line.candidate ev))
    (fst (Line.run_log rnd self fuel))
  /\ ((Line.bestModel final = Line.LineModel_default
       /\ Forall (fun ev => Line.consensus_set ev = []) (fst (Line.run_log rnd self fuel)))
      \/ exists ev,
           last_best Line.consensus_set (fst (Line.run_log rnd self fuel)) ev
           /\ Line.FitLeastSquares (Line.consensus_set ev) = Ret (Line.bestModel final)).
Proof.
  intros Hc Hr. unfold Line.run_log in *.
  pose proof (for_loop_passes _ _ _ _ _ _ Hr) as Hp.
  pose proof (LineFacts.line_iteration_tracked rnd self fuel Hc) as Ht.
  pose proof (passes_each _ _ _ _ _ _ _ Ht _ (LineFacts.line_before rnd self fuel)
                _ _ _ (LineFacts.line_initial_Inv self) Hp) as Hall.
  split.
  - eapply Forall_impl; [|exact Hall]. cbn beta. intros ev [HI Hb].
    destruct (LineFacts.line_iteration_Ret rnd self fuel _ _ Hc HI Hb)
      as (_ & _ & _ & _ & Hfrom & Hcs & _). auto.
  - destruct (passes_last_gain _ _ _ _ _ _ _ Ht _ _ _ (LineFacts.line_initial_Inv self) Hp)
      as [(_ & Hk & Hsmall) | (l1 & ev & l2 & Hlog & _ & _ & Hk & H1 & H2)].
    + left. split.
      * unfold LineLog.kept in Hk. cbn in Hk. congruence.
      * eapply Forall_impl; [|exact Hsmall]. cbn. unfold LineLog.size.
        intros ev Hle. eapply short_means_empty; [exact Hle | lia].
    + right. exists ev. unfold LineLog.kept, LineLog.gain in Hk. split; [|auto].
      exists l1, l2. split; [exact Hlog|]. split.
      * eapply Forall_impl; [|exact H1]. unfold LineLog.size. intros; lia.
      * eapply Forall_impl; [|exact H2]. unfold LineLog.size. intros; lia.
Qed.

(** What the plane variant keeps when its loop returns. *)
Lemma plane_run_result (shuffle : nat -> list nat -> list nat)
  (indeterminate : Plane.Point3d) (self : Plane.RANSAC) (final : Plane.State) :
  PlaneLog.countable self ->
  snd (Plane.run_log shuffle indeterminate self) = Ret final ->
  Forall (fun ev =>
            Plane.consensus_set ev
            = match Plane.candidate ev with
              | Some model => Plane.getConsensusSet self model
              | None => []
              end)
    (fst (Plane.run_log shuffle indeterminate self))
  /\ ((Plane.bestConsensusSet final = []
       /\ Forall (fun ev => Plane.consensus_set ev = [])
            (fst (Plane.run_log shuffle indeterminate self)))
      \/ exists ev,
           last_best Plane.consensus_set (fst (Plane.run_log shuffle indeterminate self)) ev
           /\ Plane.bestConsensusSet final = Plane.consensus_set ev).
Proof.
  intros Hc Hr. unfold Plane.run_log in *.
  pose proof (for_loop_passes _ _ _ _ _ _ Hr) as Hp.
  pose proof (PlaneFacts.plane_iteration_tracked shuffle indeterminate self Hc) as Ht.
  pose proof (passes_each _ _ _ _ _ _ _ Ht _
                (PlaneFacts.plane_before shuffle indeterminate self)
                _ _ _ (PlaneFacts.plane_initial_Inv self) Hp) as Hall.
  split.
  - eapply Forall_impl; [|exact Hall]. cbn beta. intros ev [HI Hb].
    destruct (PlaneFacts.plane_iteration_Ret shuffle indeterminate self _ _ Hc HI Hb)
      as (_ & _ & Hcand & _).
    destruct (Plane.candidate ev); apply Hcand.
  - destruct (passes_last_gain _ _ _ _ _ _ _ Ht _ _ _ (PlaneFacts.plane_initial_Inv self) Hp)
      as [(_ & Hk & Hsmall) | (l1 & ev & l2 & Hlog & _ & _ & Hk & H1 & H2)].
    + left. split; [exact Hk|].
      eapply Forall_impl; [|exact Hsmall]. cbn. unfold PlaneLog.size.
      intros ev Hle. eapply short_means_empty; [exact Hle | lia].
    + right. exists ev. split; [|exact Hk].
      exists l1, l2. split; [exact Hlog|]. split.
      * eapply Forall_impl; [|exact H1]. unfold PlaneLog.size. intros; lia.
      * eapply Forall_impl; [|exact H2]. unfold PlaneLog.size. intros; lia.
Qed.

(** C2 (amended): take a store of at most [INT_MAX] points.  When the
    store of the line variant is not empty and the two draws of every pass
    that the run starts differ (draws that the budget would allow after
    the [break] do not count), [run] returns the model it keeps as best at
    the end of the loop: the result of [FitLeastSquares] on the consensus
    set of the last pass that beat the best-inlier count, or the default
    model, when no pass found a non-empty consensus set.  When the shuffle permutes, the
    plane variant returns: the default model on fewer than 3 points;
    otherwise [fitModel] of the consensus set of the last pass that beat
    the best-inlier count, if that set has at least 3 points and the fit
    is valid, and the default model if not.  A budget that runs out
    changes nothing of this, and no minimal-sample model is returned as
    such. *)
Theorem run_returns_refit_of_best
  (rnd : nat -> N) (lself : Line.RANSAC) (fuel : nat)
  (svd : list Plane.Point3d -> Plane.Point3d)
  (shuffle : nat -> list nat -> list nat) (indeterminate : Plane.Point3d)
  (pself : Plane.RANSAC) :
  Line.data lself <> [] ->
  LineLog.countable lself ->
  LineLog.draws_differ rnd lself fuel = true ->
  (forall k v, Permutation v (shuffle k v)) ->
  PlaneLog.countable pself ->
  (exists lfinal,
     snd (Line.run_log rnd lself fuel) = Ret lfinal
     /\ Line.run rnd lself fuel = Ret (Line.bestModel lfinal)
     /\ Forall (fun ev =>
                  Line.LineModel_from (fst (Line.sample ev)) (snd (Line.sample ev))
                  = Ret (Line.candidate ev)
                  /\ Line.consensus_set ev
                     = Line.consensus_loop lself (Line.candidate ev))
          (fst (Line.run_log rnd lself fuel))
     /\ ((Line.bestModel lfinal = Line.LineModel_default
          /\ Forall (fun ev => Line.consensus_set ev = [])
               (fst (Line.run_log rnd lself fuel)))
         \/ exists ev,
              last_best Line.consensus_set (fst (Line.run_log rnd lself fuel)) ev
              /\ Line.FitLeastSquares (Line.consensus_set ev)
                 = Ret (Line.bestModel lfinal)))
  /\ (exists pmodel,
        Plane.run svd shuffle indeterminate pself = Ret pmodel
        /\ (((length (Plane.data pself) < 3)%nat /\ pmodel = Plane.PlaneModel_default)
            \/ ((3 <= length (Plane.data pself))%nat
                /\ exists pfinal,
                     snd (Plane.run_log shuffle indeterminate pself) = Ret pfinal
                     /\ pmodel
                        = (let best := Plane.bestConsensusSet pfinal in
                           if (3 <=? length best)%nat
                              && Plane.isValid (Plane.fitModel svd best)
                           then Plane.fitModel svd best
                           else Plane.PlaneModel_default)
                     /\ Forall (fun ev =>
                                  Plane.consensus_set ev
                                  = match Plane.candidate ev with
                                    | Some model => Plane.getConsensusSet pself model
                                    | None => []
                                    end)
                          (fst (Plane.run_log shuffle indeterminate pself))
                     /\ ((Plane.bestConsensusSet pfinal = []
                          /\ Forall (fun ev => Plane.consensus_set ev = [])
                               (fst (Plane.run_log shuffle indeterminate pself)))
                         \/ exists ev,
                              last_best Plane.consensus_set
                                (fst (Plane.run_log shuffle indeterminate pself)) ev
                              /\ Plane.bestConsensusSet pfinal
                                 = Plane.consensus_set ev)))).
Proof.
  intros Hne Hlc Hdiffer Hperm Hpc. split.
  - destruct (LineFacts.line_run_log_returns_along rnd lself fuel Hne Hlc Hdiffer)
      as [lfinal Hr].
    exists lfinal. split; [exact Hr|].
    split; [apply LineFacts.run_of_log; exact Hr|].
    apply line_run_result; assumption.
  - destruct (PlaneFacts.plane_run_log_returns shuffle indeterminate pself Hperm Hpc)
      as [pfinal Hr].
    unfold Plane.run.
    destruct (Nat.ltb_spec (length (Plane.data pself)) 3) as [Hshort|Hlong].
    + exists Plane.PlaneModel_default. split; [reflexivity|]. left. auto.
    + exists (Plane.final_fit svd (Plane.bestConsensusSet pfinal)).
      split; [now rewrite Hr|]. right.
      split; [exact Hlong|]. exists pfinal. split; [exact Hr|].
      split; [apply final_fit_eq|].
      apply plane_run_result; assumption.
Qed.

Lemma rotation_permutes (k : nat) (v : list nat) : Permutation v (rotation k v).
Proof.
  unfold rotation. cbv zeta.
  rewrite <- (firstn_skipn (11 * (k + 1) mod length v) v) at 1.
  apply Permutation_app_comm.
Qed.

Lemma run_returns_refit_of_best_witness :
  LineLog.distinct_draws eight_then_zero line_of_main = false
  /\ LineLog.draws_differ eight_then_zero line_of_main 1 = true
  /\ (exists lfinal,
        Line.run eight_then_zero line_of_main 1 = Ret (Line.bestModel lfinal)
        /\ Line.bestInLiers lfinal = 10%Z)
  /\ map (fun ev => length (Line.consensus_set ev))
       (fst (Line.run_log eight_then_zero line_of_main 1))
     = [2; 2; 8; 10]%nat
  /\ exists pmodel,
       Plane.run two_row_normal rotation Eigen.Zero plane_of_main = Ret pmodel
       /\ Plane.isValid pmodel = true.
Proof.
  split; [vm_compute; reflexivity|]. split; [vm_compute; reflexivity|].
  destruct (run_returns_refit_of_best
              eight_then_zero line_of_main 1 two_row_normal rotation Eigen.Zero
              plane_of_main)
    as [(lfinal & Hr & Hrun & _) (pmodel & Hprun & _)].
  - discriminate.
  - vm_compute. discriminate.
  - vm_compute. reflexivity.
  - exact rotation_permutes.
  - vm_compute. discriminate.
  - split; [|split].
    + exists lfinal. split; [exact Hrun|].
      vm_compute in Hr. injection Hr as <-. reflexivity.
    + vm_compute. reflexivity.
    + exists pmodel. split; [exact Hprun|].
      vm_compute in Hprun. injection Hprun as <-. vm_compute. reflexivity.
Defined.

(** C2, as stated, fails: on [upright_pair], drawing the first point and
    then the second, the one pass of the loop builds the candidate
    [y = 1e10 x - 1e10], finds it a consensus set of one point and ends
    below the threshold with the budget spent; [run] then returns the
    default model [m = 0, b = 0], which is neither that minimal-sample
    model nor a least-squares line ([FitLeastSquares] met a zero
    denominator). *)
Lemma run_returns_default_after_consensus :
  Line.run in_turn upright_pair 1 = Ret Line.LineModel_default
  /\ map Line.candidate (fst (Line.run_log in_turn upright_pair 1))
     = [{| Line.m := 1e10%float; Line.b := (-1e10)%float |}]
  /\ map Line.consensus_set (fst (Line.run_log in_turn upright_pair 1))
     = [[(1, 0)%float]]
  /\ map Line.left_loop (fst (Line.run_log in_turn upright_pair 1)) = [false]
  /\ snd (Line.run_log in_turn upright_pair 1)
     = Ret {| Line.bestModel := Line.LineModel_default;
              Line.bestInLiers := 1; Line.calls := 2 |}.
Proof. vm_compute. repeat split; reflexivity. Qed.

(** ** Stores too small to sample from *)

Lemma plane_run_short (svd : list Plane.Point3d -> Plane.Point3d)
  (shuffle : nat -> list nat -> list nat) (indeterminate : Plane.Point3d)
  (self : Plane.RANSAC) :
  (length (Plane.data self) < 3)%nat ->
  Plane.run svd shuffle indeterminate self = Ret Plane.PlaneModel_default.
Proof.
  intros Hshort. unfold Plane.run.
  destruct (Nat.ltb_spec (length (Plane.data self)) 3); [reflexivity | lia].
Qed.

Lemma line_run_empty (rnd : nat -> N) (self : Line.RANSAC) (fuel : nat) :
  Line.data self = [] -> (0 < Line.max_iterations self)%Z ->
  Line.run rnd self fuel = Undefined.
Proof.
  intros Hnil Hpos.
  assert (Hit : Line.iteration rnd self fuel Line.initial = Undefined)
    by (unfold Line.iteration; now rewrite LineFacts.draw_empty).
  rewrite LineFacts.run_first_pass; [now rewrite Hit | assumption |].
  intros ev. rewrite Hit. discriminate.
Qed.

Lemma line_run_stuck (rnd : nat -> N) (self : Line.RANSAC) (fuel : nat) :
  Line.data self <> [] -> (0 < Line.max_iterations self)%Z ->
  Line.same_point (LineLog.pick rnd self 0) (LineLog.pick rnd self 1) = true ->
  Line.run rnd self fuel = OutOfFuel.
Proof.
  intros Hne Hpos Hsame.
  assert (Hit : Line.iteration rnd self fuel Line.initial = OutOfFuel).
  { eapply LineFacts.iteration_stuck; [| |exact Hsame];
      apply LineFacts.draw_pick; assumption. }
  rewrite LineFacts.run_first_pass; [now rewrite Hit | assumption |].
  intros ev. rewrite Hit. discriminate.
Qed.

(** C5 (the code at the failing inputs): with no point in the store the
    first pass of the line variant takes [rand()] modulo zero, which is
    undefined behaviour; with one point it draws that point twice and never
    leaves the resampling loop, whatever the fuel; the plane variant
    returns the default model on zero, one or two points. *)
Theorem short_store_outcomes
  (rnd : nat -> N) (fuel : nat) (tolerance : double) (budget threshold : Z)
  (svd : list Plane.Point3d -> Plane.Point3d)
  (shuffle : nat -> list nat -> list nat) (indeterminate p q : Plane.Point3d) :
  Line.run rnd
    {| Line.data := []; Line.tolerance := tolerance;
       Line.max_iterations := 100; Line.threshold := threshold |} fuel
  = Undefined
  /\ Line.run rnd
       {| Line.data := [(0, 0)%float]; Line.tolerance := tolerance;
          Line.max_iterations := 100; Line.threshold := threshold |} fuel
     = OutOfFuel
  /\ Plane.run svd shuffle indeterminate
       {| Plane.data := []; Plane.error_tolerance := tolerance;
          Plane.max_iterations := budget; Plane.min_consensus := threshold |}
     = Ret Plane.PlaneModel_default
  /\ Plane.run svd shuffle indeterminate
       {| Plane.data := [p]; Plane.error_tolerance := tolerance;
          Plane.max_iterations := budget; Plane.min_consensus := threshold |}
     = Ret Plane.PlaneModel_default
  /\ Plane.run svd shuffle indeterminate
       {| Plane.data := [p; q]; Plane.error_tolerance := tolerance;
          Plane.max_iterations := budget; Plane.min_consensus := threshold |}
     = Ret Plane.PlaneModel_default.
Proof.
  split; [|split; [|split; [|split]]].
  - apply line_run_empty; [reflexivity | simpl; lia].
  - apply line_run_stuck; [discriminate | simpl; lia |].
    unfold LineLog.pick. cbn [Line.data length].
    rewrite !Nat.mod_1_r. reflexivity.
  - apply plane_run_short. simpl. lia.
  - apply plane_run_short. simpl. lia.
  - apply plane_run_short. simpl. lia.
Qed.

(** ** The resampling loop *)

(** C6 (the code at the failing input): on a store of two distinct
    points, when the first two draws pick the same point, no later draw
    gets the run out of the resampling loop: whatever the generator gives
    next and whatever the fuel, [run] is still looping. *)
Theorem resampling_never_converges
  (later : nat -> N) (fuel : nat) (tolerance : double) (threshold : Z) :
  Line.run (twice_zero later)
    {| Line.data := [(0, 0); (1, 1)]%float; Line.tolerance := tolerance;
       Line.max_iterations := 100; Line.threshold := threshold |} fuel
  = OutOfFuel.
Proof.
  apply line_run_stuck; [discriminate | simpl; lia | reflexivity].
Qed.

(** With draws that differ the loop is not entered and the pass goes
    through. *)
Lemma distinct_draws_need_no_resampling :
  Line.run in_turn
    {| Line.data := [(0, 0); (1, 1)]%float; Line.tolerance := 0.5%float;
       Line.max_iterations := 100; Line.threshold := 2 |} 1
  = Ret {| Line.m := 1%float; Line.b := 0%float |}.
Proof. vm_compute. reflexivity. Qed.

(** ** The line through two points *)

(** C9: for two points of which the first has an x-coordinate that is not
    infinite, [LineModel(p1, p2)] returns without dividing by zero: the
    model with [m = (y2 - y1) / (x2 - x1)] and [b = y1 - m x1] when the
    x-coordinates differ, and the model with the slope [1e10], a finite
    double, and [b = y1 - 1e10 x1] when they are equal.  The error of a
    model at a point is [|m x + b - y|]; it is never below zero, and it is
    at least zero unless the sum overflowed to a NaN. *)
Theorem LineModel_from_two_points (p1 p2 pt : Line.Point2) (model : Line.LineModel) :
  is_infinity (fst p1) = false ->
  Line.LineModel_from p1 p2
  = Ret (if (fst p1 =? fst p2)%float
         then {| Line.m := 1e10%float;
                 Line.b := (snd p1 - 1e10 * fst p1)%float |}
         else {| Line.m := ((snd p2 - snd p1) / (fst p2 - fst p1))%float;
                 Line.b := (snd p1
                            - (snd p2 - snd p1) / (fst p2 - fst p1) * fst p1)%float |})
  /\ is_finite 1e10%float = true
  /\ Line.computeError model pt
     = abs (Line.m model * fst pt + Line.b model - snd pt)%float
  /\ (Line.computeError model pt <? 0)%float = false
  /\ (is_nan (Line.computeError model pt) || (0 <=? Line.computeError model pt))%float
     = true.
Proof.
  intros Hfin. split; [|split; [reflexivity | split; [reflexivity|]]].
  - unfold Line.LineModel_from.
    destruct (fst p1 =? fst p2)%float eqn:Hx.
    + rewrite (Binary64.sub_equal _ _ Hx Hfin). reflexivity.
    + pose proof (Binary64.sub_differ _ _ Hx) as Hd. rewrite Hd. cbn [negb].
      unfold fdiv. rewrite Hd. reflexivity.
  - unfold Line.computeError. apply Binary64.abs_not_negative.
Qed.

Lemma LineModel_from_two_points_witness :
  Line.LineModel_from (0, 1)%float (1, 3)%float
  = Ret {| Line.m := 2%float; Line.b := 1%float |}
  /\ Line.LineModel_from (1, 0)%float (1, 5)%float
     = Ret {| Line.m := 1e10%float; Line.b := (-1e10)%float |}
  /\ Line.computeError {| Line.m := 2%float; Line.b := 1%float |} (3, 6.5)%float
     = 0.5%float.
Proof.
  destruct (LineModel_from_two_points (0, 1)%float (1, 3)%float (3, 6.5)%float
              {| Line.m := 2%float; Line.b := 1%float |}) as (H1 & _ & H2 & _).
  { vm_compute. reflexivity. }
  destruct (LineModel_from_two_points (1, 0)%float (1, 5)%float (3, 6.5)%float
              {| Line.m := 2%float; Line.b := 1%float |}) as (H3 & _).
  { vm_compute. reflexivity. }
  rewrite H1, H2, H3. vm_compute. repeat split; reflexivity.
Defined.

(** ** Refitting a plane *)

(** What of [fitModel] does not depend on rounding or on the
    decomposition: fewer than 3 points give the default model, which
    [isValid] rejects. *)
Lemma fitModel_few_points (svd : list Plane.Point3d -> Plane.Point3d)
  (consensus_set : list Plane.Point3d) :
  (length consensus_set < 3)%nat ->
  Plane.fitModel svd consensus_set = Plane.PlaneModel_default
  /\ Plane.isValid (Plane.fitModel svd consensus_set) = false.
Proof.
  intros Hfew. unfold Plane.fitModel.
  destruct (Nat.ltb_spec (length consensus_set) 3); [|lia].
  split; reflexivity.
Qed.

(** What does depend on rounding: the normalised direction [(1, 1, 1)] has
    a sum of squares next to 1, not 1. *)
Lemma unit_length_up_to_rounding :
  let model := (Plane.PlaneModel_from_normal (pt3 1 1 1) (pt3 0 0 0))%float in
  (Plane.a model * Plane.a model + Plane.b model * Plane.b model
   + Plane.c model * Plane.c model =? 1)%float = false
  /\ Plane.isValid model = true.
Proof. vm_compute. split; reflexivity. Qed.

(** * Further properties of the code *)

(** ** Passes, one by one *)

Section EachPass.

Context {St Ev : Type}.
Variable body : St -> outcome Ev.
Variable after : Ev -> St.
Variable left_loop : Ev -> bool.

(** What every pass that returns establishes holds of every pass of a
    log. *)
Lemma passes_Forall (P : Ev -> Prop) (st final : St) (log : list Ev) :
  (forall st ev, body st = Ret ev -> P ev) ->
  passes body after st log final -> Forall P log.
Proof.
  intros HP Hp. induction Hp as [st | st ev evs final Hb Hp IH]; constructor; eauto.
Qed.

(** What every pass preserves holds after every pass of a log and at its
    end. *)
Lemma passes_preserve (I : St -> Prop) (st final : St) (log : list Ev) :
  (forall st ev, I st -> body st = Ret ev -> I (after ev)) ->
  I st -> passes body after st log final ->
  I final /\ Forall (fun ev => I (after ev)) log.
Proof.
  intros HI H0 Hp. induction Hp as [st | st ev evs final Hb Hp IH].
  - split; [assumption | constructor].
  - destruct (IH (HI _ _ H0 Hb)) as [Hf Hall]. split; [assumption|].
    constructor; eauto.
Qed.

(** Loops with the same body make the same passes. *)
Lemma for_loop_ext (body' : St -> outcome Ev) (n : nat) (st : St) :
  (forall st, body st = body' st) ->
  for_loop body after left_loop n st = for_loop body' after left_loop n st.
Proof.
  intros Hext. revert st. induction n as [|n IH]; intros st; [reflexivity|].
  simpl. rewrite <- Hext. destruct (body st) as [ev| |]; try reflexivity.
  now rewrite IH.
Qed.

End EachPass.

(** ** The model through three points *)

Section ThreePoints.

Import Eigen Plane.
Local Open Scope float_scope.

(** The constructor makes the test that [areCollinear] makes. *)
Lemma from_points_collinear (indeterminate p1 p2 p3 : Point3d) :
  areCollinear p1 p2 p3 = true ->
  PlaneModel_from_points indeterminate p1 p2 p3
  = {| a := 0; b := 0; c := 0; d := 0; normal := indeterminate |}.
Proof.
  unfold areCollinear, PlaneModel_from_points. cbv zeta. now intros ->.
Qed.

Lemma from_points_regular (indeterminate p1 p2 p3 : Point3d) :
  areCollinear p1 p2 p3 = false ->
  PlaneModel_from_points indeterminate p1 p2 p3
  = let normal := normalized (cross (minus p2 p1) (minus p3 p1)) in
    {| a := x normal; b := y normal; c := z normal;
       d := - dot normal p1; normal := normal |}.
Proof.
  unfold areCollinear, PlaneModel_from_points. cbv zeta. now intros ->.
Qed.

End ThreePoints.

(** X1: three points that [areCollinear] takes for collinear give a model
    with the coefficients [a = b = c = d = 0], whose distance to every
    point is the sentinel [1e10]. *)
Theorem collinear_sample_gives_sentinel_model
  (indeterminate p1 p2 p3 pt : Plane.Point3d) :
  Plane.areCollinear p1 p2 p3 = true ->
  let model := Plane.PlaneModel_from_points indeterminate p1 p2 p3 in
  Plane.a model = 0%float /\ Plane.b model = 0%float
  /\ Plane.c model = 0%float /\ Plane.d model = 0%float
  /\ Plane.computeDistance model pt = 1e10%float.
Proof.
  intros Hcol. cbv zeta. rewrite (from_points_collinear _ _ _ _ Hcol).
  repeat split.
Qed.

Lemma collinear_sample_gives_sentinel_model_witness :
  Plane.computeDistance
    (Plane.PlaneModel_from_points (pt3 7 7 7) (pt3 0 0 0) (pt3 1 1 1) (pt3 2 2 2))%float
    (pt3 5 0 3)%float
  = 1e10%float.
Proof.
  apply (collinear_sample_gives_sentinel_model
           (pt3 7 7 7) (pt3 0 0 0) (pt3 1 1 1) (pt3 2 2 2) (pt3 5 0 3))%float.
  vm_compute. reflexivity.
Defined.

(** ** The [normal] that was never written *)

Section Indeterminate.

Import Eigen Plane.

Variable shuffle : nat -> list nat -> list nat.
Variable self : RANSAC.

Lemma find_sample_indeterminate (u v : Point3d) (remaining attempt : nat)
  (indices : list nat) :
  find_sample u self remaining attempt indices
  = find_sample v self remaining attempt indices.
Proof.
  revert attempt. induction remaining as [|remaining IH]; intros attempt; simpl;
    [reflexivity|].
  destruct (length indices <? 3)%nat; [reflexivity|].
  destruct (at_index indices attempt) as [i1| |]; try reflexivity. cbn [bind].
  destruct (at_index (data self) i1) as [p1| |]; try reflexivity. cbn [bind].
  destruct (at_index indices (attempt + 1)) as [i2| |]; try reflexivity. cbn [bind].
  destruct (at_index (data self) i2) as [p2| |]; try reflexivity. cbn [bind].
  destruct (at_index indices (attempt + 2)) as [i3| |]; try reflexivity. cbn [bind].
  destruct (at_index (data self) i3) as [p3| |]; try reflexivity. cbn [bind].
  destruct (areCollinear p1 p2 p3) eqn:Hcol; cbn [negb]; [apply IH|].
  rewrite (from_points_regular u _ _ _ Hcol), (from_points_regular v _ _ _ Hcol).
  destruct (isValid _); [reflexivity | apply IH].
Qed.

Lemma iteration_indeterminate (u v : Point3d) (st : State) :
  iteration shuffle u self st = iteration shuffle v self st.
Proof. unfold iteration. now rewrite (find_sample_indeterminate u v). Qed.

End Indeterminate.

(** X2: neither the log of the loop nor the result of [run] depends on
    what an unwritten [normal] holds: the early return of the three-point
    constructor is never taken on a sample that [areCollinear] let
    through. *)
Theorem run_ignores_unwritten_normal
  (svd : list Plane.Point3d -> Plane.Point3d)
  (shuffle : nat -> list nat -> list nat) (u v : Plane.Point3d) (self : Plane.RANSAC) :
  Plane.run_log shuffle u self = Plane.run_log shuffle v self
  /\ Plane.run svd shuffle u self = Plane.run svd shuffle v self.
Proof.
  assert (Hlog : Plane.run_log shuffle u self = Plane.run_log shuffle v self).
  { unfold Plane.run_log. apply for_loop_ext. apply iteration_indeterminate. }
  split; [exact Hlog|]. unfold Plane.run. now rewrite Hlog.
Qed.

(** ** Candidates *)

Lemma plane_iteration_candidate (shuffle : nat -> list nat -> list nat)
  (indeterminate : Plane.Point3d) (self : Plane.RANSAC)
  (st : Plane.State) (ev : Plane.Event) :
  Plane.iteration shuffle indeterminate self st = Ret ev ->
  match Plane.candidate ev with
  | Some model =>
      PlaneLog.sampled indeterminate self model
      /\ Plane.consensus_set ev = Plane.getConsensusSet self model
  | None => Plane.consensus_set ev = [] /\ Plane.after ev
            = {| Plane.bestInliersCount := Plane.bestInliersCount st;
                 Plane.bestConsensusSet := Plane.bestConsensusSet st;
                 Plane.attempts_without_improvement :=
                   Plane.attempts_without_improvement st;
                 Plane.shuffles := S (Plane.shuffles st) |}
  end.
Proof.
  unfold Plane.iteration. intros H. bind_inv H. destruct v as [model|].
  - apply PlaneFacts.find_sample_Some in E. injection H as <-. cbn. auto.
  - injection H as <-. cbn. auto.
Qed.

(** X3: every candidate that a pass of the plane loop hands to
    [getConsensusSet] passes [isValid] and was built from three points of
    the store that [areCollinear] does not take for collinear; a pass
    without a candidate scores nothing. *)
Theorem candidates_are_sampled
  (shuffle : nat -> list nat -> list nat) (indeterminate : Plane.Point3d)
  (self : Plane.RANSAC) :
  Forall (fun ev =>
            match Plane.candidate ev with
            | Some model =>
                Plane.isValid model = true
                /\ (exists p1 p2 p3,
                       List.In p1 (Plane.data self) /\ List.In p2 (Plane.data self)
                       /\ List.In p3 (Plane.data self)
                       /\ Plane.areCollinear p1 p2 p3 = false
                       /\ model = Plane.PlaneModel_from_points indeterminate p1 p2 p3)
                /\ Plane.consensus_set ev = Plane.getConsensusSet self model
            | None => Plane.consensus_set ev = []
            end)
    (fst (Plane.run_log shuffle indeterminate self)).
Proof.
  unfold Plane.run_log.
  destruct (for_loop_log (Plane.iteration shuffle indeterminate self)
              Plane.after Plane.left_loop
              (Z.to_nat (Plane.max_iterations self)) Plane.initial) as [mid Hp].
  eapply passes_Forall; [|exact Hp].
  intros st ev Hb. apply plane_iteration_candidate in Hb.
  destruct (Plane.candidate ev) as [model|].
  - destruct Hb as [[Hvalid Hpts] Hcs]. auto.
  - apply Hb.
Qed.

(** ** The model that [run] hands back *)

(** X4: a model that the plane variant returns is the default model, which
    [isValid] rejects, or a model that [isValid] accepts and that
    [fitModel] computed from the best consensus set in which the loop of
    this run ended, a set of at least 3 points: [isValid] on the result
    tells the two apart. *)
Theorem returned_plane_is_valid_or_default
  (svd : list Plane.Point3d -> Plane.Point3d)
  (shuffle : nat -> list nat -> list nat) (indeterminate : Plane.Point3d)
  (self : Plane.RANSAC) (model : Plane.PlaneModel) :
  Plane.run svd shuffle indeterminate self = Ret model ->
  Plane.isValid Plane.PlaneModel_default = false
  /\ (model = Plane.PlaneModel_default
      \/ (Plane.isValid model = true
          /\ exists final,
               snd (Plane.run_log shuffle indeterminate self) = Ret final
               /\ (3 <= length (Plane.bestConsensusSet final))%nat
               /\ model = Plane.fitModel svd (Plane.bestConsensusSet final))).
Proof.
  intros Hrun. split; [reflexivity|]. unfold Plane.run in Hrun.
  destruct (length (Plane.data self) <? 3)%nat.
  - injection Hrun as <-. auto.
  - bind_inv Hrun. rename v into final. injection Hrun as <-. rewrite final_fit_eq.
    destruct (Nat.leb_spec 3 (length (Plane.bestConsensusSet final))) as [Hlen|];
      cbn [andb]; [|auto].
    destruct (Plane.isValid (Plane.fitModel svd (Plane.bestConsensusSet final)))
      eqn:Hvalid; [|auto].
    right. split; [exact Hvalid|]. exists final. auto.
Qed.

Lemma returned_plane_is_valid_or_default_witness :
  exists model,
    Plane.run two_row_normal rotation Eigen.Zero plane_of_main = Ret model
    /\ Plane.isValid model = true
    /\ exists final,
         snd (Plane.run_log rotation Eigen.Zero plane_of_main) = Ret final
         /\ (3 <= length (Plane.bestConsensusSet final))%nat
         /\ model = Plane.fitModel two_row_normal (Plane.bestConsensusSet final).
Proof.
  destruct (Plane.run two_row_normal rotation Eigen.Zero plane_of_main) as [model| |] eqn:Hrun;
    [|vm_compute in Hrun; discriminate ..].
  exists model. split; [reflexivity|].
  destruct (returned_plane_is_valid_or_default _ _ _ _ _ Hrun) as [_ [Hdef | Hfit]].
  - exfalso. rewrite Hdef in Hrun. vm_compute in Hrun. discriminate.
  - exact Hfit.
Defined.

(** ** Order and sign in binary64 *)

Module Binary64Order.

Local Open Scope float_scope.

(** Nothing that is not below zero is below a number that is not above
    zero. *)
Lemma not_below_nonpositive (d tol : float) :
  (d <? 0) = false -> (0 <? tol) = false -> (d <? tol) = false.
Proof.
  rewrite !FloatAxioms.ltb_spec. change (Prim2SF 0) with (S754_zero false).
  destruct (Prim2SF d) as [sd|sd| |sd md ed], (Prim2SF tol) as [st|st| |st mt et];
    try reflexivity;
    try (destruct sd; try discriminate; destruct st; try discriminate; reflexivity);
    try (destruct sd; try discriminate; reflexivity);
    try (destruct st; try discriminate; reflexivity).
Qed.

Lemma above_zero_not_below (d : float) : (0 <? d) = true -> (d <? 0) = false.
Proof.
  rewrite !FloatAxioms.ltb_spec. change (Prim2SF 0) with (S754_zero false).
  destruct (Prim2SF d) as [s|s| |s m e]; try discriminate; destruct s;
    try discriminate; reflexivity.
Qed.

Lemma same_or_zeros_refl (u : spec_float) : same_or_zeros u u.
Proof. now left. Qed.

Lemma same_or_zeros_trans (u v w : spec_float) :
  same_or_zeros u v -> same_or_zeros v w -> same_or_zeros u w.
Proof.
  intros [->|[Hu Hv]] [->|[Hv' Hw]]; unfold same_or_zeros; auto.
Qed.

Lemma binary_round_aux_opp (s : bool) (m e : Z) (l : location) :
  binary_round_aux prec emax (negb s) m e l = SFopp (binary_round_aux prec emax s m e l).
Proof.
  unfold binary_round_aux.
  destruct (shr_fexp prec emax m e l) as [mrs' e'].
  destruct (shr_fexp prec emax _ e' loc_Exact) as [mrs'' e''].
  destruct (shr_m mrs''); try reflexivity.
  destruct (e'' <=? emax - prec)%Z; reflexivity.
Qed.

Lemma binary_round_opp (s : bool) (m : positive) (e : Z) :
  binary_round prec emax (negb s) m e = SFopp (binary_round prec emax s m e).
Proof.
  unfold binary_round. destruct (shl_align m e _) as [mz ez].
  apply binary_round_aux_opp.
Qed.

Lemma binary_normalize_opp (m e : Z) :
  same_or_zeros (binary_normalize prec emax (- m) e false)
    (SFopp (binary_normalize prec emax m e false)).
Proof.
  destruct m as [|p|p]; simpl.
  - right. auto.
  - left. exact (binary_round_opp false p e).
  - left. exact (binary_round_opp true p e).
Qed.

Lemma SFmul_opp (u v : spec_float) :
  SFmul prec emax (SFopp u) v = SFopp (SFmul prec emax u v).
Proof.
  destruct u as [su|su| |su mu eu], v as [sv|sv| |sv mv ev]; simpl;
    try reflexivity; try (now destruct su, sv).
  rewrite <- binary_round_aux_opp. now destruct su, sv.
Qed.

Lemma SFadd_opp (u v : spec_float) :
  same_or_zeros (SFadd prec emax (SFopp u) (SFopp v)) (SFopp (SFadd prec emax u v)).
Proof.
  destruct u as [su|su| |su mu eu], v as [sv|sv| |sv mv ev]; simpl;
    try (left; reflexivity);
    try (destruct su, sv; simpl; (left; reflexivity) || (right; split; reflexivity)).
  eapply same_or_zeros_trans; [|apply binary_normalize_opp]. left. f_equal.
  destruct su, sv; unfold cond_Zopp; simpl negb; cbv iota; lia.
Qed.

Lemma SFadd_same_or_zeros (u u' v : spec_float) :
  same_or_zeros u u' ->
  same_or_zeros (SFadd prec emax u v) (SFadd prec emax u' v).
Proof.
  intros [->|[Hu Hu']]; [apply same_or_zeros_refl|].
  destruct u as [su|su| |su mu eu]; try discriminate.
  destruct u' as [su'|su'| |su' mu' eu']; try discriminate.
  destruct v as [sv|sv| |sv mv ev]; simpl; try (left; reflexivity).
  right. destruct su, su', sv; split; reflexivity.
Qed.

Lemma SFltb_zero_opp (u v : spec_float) :
  same_or_zeros u (SFopp v) ->
  SFltb (S754_zero false) u = SFltb v (S754_zero false).
Proof.
  intros [->|[Hu Hv]].
  - destruct v as [s|s| |s m e]; try reflexivity; destruct s; reflexivity.
  - destruct u as [su|su| |su mu eu]; try discriminate.
    destruct v as [sv|sv| |sv mv ev]; try discriminate. reflexivity.
Qed.

End Binary64Order.

(** ** Errors and tolerances *)

Section Tolerance.

Local Open Scope float_scope.

Lemma computeError_not_below (model : Line.LineModel) (pt : Line.Point2) :
  (Line.computeError model pt <? 0) = false.
Proof. unfold Line.computeError. apply Binary64.abs_not_negative. Qed.

Lemma computeDistance_not_below (model : Plane.PlaneModel) (pt : Plane.Point3d) :
  (Plane.computeDistance model pt <? 0) = false.
Proof.
  unfold Plane.computeDistance.
  destruct (_ <? 1e-18); [reflexivity | apply Binary64.abs_not_negative].
Qed.

Lemma filter_none {A : Type} (keep : A -> bool) (v : list A) :
  (forall x, keep x = false) -> filter keep v = [].
Proof. intros H. induction v as [|x v IH]; simpl; [|rewrite H]; auto. Qed.

Lemma line_consensus_none (self : Line.RANSAC) (model : Line.LineModel) :
  (0 <? Line.tolerance self) = false -> Line.consensus_loop self model = [].
Proof.
  intros Htol. rewrite line_consensus_filter. apply filter_none. intros pt.
  apply Binary64Order.not_below_nonpositive; [apply computeError_not_below | exact Htol].
Qed.

Lemma plane_consensus_none (self : Plane.RANSAC) (model : Plane.PlaneModel) :
  (0 <? Plane.error_tolerance self) = false -> Plane.getConsensusSet self model = [].
Proof.
  intros Htol. rewrite plane_consensus_filter. destruct (Plane.isValid model); [|reflexivity].
  apply filter_none. intros pt.
  apply Binary64Order.not_below_nonpositive; [apply computeDistance_not_below | exact Htol].
Qed.

Lemma tally_none (self : Plane.RANSAC) (model : Plane.PlaneModel)
  (v : list Plane.Point3d) (acc : double * Z) :
  (0 <? Plane.error_tolerance self) = false ->
  fold_left (Plane.tally self model) v (Ret acc) = Ret acc.
Proof.
  intros Htol. induction v as [|pt v IH]; [reflexivity|].
  simpl. destruct acc as [total count]. simpl.
  rewrite (Binary64Order.not_below_nonpositive _ _ (computeDistance_not_below model pt) Htol).
  exact IH.
Qed.

End Tolerance.

(** X5. The error of a point is never negative, in either variant:
    [LineModel::computeError] and [PlaneModel::computeDistance] return a
    double that does not compare below zero, and that is at least zero
    unless it is a NaN. *)
Theorem errors_are_never_negative
  (lmodel : Line.LineModel) (lpt : Line.Point2)
  (pmodel : Plane.PlaneModel) (ppt : Plane.Point3d) :
  ((Line.computeError lmodel lpt <? 0) = false
   /\ (is_nan (Line.computeError lmodel lpt) || (0 <=? Line.computeError lmodel lpt)) = true
   /\ (Plane.computeDistance pmodel ppt <? 0) = false
   /\ (is_nan (Plane.computeDistance pmodel ppt)
       || (0 <=? Plane.computeDistance pmodel ppt)) = true)%float.
Proof.
  split; [apply computeError_not_below|].
  split; [unfold Line.computeError; apply Binary64.abs_not_negative|].
  split; [apply computeDistance_not_below|].
  unfold Plane.computeDistance.
  destruct (_ <? 1e-18)%float; [reflexivity | apply Binary64.abs_not_negative].
Qed.

(** X6. With an error tolerance that is not above zero (zero, negative or
    NaN) the plane variant finds no inlier, whatever the model and the
    points: [getConsensusSet] returns the empty set and [evaluateModel]
    returns the sentinel 1e10. *)
Theorem no_inliers_without_tolerance (self : Plane.RANSAC) (model : Plane.PlaneModel) :
  (0 <? Plane.error_tolerance self)%float = false ->
  Plane.getConsensusSet self model = []
  /\ Plane.evaluateModel self model = Ret 1e10%float.
Proof.
  intros Htol. split; [now apply plane_consensus_none|].
  unfold Plane.evaluateModel. destruct (Plane.isValid model); [|reflexivity].
  simpl negb. cbv iota. rewrite tally_none by exact Htol. reflexivity.
Qed.

Lemma no_inliers_without_tolerance_witness :
  (0 <? Plane.error_tolerance scattered_strict)%float = false
  /\ Plane.getConsensusSet scattered_strict ground = []
  /\ Plane.evaluateModel scattered_strict ground = Ret 1e10%float.
Proof.
  split; [reflexivity|]. apply no_inliers_without_tolerance. reflexivity.
Defined.

(** ** Loops that never hit undefined behaviour *)

Section Defined.

Context {St Ev : Type}.
Variable body : St -> outcome Ev.
Variable after : Ev -> St.
Variable left_loop : Ev -> bool.

Lemma for_loop_defined (I : St -> Prop) :
  (forall st, I st -> body st <> Undefined) ->
  (forall st ev, I st -> body st = Ret ev -> I (after ev)) ->
  forall n st, I st -> snd (for_loop body after left_loop n st) <> Undefined.
Proof.
  intros Hdef Hstep n. induction n as [|n IH]; intros st HI.
  - simpl. discriminate.
  - rewrite for_loop_S. destruct (body st) as [ev| |] eqn:Hb.
    + destruct (left_loop ev); simpl; [discriminate|].
      apply IH. eapply Hstep; eassumption.
    + now apply Hdef in HI.
    + simpl. discriminate.
Qed.

End Defined.

(** ** Runs of the line variant, pass by pass *)

Module LineRuns.

Import Line LineLog LineFacts.

Section Runs.

Variable rnd : nat -> N.
Variable self : RANSAC.

Local Open Scope Z_scope.

(** What a pass that returns has drawn, whatever the size of the store. *)
Lemma line_iteration_draws (fuel : nat) (st : State) (ev : Event) :
  iteration rnd self fuel st = Ret ev ->
  before ev = st
  /\ sample ev = (pick rnd self (calls st), pick rnd self (S (calls st)))
  /\ same_point (fst (sample ev)) (snd (sample ev)) = false
  /\ calls (after ev) = S (S (calls st))
  /\ consensus_set ev = consensus_loop self (candidate ev)
  /\ ((Z.of_nat (length (consensus_set ev)) >? to_size_t (bestInLiers st)) = false ->
      bestModel (after ev) = bestModel st /\ bestInLiers (after ev) = bestInLiers st).
Proof.
  intros H. unfold iteration in H.
  destruct (data self) as [|p0 rest] eqn:Hdata.
  { rewrite draw_empty in H by assumption. discriminate. }
  assert (Hne : data self <> []) by (rewrite Hdata; discriminate).
  rewrite (draw_pick rnd self _ Hne) in H. cbn [bind] in H.
  rewrite (draw_pick rnd self _ Hne) in H. cbn [bind] in H.
  bind_inv H. rename v into c3.
  apply resample_Ret in E. destruct E as [Hdiff ->].
  bind_inv H. rename v into model.
  destruct (Z.of_nat (length (consensus_loop self model)) >? to_size_t (bestInLiers st))
    eqn:Hcmp.
  - bind_inv H. bind_inv E0. injection E0 as <-. injection H as <-. cbn.
    rewrite Hcmp. repeat split; auto; discriminate.
  - bind_inv H. injection E0 as <-. injection H as <-. cbn.
    repeat split; auto.
Qed.

Lemma passes_calls (fuel : nat) (st final : State) (log : list Event) :
  passes (iteration rnd self fuel) after st log final ->
  calls final = (calls st + 2 * length log)%nat.
Proof.
  intros Hp. induction Hp as [st | st ev evs final Hb Hp IH]; [simpl; lia|].
  apply line_iteration_draws in Hb. destruct Hb as (_ & _ & _ & Hc & _).
  rewrite IH, Hc. simpl. lia.
Qed.

(** A pass on a store with a point in it either returns or runs for ever
    in the resampling loop. *)
Lemma line_iteration_defined (fuel : nat) (st : State) :
  data self <> [] -> countable self ->
  iteration rnd self fuel st <> Undefined.
Proof.
  intros Hne Hcount. unfold iteration.
  rewrite (draw_pick rnd self _ Hne). cbn [bind].
  rewrite (draw_pick rnd self _ Hne). cbn [bind].
  destruct (same_point (pick rnd self (calls st)) (pick rnd self (S (calls st))))
    eqn:Hsame.
  - rewrite resample_stuck by assumption. discriminate.
  - rewrite resample_skip by assumption. cbn [bind].
    destruct (LineModel_from_Ret (pick rnd self (calls st)) (pick rnd self (S (calls st))))
      as [model ->]. cbn [bind].
    destruct (_ >? _).
    + destruct (FitLeastSquares_Ret (consensus_loop self model)) as [refit ->].
      * pose proof (line_consensus_length self model). unfold countable in Hcount. lia.
      * discriminate.
    + discriminate.
Qed.

Lemma pick_In (k : nat) : data self <> [] -> List.In (pick rnd self k) (data self).
Proof.
  intros Hne. unfold pick. apply nth_In.
  apply Nat.mod_upper_bound. destruct (data self); [congruence | discriminate].
Qed.

(** With a tolerance that is not above zero no pass changes the best
    model. *)
Lemma line_strict_pass (fuel : nat) (st : State) (ev : Event) :
  (0 <? tolerance self)%float = false ->
  iteration rnd self fuel st = Ret ev ->
  bestModel (after ev) = bestModel st.
Proof.
  intros Htol H. apply line_iteration_draws in H.
  destruct H as (_ & _ & _ & _ & Hcs & Hkeep).
  apply Hkeep. rewrite Hcs, line_consensus_none by assumption. simpl.
  rewrite Z.gtb_ltb. apply Z.ltb_ge. unfold to_size_t. apply Z.mod_pos_bound. lia.
Qed.

End Runs.

End LineRuns.

(** X7. With a tolerance that is not above zero (zero, negative or NaN)
    the line variant finds no inlier for any candidate, and a run that
    returns returns the default model [m = 0, b = 0]. *)
Theorem line_without_tolerance_returns_default
  (rnd : nat -> N) (self : Line.RANSAC) (fuel : nat) (model : Line.LineModel) :
  (0 <? Line.tolerance self)%float = false ->
  Line.run rnd self fuel = Ret model ->
  (forall candidate, Line.consensus_loop self candidate = [])
  /\ model = Line.LineModel_default.
Proof.
  intros Htol Hrun. split; [intros candidate; now apply line_consensus_none|].
  unfold Line.run in Hrun. bind_inv Hrun. rename v into final.
  injection Hrun as <-. apply for_loop_passes in E.
  apply (passes_preserve (Line.iteration rnd self fuel) Line.after
           (fun st => Line.bestModel st = Line.LineModel_default)) in E.
  - apply E.
  - intros st ev HI Hev. rewrite <- HI.
    eapply LineRuns.line_strict_pass; eassumption.
  - reflexivity.
Qed.

Lemma line_without_tolerance_returns_default_witness :
  (0 <? Line.tolerance on_the_line_strict)%float = false
  /\ Line.run in_turn on_the_line_strict 1 = Ret Line.LineModel_default
  /\ (forall candidate, Line.consensus_loop on_the_line_strict candidate = [])
  /\ Line.LineModel_default = Line.LineModel_default.
Proof.
  split; [reflexivity|]. split; [vm_compute; reflexivity|].
  apply (line_without_tolerance_returns_default in_turn on_the_line_strict 1);
    vm_compute; reflexivity.
Defined.

(** X8. With an error tolerance that is not above zero a run of the
    plane variant that returns returns the default model: no candidate
    gathers a consensus set, so the best set stays empty and nothing is
    refitted. *)
Theorem plane_without_tolerance_returns_default
  (svd : list Plane.Point3d -> Plane.Point3d)
  (shuffle : nat -> list nat -> list nat) (indeterminate : Plane.Point3d)
  (self : Plane.RANSAC) (model : Plane.PlaneModel) :
  (0 <? Plane.error_tolerance self)%float = false ->
  Plane.run svd shuffle indeterminate self = Ret model ->
  model = Plane.PlaneModel_default.
Proof.
  intros Htol Hrun. unfold Plane.run in Hrun.
  destruct (length (Plane.data self) <? 3)%nat; [now injection Hrun as <-|].
  bind_inv Hrun. rename v into final. injection Hrun as <-.
  apply for_loop_passes in E.
  apply (passes_preserve (Plane.iteration shuffle indeterminate self) Plane.after
           (fun st => Plane.bestInliersCount st = 0%Z /\ Plane.bestConsensusSet st = []))
    in E.
  - destruct E as [[_ ->] _]. reflexivity.
  - intros st ev [Hc Hs] Hev. unfold Plane.iteration in Hev.
    bind_inv Hev. destruct v as [currentModel|]; injection Hev as <-; cbn.
    + rewrite plane_consensus_none by assumption. simpl. rewrite Hc. cbn. auto.
    + auto.
  - split; reflexivity.
Qed.

Lemma plane_without_tolerance_returns_default_witness :
  (0 <? Plane.error_tolerance scattered_strict)%float = false
  /\ Plane.run two_row_normal rotation Eigen.Zero scattered_strict
     = Ret Plane.PlaneModel_default
  /\ Plane.PlaneModel_default = Plane.PlaneModel_default.
Proof.
  split; [reflexivity|]. split; [vm_compute; reflexivity|].
  apply (plane_without_tolerance_returns_default two_row_normal rotation Eigen.Zero
           scattered_strict); vm_compute; reflexivity.
Defined.

(** X9. With a budget [max_iterations] of zero or less neither variant
    makes a pass: [run] returns the default model at once, and the line
    variant does so even on an empty store, which it never reads. *)
Theorem no_budget_no_search
  (rnd : nat -> N) (lself : Line.RANSAC) (fuel : nat)
  (svd : list Plane.Point3d -> Plane.Point3d)
  (shuffle : nat -> list nat -> list nat) (indeterminate : Plane.Point3d)
  (pself : Plane.RANSAC) :
  (Line.max_iterations lself <= 0)%Z ->
  (Plane.max_iterations pself <= 0)%Z ->
  fst (Line.run_log rnd lself fuel) = []
  /\ Line.run rnd lself fuel = Ret Line.LineModel_default
  /\ fst (Plane.run_log shuffle indeterminate pself) = []
  /\ Plane.run svd shuffle indeterminate pself = Ret Plane.PlaneModel_default.
Proof.
  intros Hl Hp.
  assert (El : Z.to_nat (Line.max_iterations lself) = 0%nat) by lia.
  assert (Ep : Z.to_nat (Plane.max_iterations pself) = 0%nat) by lia.
  unfold Line.run, Plane.run, Line.run_log, Plane.run_log. rewrite El, Ep. simpl.
  repeat split. now destruct (length (Plane.data pself) <? 3)%nat.
Qed.

Lemma no_budget_no_search_witness :
  (Line.max_iterations no_budget_line <= 0)%Z
  /\ (Plane.max_iterations no_budget_plane <= 0)%Z
  /\ fst (Line.run_log in_turn no_budget_line 0) = []
  /\ Line.run in_turn no_budget_line 0 = Ret Line.LineModel_default
  /\ fst (Plane.run_log rotation Eigen.Zero no_budget_plane) = []
  /\ Plane.run two_row_normal rotation Eigen.Zero no_budget_plane
     = Ret Plane.PlaneModel_default.
Proof.
  split; [simpl; lia|]. split; [simpl; lia|].
  apply no_budget_no_search; simpl; lia.
Defined.

(** X10. With a threshold of zero or less and a positive budget the
    line variant leaves its loop at the end of its first pass, whatever
    that pass found: when the pass returns, the loop returns the state it
    left and the log holds that pass alone; when it does not, neither does
    the loop.  On a store that is not empty, with two first draws that
    differ, the pass returns, and [run] returns the model kept after
    it. *)
Theorem nonpositive_threshold_stops_after_one_pass
  (rnd : nat -> N) (self : Line.RANSAC) (fuel : nat) :
  LineLog.countable self ->
  (Line.threshold self <= 0)%Z ->
  (0 < Line.max_iterations self)%Z ->
  Line.run_log rnd self fuel
  = match Line.iteration rnd self fuel Line.initial with
    | Ret ev => ([ev], Ret (Line.after ev))
    | Undefined => ([], Undefined)
    | OutOfFuel => ([], OutOfFuel)
    end
  /\ (Line.data self <> [] ->
      Line.same_point (LineLog.pick rnd self 0) (LineLog.pick rnd self 1) = false ->
      exists ev,
        Line.run_log rnd self fuel = ([ev], Ret (Line.after ev))
        /\ Line.run rnd self fuel = Ret (Line.bestModel (Line.after ev))).
Proof.
  intros Hcount Hthr Hbudget.
  assert (Hlog : Line.run_log rnd self fuel
                 = match Line.iteration rnd self fuel Line.initial with
                   | Ret ev => ([ev], Ret (Line.after ev))
                   | Undefined => ([], Undefined)
                   | OutOfFuel => ([], OutOfFuel)
                   end).
  { unfold Line.run_log.
    destruct (Z.to_nat (Line.max_iterations self)) as [|n] eqn:Hn; [lia|].
    rewrite for_loop_S.
    destruct (Line.iteration rnd self fuel Line.initial) as [ev| |] eqn:Hev;
      try reflexivity.
    destruct (LineFacts.line_iteration_Ret rnd self fuel _ _ Hcount
                (LineFacts.line_initial_Inv self) Hev)
      as (_ & _ & _ & _ & _ & _ & Hleft & _ & HI).
    unfold LineLog.Inv in HI.
    assert (Line.left_loop ev = true) as -> by (rewrite Hleft; apply Z.geb_le; lia).
    reflexivity. }
  split; [exact Hlog|]. intros Hne Hdiff.
  destruct (LineFacts.line_iteration_returns rnd self fuel Line.initial Hne Hcount
              (LineFacts.line_initial_Inv self) Hdiff) as (ev & Hev & _).
  exists ev. rewrite Hev in Hlog. split; [exact Hlog|].
  unfold Line.run. now rewrite Hlog.
Qed.

Lemma nonpositive_threshold_stops_after_one_pass_witness :
  LineLog.countable no_threshold
  /\ (Line.threshold no_threshold <= 0)%Z
  /\ (0 < Line.max_iterations no_threshold)%Z
  /\ exists ev,
       Line.run_log in_turn no_threshold 1 = ([ev], Ret (Line.after ev))
       /\ Line.run in_turn no_threshold 1 = Ret (Line.bestModel (Line.after ev)).
Proof.
  assert (Hcount : LineLog.countable no_threshold)
    by (unfold LineLog.countable, INT_MAX; simpl; lia).
  split; [exact Hcount|]. split; [simpl; lia|]. split; [simpl; lia|].
  apply (nonpositive_threshold_stops_after_one_pass in_turn no_threshold 1);
    [exact Hcount | simpl; lia | simpl; lia | simpl; discriminate
     | vm_compute; reflexivity].
Defined.

(** X11. Each pass of the line variant that returns made exactly two
    calls of [rand()], for the two points of its sample, and those two
    points do not compare equal: the resampling loop made no call.  A run
    that returns has made twice as many calls as passes. *)
Theorem every_pass_draws_twice (rnd : nat -> N) (self : Line.RANSAC) (fuel : nat) :
  Forall (fun ev =>
            Line.sample ev
            = (LineLog.pick rnd self (Line.calls (Line.before ev)),
               LineLog.pick rnd self (S (Line.calls (Line.before ev))))
            /\ Line.same_point (fst (Line.sample ev)) (snd (Line.sample ev)) = false
            /\ Line.calls (Line.after ev) = S (S (Line.calls (Line.before ev))))
    (fst (Line.run_log rnd self fuel))
  /\ match snd (Line.run_log rnd self fuel) with
     | Ret final =>
         Line.calls final = (2 * length (fst (Line.run_log rnd self fuel)))%nat
     | _ => True
     end.
Proof.
  split.
  - destruct (for_loop_log (Line.iteration rnd self fuel) Line.after Line.left_loop
                (Z.to_nat (Line.max_iterations self)) Line.initial) as [mid Hmid].
    eapply passes_Forall; [|exact Hmid].
    intros st ev Hev. apply LineRuns.line_iteration_draws in Hev.
    destruct Hev as (-> & Hs & Hd & Hc & _). auto.
  - destruct (snd (Line.run_log rnd self fuel)) as [final| |] eqn:Hfinal; auto.
    apply for_loop_passes in Hfinal. apply LineRuns.passes_calls in Hfinal.
    exact Hfinal.
Qed.

(** X12. On a store that holds at least one point (and no more than
    [INT_MAX]) a run of the line variant never reads the store out of
    range and never divides or takes a remainder by zero: it returns a
    model or stays in the resampling loop. *)
Theorem line_run_never_undefined (rnd : nat -> N) (self : Line.RANSAC) (fuel : nat) :
  Line.data self <> [] ->
  LineLog.countable self ->
  Line.run rnd self fuel <> Undefined.
Proof.
  intros Hne Hcount. unfold Line.run.
  pose proof (for_loop_defined (Line.iteration rnd self fuel) Line.after Line.left_loop
                (fun _ => True)
                (fun st _ => LineRuns.line_iteration_defined rnd self fuel st Hne Hcount)
                (fun _ _ _ _ => I)
                (Z.to_nat (Line.max_iterations self)) Line.initial I) as Hdef.
  unfold Line.run_log.
  destruct (snd (for_loop _ _ _ _ _)) as [final| |]; [discriminate | congruence | discriminate].
Qed.

Lemma line_run_never_undefined_witness :
  Line.data line_of_main <> []
  /\ LineLog.countable line_of_main
  /\ Line.run eight_draws line_of_main 1 <> Undefined.
Proof.
  assert (Hne : Line.data line_of_main <> []) by (simpl; discriminate).
  assert (Hcount : LineLog.countable line_of_main)
    by (unfold LineLog.countable, INT_MAX; simpl; lia).
  split; [exact Hne|]. split; [exact Hcount|].
  apply line_run_never_undefined; [exact Hne | exact Hcount].
Defined.

(** X13. On a store all of whose points compare equal (one point, or
    copies of one point) a run of the line variant with a positive budget
    never returns: its first pass draws two equal points and stays in the
    resampling loop, whatever the generator. *)
Theorem equal_points_never_return (rnd : nat -> N) (self : Line.RANSAC) (fuel : nat) :
  Line.data self <> [] ->
  (0 < Line.max_iterations self)%Z ->
  (forall p q, List.In p (Line.data self) -> List.In q (Line.data self) ->
               Line.same_point p q = true) ->
  Line.run rnd self fuel = OutOfFuel.
Proof.
  intros Hne Hbudget Hsame.
  apply line_run_stuck; [assumption | assumption |].
  apply Hsame; now apply LineRuns.pick_In.
Qed.

Lemma equal_points_never_return_witness :
  Line.data thrice <> []
  /\ (0 < Line.max_iterations thrice)%Z
  /\ Line.run eight_draws thrice 5 = OutOfFuel.
Proof.
  split; [simpl; discriminate|]. split; [simpl; lia|].
  apply equal_points_never_return; [simpl; discriminate | simpl; lia |].
  intros p q Hp Hq. simpl in Hp, Hq.
  destruct Hp as [<-|[<-|[<-|[]]]], Hq as [<-|[<-|[<-|[]]]]; reflexivity.
Defined.

(** ** Zeros and NaNs *)

Module ZeroOrNaN.

Local Open Scope float_scope.

Lemma sub_self (r : float) : zero_or_nan (r - r).
Proof.
  unfold zero_or_nan. rewrite sub_spec. unfold SF64sub.
  destruct (Prim2SF r) as [[|]|[|]| |s m e]; try exact I.
  cbn [SFsub]. rewrite Z.sub_diag. exact I.
Qed.

Lemma mul_left (r s : float) : zero_or_nan r -> zero_or_nan (r * s).
Proof.
  unfold zero_or_nan. rewrite mul_spec. unfold SF64mul.
  destruct (Prim2SF r) as [sr|sr| |sr mr er]; try contradiction; intros _;
    destruct (Prim2SF s) as [ss|ss| |ss ms es]; exact I.
Qed.

Lemma mul_right (r s : float) : zero_or_nan s -> zero_or_nan (r * s).
Proof.
  unfold zero_or_nan. rewrite mul_spec. unfold SF64mul.
  destruct (Prim2SF s) as [ss|ss| |ss ms es]; try contradiction; intros _;
    destruct (Prim2SF r) as [sr|sr| |sr mr er]; exact I.
Qed.

Lemma sub_both (r s : float) : zero_or_nan r -> zero_or_nan s -> zero_or_nan (r - s).
Proof.
  unfold zero_or_nan. rewrite sub_spec. unfold SF64sub.
  destruct (Prim2SF r) as [sr|sr| |sr mr er]; try contradiction; intros _;
    destruct (Prim2SF s) as [ss|ss| |ss ms es]; try contradiction; intros _;
    try exact I; destruct sr, ss; exact I.
Qed.

Lemma add_both (r s : float) : zero_or_nan r -> zero_or_nan s -> zero_or_nan (r + s).
Proof.
  unfold zero_or_nan. rewrite add_spec. unfold SF64add.
  destruct (Prim2SF r) as [sr|sr| |sr mr er]; try contradiction; intros _;
    destruct (Prim2SF s) as [ss|ss| |ss ms es]; try contradiction; intros _;
    try exact I; destruct sr, ss; exact I.
Qed.

Lemma sqrt_of (r : float) : zero_or_nan r -> zero_or_nan (PrimFloat.sqrt r).
Proof.
  unfold zero_or_nan. rewrite sqrt_spec. unfold SF64sqrt.
  destruct (Prim2SF r) as [sr|sr| |sr mr er]; try contradiction; intros _; exact I.
Qed.

Lemma SFmul_comm (u v : spec_float) : SFmul prec emax u v = SFmul prec emax v u.
Proof.
  destruct u as [su|su| |su mu eu], v as [sv|sv| |sv mv ev]; simpl;
    try reflexivity; try (now rewrite xorb_comm).
  now rewrite xorb_comm, Pos.mul_comm, Z.add_comm.
Qed.

Lemma mul_swap_sub (r s : float) : zero_or_nan (r * s - s * r).
Proof.
  unfold zero_or_nan. rewrite sub_spec, !mul_spec. unfold SF64mul.
  rewrite (SFmul_comm (Prim2SF s)). unfold SF64sub.
  destruct (SFmul prec emax (Prim2SF r) (Prim2SF s)) as [[|]|[|]| |sm mm em]; try exact I.
  cbn [SFsub]. rewrite Z.sub_diag. exact I.
Qed.

(** Neither a zero nor a NaN compares above 1e-9 or above zero. *)
Lemma not_above (r : float) :
  zero_or_nan r -> (1e-9 <? r) = false /\ (0 <? r) = false.
Proof.
  unfold zero_or_nan. rewrite !FloatAxioms.ltb_spec.
  destruct (Prim2SF r) as [sr|sr| |sr mr er]; try contradiction; intros _;
    split; try reflexivity; now destruct sr.
Qed.

End ZeroOrNaN.

(** ** Samples with a point repeated *)

Module Degenerate.

Import Eigen Plane.
Local Open Scope float_scope.

Lemma norm_zero_or_nan (v : Vector3d) :
  zero_or_nan (x v) -> zero_or_nan (y v) -> zero_or_nan (z v) ->
  zero_or_nan (squaredNorm v) /\ zero_or_nan (norm v).
Proof.
  intros Hx Hy Hz.
  assert (H : zero_or_nan (squaredNorm v)).
  { unfold squaredNorm, dot.
    repeat apply ZeroOrNaN.add_both; now apply ZeroOrNaN.mul_left. }
  split; [exact H | now apply ZeroOrNaN.sqrt_of].
Qed.

(** A cross product of zeros and NaNs is taken for collinear or gives a
    model that is not valid. *)
Lemma degenerate_rejected (u p1 p2 p3 : Point3d) :
  zero_or_nan (x (cross (minus p2 p1) (minus p3 p1))) ->
  zero_or_nan (y (cross (minus p2 p1) (minus p3 p1))) ->
  zero_or_nan (z (cross (minus p2 p1) (minus p3 p1))) ->
  areCollinear p1 p2 p3 || negb (isValid (PlaneModel_from_points u p1 p2 p3)) = true.
Proof.
  intros Hx Hy Hz.
  destruct (norm_zero_or_nan _ Hx Hy Hz) as [Hsq Hn].
  destruct (areCollinear p1 p2 p3) eqn:Hc; [reflexivity|].
  rewrite (from_points_regular u p1 p2 p3 Hc). cbn [orb].
  unfold isValid. cbn [normal]. unfold normalized.
  destruct (ZeroOrNaN.not_above _ Hsq) as [_ ->].
  destruct (ZeroOrNaN.not_above _ Hn) as [-> _]. reflexivity.
Qed.

End Degenerate.

(** X14. Three points two of which are the same never make a sample: for
    every way of repeating a point among the three, either [areCollinear]
    holds or the model built from them is not valid, so the sampling loop
    goes on to its next attempt.  This holds for all doubles, infinities
    and NaNs included. *)
Theorem repeated_point_is_never_sampled (indeterminate p q : Plane.Point3d) :
  let rejected p1 p2 p3 :=
    Plane.areCollinear p1 p2 p3
    || negb (Plane.isValid (Plane.PlaneModel_from_points indeterminate p1 p2 p3)) in
  rejected p p q = true /\ rejected p q p = true /\ rejected q p p = true.
Proof.
  cbv zeta. split; [|split]; apply Degenerate.degenerate_rejected; cbn;
    try (apply ZeroOrNaN.sub_both; apply ZeroOrNaN.mul_left; apply ZeroOrNaN.sub_self);
    try (apply ZeroOrNaN.sub_both; apply ZeroOrNaN.mul_right; apply ZeroOrNaN.sub_self);
    apply ZeroOrNaN.mul_swap_sub.
Qed.

(** ** The side of the fitted normal *)

Module Orientation.

Import Eigen Plane.
Local Open Scope float_scope.

(** Turning a vector round turns the sign of its dot products round. *)
Lemma dot_negate (u v : Vector3d) :
  same_or_zeros (Prim2SF (dot (negate u) v)) (SFopp (Prim2SF (dot u v))).
Proof.
  unfold dot, negate. cbn [x y z].
  rewrite !add_spec, !mul_spec, !opp_spec. unfold SF64add, SF64mul.
  rewrite !Binary64Order.SFmul_opp.
  eapply Binary64Order.same_or_zeros_trans; [|apply Binary64Order.SFadd_opp].
  apply Binary64Order.SFadd_same_or_zeros, Binary64Order.SFadd_opp.
Qed.

Lemma dot_negate_not_above (u v : Vector3d) :
  (0 <? dot u v) = true -> (0 <? dot (negate u) v) = false.
Proof.
  intros H. pose proof (Binary64Order.above_zero_not_below _ H) as Hb.
  rewrite FloatAxioms.ltb_spec in *. change (Prim2SF 0) with (S754_zero false) in *.
  now rewrite (Binary64Order.SFltb_zero_opp _ _ (dot_negate u v)).
Qed.

End Orientation.

(** X15. On three points or more [fitModel] builds its model from a
    vector that is the third right singular vector of the centred points
    or its opposite, and whose dot product with the centroid is never
    above zero: the flip [normal_vector = -normal_vector] always takes
    effect, for every decomposition and all doubles. *)
Theorem fitModel_normal_not_towards_centroid
  (svd : list Plane.Point3d -> Plane.Point3d) (consensus_set : list Plane.Point3d) :
  (3 <= length consensus_set)%nat ->
  exists normal_vector,
    Plane.fitModel svd consensus_set
    = Plane.PlaneModel_from_normal normal_vector (centroid_of consensus_set)
    /\ (normal_vector = svd (centered_on_centroid consensus_set)
        \/ normal_vector = Eigen.negate (svd (centered_on_centroid consensus_set)))
    /\ (0 <? Eigen.dot normal_vector (centroid_of consensus_set))%float = false.
Proof.
  intros Hlen. unfold Plane.fitModel, centered_on_centroid, centroid_of.
  destruct (Nat.ltb_spec (length consensus_set) 3) as [Hlt|_]; [lia|].
  match goal with |- context [if (0 <? ?d)%float then _ else _] =>
    destruct (0 <? d)%float eqn:Hd end.
  - eexists. split; [reflexivity|]. split; [now right|].
    now apply Orientation.dot_negate_not_above.
  - eexists. split; [reflexivity|]. split; [now left | exact Hd].
Qed.

Lemma fitModel_normal_not_towards_centroid_witness :
  (3 <= length (Plane.data scattered))%nat
  /\ exists normal_vector,
       Plane.fitModel two_row_normal (Plane.data scattered)
       = Plane.PlaneModel_from_normal normal_vector (centroid_of (Plane.data scattered))
       /\ (normal_vector = two_row_normal (centered_on_centroid (Plane.data scattered))
           \/ normal_vector
              = Eigen.negate (two_row_normal (centered_on_centroid (Plane.data scattered))))
       /\ (0 <? Eigen.dot normal_vector (centroid_of (Plane.data scattered)))%float
          = false.
Proof.
  split; [simpl; lia|].
  apply (fitModel_normal_not_towards_centroid two_row_normal (Plane.data scattered)).
  simpl. lia.
Defined.

(** ** Runs of the plane variant, pass by pass *)

Module PlaneRuns.

Import Eigen Plane PlaneLog.

Section Runs.

Variable shuffle : nat -> list nat -> list nat.
Variable indeterminate : Point3d.
Variable self : RANSAC.

Local Open Scope Z_scope.

(** What a pass that returns has done, whatever the size of the store. *)
Lemma plane_iteration_shape (st : State) (ev : Event) :
  iteration shuffle indeterminate self st = Ret ev ->
  before ev = st
  /\ shuffles (after ev) = S (shuffles st)
  /\ match candidate ev with
     | None =>
         consensus_set ev = [] /\ left_loop ev = false
         /\ bestInliersCount (after ev) = bestInliersCount st
         /\ bestConsensusSet (after ev) = bestConsensusSet st
         /\ attempts_without_improvement (after ev) = attempts_without_improvement st
     | Some model =>
         sampled indeterminate self model
         /\ consensus_set ev = getConsensusSet self model
         /\ ((bestInliersCount (after ev) = to_int (Z.of_nat (length (consensus_set ev)))
              /\ bestConsensusSet (after ev) = consensus_set ev)
             \/ (bestInliersCount (after ev) = bestInliersCount st
                 /\ bestConsensusSet (after ev) = bestConsensusSet st))
     end.
Proof.
  intros H. unfold iteration in H. bind_inv H.
  destruct v as [currentModel|]; injection H as <-; cbn.
  - apply PlaneFacts.find_sample_Some in E.
    destruct (to_int (Z.of_nat (length (getConsensusSet self currentModel)))
              >? bestInliersCount st); cbn; auto 10.
  - repeat split; auto.
Qed.

Lemma passes_shuffles (st final : State) (log : list Event) :
  passes (iteration shuffle indeterminate self) after st log final ->
  shuffles final = (shuffles st + length log)%nat.
Proof.
  intros Hp. induction Hp as [st | st ev evs final Hb Hp IH]; [simpl; lia|].
  apply plane_iteration_shape in Hb. destruct Hb as (_ & Hs & _).
  rewrite IH, Hs. simpl. lia.
Qed.

Lemma sized_pass (st : State) (ev : Event) :
  countable self -> sized self st ->
  iteration shuffle indeterminate self st = Ret ev -> sized self (after ev).
Proof.
  unfold countable, sized. intros Hcount [Hc Hl] H.
  apply plane_iteration_shape in H. destruct H as (_ & _ & H).
  destruct (candidate ev) as [model|].
  - destruct H as (_ & Hcs & [[Hn Hb]|[Hn Hb]]).
    + rewrite Hn, Hb, Hcs. pose proof (plane_consensus_length self model).
      rewrite to_int_id by (unfold INT_MAX in *; lia). split; [reflexivity | lia].
    + rewrite Hn, Hb. auto.
  - destruct H as (_ & _ & Hn & Hb & _). rewrite Hn, Hb. auto.
Qed.

End Runs.

End PlaneRuns.

(** X16. When the points are no more than [INT_MAX], the best count of
    the plane variant is after every pass the number of points of the best
    consensus set, and no more than the number of points of the store; so
    it is in the state a run ends in. *)
Theorem best_count_is_size_of_best_set
  (shuffle : nat -> list nat -> list nat) (indeterminate : Plane.Point3d)
  (self : Plane.RANSAC) :
  PlaneLog.countable self ->
  Forall (fun ev => sized self (Plane.after ev))
    (fst (Plane.run_log shuffle indeterminate self))
  /\ match snd (Plane.run_log shuffle indeterminate self) with
     | Ret final => sized self final
     | _ => True
     end.
Proof.
  intros Hcount.
  assert (Hinit : sized self Plane.initial) by (split; simpl; lia).
  pose proof (fun st ev HI => PlaneRuns.sized_pass shuffle indeterminate self st ev Hcount HI)
    as Hstep.
  split.
  - destruct (for_loop_log (Plane.iteration shuffle indeterminate self) Plane.after
                Plane.left_loop (Z.to_nat (Plane.max_iterations self)) Plane.initial)
      as [mid Hmid].
    apply (passes_preserve _ _ (sized self)) in Hmid; [apply Hmid | exact Hstep | exact Hinit].
  - destruct (snd (Plane.run_log shuffle indeterminate self)) as [final| |] eqn:Hfinal; auto.
    apply for_loop_passes in Hfinal.
    apply (passes_preserve _ _ (sized self)) in Hfinal;
      [apply Hfinal | exact Hstep | exact Hinit].
Qed.

Lemma best_count_is_size_of_best_set_witness :
  PlaneLog.countable plane_of_main
  /\ Forall (fun ev => sized plane_of_main (Plane.after ev))
       (fst (Plane.run_log rotation Eigen.Zero plane_of_main))
  /\ match snd (Plane.run_log rotation Eigen.Zero plane_of_main) with
     | Ret final => sized plane_of_main final
     | _ => True
     end.
Proof.
  assert (Hcount : PlaneLog.countable plane_of_main)
    by (unfold PlaneLog.countable, INT_MAX; simpl; lia).
  split; [exact Hcount|].
  apply best_count_is_size_of_best_set. exact Hcount.
Defined.

(** X17. Every pass of the plane variant shuffles the indices once.  A
    pass that finds no sample ([continue]) does nothing else: it leaves
    the best count, the best set and the count of attempts without
    improvement as they were, and never ends the loop.  A run that returns
    has shuffled as many times as it made passes. *)
Theorem pass_without_sample_changes_nothing
  (shuffle : nat -> list nat -> list nat) (indeterminate : Plane.Point3d)
  (self : Plane.RANSAC) :
  Forall (fun ev =>
            Plane.shuffles (Plane.after ev) = S (Plane.shuffles (Plane.before ev))
            /\ match Plane.candidate ev with
               | None =>
                   Plane.left_loop ev = false
                   /\ Plane.bestInliersCount (Plane.after ev)
                      = Plane.bestInliersCount (Plane.before ev)
                   /\ Plane.bestConsensusSet (Plane.after ev)
                      = Plane.bestConsensusSet (Plane.before ev)
                   /\ Plane.attempts_without_improvement (Plane.after ev)
                      = Plane.attempts_without_improvement (Plane.before ev)
               | Some _ => True
               end)
    (fst (Plane.run_log shuffle indeterminate self))
  /\ match snd (Plane.run_log shuffle indeterminate self) with
     | Ret final =>
         Plane.shuffles final = length (fst (Plane.run_log shuffle indeterminate self))
     | _ => True
     end.
Proof.
  split.
  - destruct (for_loop_log (Plane.iteration shuffle indeterminate self) Plane.after
                Plane.left_loop (Z.to_nat (Plane.max_iterations self)) Plane.initial)
      as [mid Hmid].
    eapply passes_Forall; [|exact Hmid].
    intros st ev Hev. apply PlaneRuns.plane_iteration_shape in Hev.
    destruct Hev as (-> & Hs & Hc). split; [exact Hs|].
    destruct (Plane.candidate ev); [exact I | tauto].
  - destruct (snd (Plane.run_log shuffle indeterminate self)) as [final| |] eqn:Hfinal; auto.
    apply for_loop_passes in Hfinal. apply PlaneRuns.passes_shuffles in Hfinal.
    exact Hfinal.
Qed.

(** X18. On a store all of whose triples of points [areCollinear] takes
    for collinear, no pass of the plane variant finds a sample, and a run
    that returns returns the default model. *)
Theorem collinear_store_gives_default
  (svd : list Plane.Point3d -> Plane.Point3d)
  (shuffle : nat -> list nat -> list nat) (indeterminate : Plane.Point3d)
  (self : Plane.RANSAC) (model : Plane.PlaneModel) :
  (forall p1 p2 p3,
      List.In p1 (Plane.data self) -> List.In p2 (Plane.data self) ->
      List.In p3 (Plane.data self) -> Plane.areCollinear p1 p2 p3 = true) ->
  Plane.run svd shuffle indeterminate self = Ret model ->
  Forall (fun ev => Plane.candidate ev = None)
    (fst (Plane.run_log shuffle indeterminate self))
  /\ model = Plane.PlaneModel_default.
Proof.
  intros Hall Hrun.
  assert (Hnone : forall st ev,
             Plane.iteration shuffle indeterminate self st = Ret ev ->
             Plane.candidate ev = None).
  { intros st ev Hev. apply PlaneRuns.plane_iteration_shape in Hev.
    destruct Hev as (_ & _ & Hc). destruct (Plane.candidate ev) as [m|]; [|reflexivity].
    destruct Hc as ((_ & p1 & p2 & p3 & H1 & H2 & H3 & Hcol & _) & _).
    rewrite (Hall p1 p2 p3 H1 H2 H3) in Hcol. discriminate. }
  split.
  - destruct (for_loop_log (Plane.iteration shuffle indeterminate self) Plane.after
                Plane.left_loop (Z.to_nat (Plane.max_iterations self)) Plane.initial)
      as [mid Hmid].
    eapply passes_Forall; [|exact Hmid]. exact Hnone.
  - unfold Plane.run in Hrun.
    destruct (length (Plane.data self) <? 3)%nat; [now injection Hrun as <-|].
    bind_inv Hrun. rename v into final. injection Hrun as <-.
    apply for_loop_passes in E.
    apply (passes_preserve (Plane.iteration shuffle indeterminate self) Plane.after
             (fun st => Plane.bestConsensusSet st = [])) in E.
    + destruct E as [-> _]. reflexivity.
    + intros st ev HI Hev. pose proof (Hnone st ev Hev) as Hn.
      apply PlaneRuns.plane_iteration_shape in Hev. rewrite Hn in Hev.
      destruct Hev as (_ & _ & _ & _ & _ & -> & _). exact HI.
    + reflexivity.
Qed.

Lemma collinear_store_gives_default_witness :
  Plane.run two_row_normal rotation Eigen.Zero aligned = Ret Plane.PlaneModel_default
  /\ Forall (fun ev => Plane.candidate ev = None)
       (fst (Plane.run_log rotation Eigen.Zero aligned))
  /\ Plane.PlaneModel_default = Plane.PlaneModel_default.
Proof.
  split; [vm_compute; reflexivity|].
  apply (collinear_store_gives_default two_row_normal rotation Eigen.Zero aligned).
  - intros p1 p2 p3 H1 H2 H3. simpl in H1, H2, H3.
    destruct H1 as [<-|[<-|[<-|[<-|[]]]]], H2 as [<-|[<-|[<-|[<-|[]]]]],
      H3 as [<-|[<-|[<-|[<-|[]]]]]; vm_compute; reflexivity.
  - vm_compute. reflexivity.
Defined.

(** ** The window of the sampling loop *)

Section Window.

Import Plane.

Variable indeterminate : Point3d.
Variable self : RANSAC.

Lemma find_sample_prefix (remaining attempt : nat) (indices indices' : list nat) :
  (length indices <? 3)%nat = (length indices' <? 3)%nat ->
  (forall i, (i < remaining + attempt + 2)%nat ->
             nth_error indices i = nth_error indices' i) ->
  find_sample indeterminate self remaining attempt indices
  = find_sample indeterminate self remaining attempt indices'.
Proof.
  revert attempt. induction remaining as [|remaining IH]; intros attempt Hlen Hnth;
    [reflexivity|].
  simpl. rewrite <- Hlen. destruct (length indices <? 3)%nat; [reflexivity|].
  unfold at_index.
  rewrite <- (Hnth attempt), <- (Hnth (attempt + 1)%nat), <- (Hnth (attempt + 2)%nat) by lia.
  rewrite <- (IH (S attempt) Hlen) by (intros i Hi; apply Hnth; lia).
  reflexivity.
Qed.

End Window.

(** X19. The sampling loop of a pass reads the first twelve shuffled
    indices and no other: two index lists that agree on their first twelve
    entries give the same sample, or both give none. *)
Theorem sampling_reads_twelve_indices
  (indeterminate : Plane.Point3d) (self : Plane.RANSAC) (indices indices' : list nat) :
  firstn 12 indices = firstn 12 indices' ->
  Plane.find_sample indeterminate self
    (Z.to_nat (Z.min 10 (to_int (Z.of_nat (length (Plane.data self))) - 2))) 0 indices
  = Plane.find_sample indeterminate self
      (Z.to_nat (Z.min 10 (to_int (Z.of_nat (length (Plane.data self))) - 2))) 0 indices'.
Proof.
  intros Hfirst. apply find_sample_prefix.
  - pose proof (f_equal (@length nat) Hfirst) as Hlen. rewrite !length_firstn in Hlen.
    destruct (Nat.ltb_spec (length indices) 3), (Nat.ltb_spec (length indices') 3);
      try reflexivity; lia.
  - intros i Hi.
    assert (Hi' : (i <? 12)%nat = true) by (apply Nat.ltb_lt; lia).
    pose proof (nth_error_firstn 12 indices i) as H1.
    pose proof (nth_error_firstn 12 indices' i) as H2.
    rewrite Hi' in H1, H2. rewrite <- H1, <- H2, Hfirst. reflexivity.
Qed.

Lemma sampling_reads_twelve_indices_witness :
  firstn 12 sixteen = firstn 12 sixteen_turned
  /\ Plane.find_sample Eigen.Zero plane_of_main
       (Z.to_nat (Z.min 10 (to_int (Z.of_nat (length (Plane.data plane_of_main))) - 2)))
       0 sixteen
     = Plane.find_sample Eigen.Zero plane_of_main
         (Z.to_nat (Z.min 10 (to_int (Z.of_nat (length (Plane.data plane_of_main))) - 2)))
         0 sixteen_turned.
Proof.
  split; [reflexivity|]. apply sampling_reads_twelve_indices. reflexivity.
Defined.

(** ** Loops that use their whole budget *)

Section WholeBudget.

Context {St Ev : Type}.
Variable body : St -> outcome Ev.
Variable after : Ev -> St.
Variable left_loop : Ev -> bool.

Lemma for_loop_whole_budget (I : St -> Prop) :
  (forall st ev, I st -> body st = Ret ev -> left_loop ev = false /\ I (after ev)) ->
  forall n st final,
    I st -> snd (for_loop body after left_loop n st) = Ret final ->
    length (fst (for_loop body after left_loop n st)) = n.
Proof.
  intros Hstep n. induction n as [|n IH]; intros st final HI; [reflexivity|].
  rewrite for_loop_S. destruct (body st) as [ev| |] eqn:Hb; try discriminate.
  destruct (Hstep st ev HI Hb) as [-> HI']. simpl. intros Hr.
  now rewrite (IH (after ev) final HI' Hr).
Qed.

End WholeBudget.

(** X20. A threshold above the number of points is out of reach: a run
    of the line variant that returns has then made every pass of its
    budget. *)
Theorem line_threshold_out_of_reach
  (rnd : nat -> N) (self : Line.RANSAC) (fuel : nat) (final : Line.State) :
  LineLog.countable self ->
  (Z.of_nat (length (Line.data self)) < Line.threshold self)%Z ->
  snd (Line.run_log rnd self fuel) = Ret final ->
  length (fst (Line.run_log rnd self fuel)) = Z.to_nat (Line.max_iterations self).
Proof.
  intros Hcount Hthr Hfinal. unfold Line.run_log in *.
  apply (for_loop_whole_budget _ _ _ (LineLog.Inv self)) with (final := final);
    [|apply LineFacts.line_initial_Inv | exact Hfinal].
  intros st ev HI Hev.
  destruct (LineFacts.line_iteration_Ret rnd self fuel st ev Hcount HI Hev)
    as (_ & _ & _ & _ & _ & _ & Hleft & _ & HI').
  split; [|exact HI']. rewrite Hleft. unfold LineLog.Inv in HI'.
  rewrite Z.geb_leb. apply Z.leb_gt. lia.
Qed.

Lemma line_threshold_out_of_reach_witness :
  LineLog.countable out_of_reach_line
  /\ (Z.of_nat (length (Line.data out_of_reach_line)) < Line.threshold out_of_reach_line)%Z
  /\ length (fst (Line.run_log in_turn out_of_reach_line 1))
     = Z.to_nat (Line.max_iterations out_of_reach_line).
Proof.
  assert (Hcount : LineLog.countable out_of_reach_line)
    by (unfold LineLog.countable, INT_MAX; simpl; lia).
  split; [exact Hcount|]. split; [simpl; lia|].
  destruct (snd (Line.run_log in_turn out_of_reach_line 1)) as [final| |] eqn:Hfinal;
    [|exfalso; vm_compute in Hfinal; discriminate
     |exfalso; vm_compute in Hfinal; discriminate].
  apply (line_threshold_out_of_reach in_turn out_of_reach_line 1 final);
    [exact Hcount | simpl; lia | exact Hfinal].
Defined.

(** X21. A minimum consensus above the number of points is out of reach:
    a run of the plane variant's loop that returns has then made every
    pass of its budget. *)
Theorem plane_consensus_out_of_reach
  (shuffle : nat -> list nat -> list nat) (indeterminate : Plane.Point3d)
  (self : Plane.RANSAC) (final : Plane.State) :
  PlaneLog.countable self ->
  (Z.of_nat (length (Plane.data self)) < Plane.min_consensus self)%Z ->
  snd (Plane.run_log shuffle indeterminate self) = Ret final ->
  length (fst (Plane.run_log shuffle indeterminate self))
  = Z.to_nat (Plane.max_iterations self).
Proof.
  intros Hcount Hthr Hfinal. unfold Plane.run_log in *.
  apply (for_loop_whole_budget _ _ _ (PlaneLog.Inv self)) with (final := final);
    [|apply PlaneFacts.plane_initial_Inv | exact Hfinal].
  intros st ev HI Hev.
  destruct (PlaneFacts.plane_iteration_tracked shuffle indeterminate self Hcount st ev HI Hev)
    as [_ HI'].
  split; [|exact HI'].
  destruct (Plane.left_loop ev) eqn:Hleft; [|reflexivity].
  destruct (PlaneFacts.break_conditions shuffle indeterminate self st ev Hcount HI Hev Hleft)
    as [Hmin _].
  unfold PlaneLog.Inv in HI'. lia.
Qed.

Lemma plane_consensus_out_of_reach_witness :
  PlaneLog.countable out_of_reach_plane
  /\ (Z.of_nat (length (Plane.data out_of_reach_plane))
      < Plane.min_consensus out_of_reach_plane)%Z
  /\ length (fst (Plane.run_log rotation Eigen.Zero out_of_reach_plane))
     = Z.to_nat (Plane.max_iterations out_of_reach_plane).
Proof.
  assert (Hcount : PlaneLog.countable out_of_reach_plane)
    by (unfold PlaneLog.countable, INT_MAX; simpl; lia).
  split; [exact Hcount|]. split; [simpl; lia|].
  destruct (snd (Plane.run_log rotation Eigen.Zero out_of_reach_plane))
    as [final| |] eqn:Hfinal;
    [|exfalso; vm_compute in Hfinal; discriminate
     |exfalso; vm_compute in Hfinal; discriminate].
  apply (plane_consensus_out_of_reach rotation Eigen.Zero out_of_reach_plane final);
    [exact Hcount | simpl; lia | exact Hfinal].
Defined.

(** ** Comparisons in a row, and numbers without a sign *)

Module Binary64Trans.

Local Open Scope float_scope.

Lemma SFltb_leb_trans (u v w : spec_float) :
  SFltb u v = true -> SFleb v w = true -> SFltb u w = true.
Proof.
  unfold SFltb, SFleb.
  destruct u as [su|su| |su mu eu], v as [sv|sv| |sv mv ev], w as [sw|sw| |sw mw ew];
    simpl; try discriminate; try reflexivity;
    try (destruct su; discriminate); try (destruct sv; discriminate);
    try (destruct sw; discriminate);
    try (destruct su, sv; discriminate); try (destruct sv, sw; discriminate);
    try (destruct su, sw; try discriminate; reflexivity);
    try (destruct su, sv, sw; try discriminate; reflexivity).
  all: destruct su, sv, sw; try discriminate; try reflexivity;
    rewrite ?Pos.compare_cont_spec; unfold Pos.switch_Eq;
    destruct (Z.compare_spec eu ev), (Z.compare_spec ev ew), (Z.compare_spec eu ew);
    try discriminate; try reflexivity; try lia; subst;
    destruct (Pos.compare_spec mu mv), (Pos.compare_spec mv mw), (Pos.compare_spec mu mw);
    simpl; try discriminate; try reflexivity; try lia.
Qed.

(** What is below a number is below every number that is at least as
    large. *)
Lemma ltb_leb_trans (d t1 t2 : float) :
  (d <? t1) = true -> (t1 <=? t2) = true -> (d <? t2) = true.
Proof.
  rewrite !FloatAxioms.ltb_spec, FloatAxioms.leb_spec. apply SFltb_leb_trans.
Qed.

Lemma binary_round_aux_clear (m e : Z) (l : location) :
  sign_clear (binary_round_aux prec emax false m e l).
Proof.
  unfold binary_round_aux.
  destruct (shr_fexp prec emax m e l) as [mrs' e'].
  destruct (shr_fexp prec emax _ e' loc_Exact) as [mrs'' e''].
  destruct (shr_m mrs''); [exact eq_refl | | exact I].
  destruct (e'' <=? emax - prec)%Z; exact eq_refl.
Qed.

Lemma binary_normalize_clear (m e : Z) :
  (0 <= m)%Z -> sign_clear (binary_normalize prec emax m e false).
Proof.
  intros Hm. destruct m as [|p|p]; simpl; [exact eq_refl | | lia].
  unfold binary_round. destruct (shl_align p e _) as [mz ez].
  apply binary_round_aux_clear.
Qed.

Lemma SFadd_clear (u v : spec_float) :
  sign_clear u -> sign_clear v -> sign_clear (SFadd prec emax u v).
Proof.
  destruct u as [su|su| |su mu eu], v as [sv|sv| |sv mv ev]; simpl;
    try (intros -> ->; reflexivity); try (intros; exact I); auto.
  intros -> ->. simpl cond_Zopp. apply binary_normalize_clear. lia.
Qed.

Lemma SFdiv_clear (u v : spec_float) :
  sign_clear u -> sign_clear v -> sign_clear (SFdiv prec emax u v).
Proof.
  destruct u as [su|su| |su mu eu], v as [sv|sv| |sv mv ev]; simpl;
    try (intros -> ->; reflexivity); try (intros; exact I).
  intros -> ->. simpl xorb.
  destruct (SFdiv_core_binary _ _ _ _ _ _) as [[mz ez] lz].
  apply binary_round_aux_clear.
Qed.

Lemma SFabs_clear (u : spec_float) : sign_clear (SFabs u).
Proof. destruct u; simpl; auto. Qed.

Lemma double_of_int_clear (n : Z) : (0 <= n)%Z -> sign_clear (Prim2SF (double_of_int n)).
Proof.
  intros Hn. unfold double_of_int.
  destruct (Z.ltb_spec n 0) as [Hlt|_]; [lia|].
  rewrite of_uint63_spec. apply binary_normalize_clear. apply Uint63.to_Z_bounded.
Qed.

(** A double without a sign is not below zero, and is at least zero unless
    it is a NaN. *)
Lemma clear_not_below (r : float) :
  sign_clear (Prim2SF r) -> (r <? 0) = false /\ (is_nan r || (0 <=? r)) = true.
Proof.
  unfold is_nan.
  rewrite FloatAxioms.ltb_spec, FloatAxioms.leb_spec, FloatAxioms.eqb_spec.
  change (Prim2SF 0) with (S754_zero false).
  destruct (Prim2SF r) as [s|s| |s m e]; simpl; try (intros ->; split; reflexivity);
    try (split; reflexivity).
  intros ->. split; [reflexivity|].
  unfold SFeqb, SFleb. simpl. now rewrite Pos.compare_cont_refl, Z.compare_refl.
Qed.

End Binary64Trans.

(** ** Nested filters *)

Lemma filter_narrow {A : Type} (keep keep' : A -> bool) (v : list A) :
  (forall pt, keep pt = true -> keep' pt = true) ->
  filter keep v = filter keep (filter keep' v).
Proof.
  intros Himp. induction v as [|pt v IH]; [reflexivity|]. simpl.
  destruct (keep pt) eqn:Hk.
  - rewrite (Himp pt Hk). simpl. rewrite Hk. now f_equal.
  - destruct (keep' pt); simpl; [rewrite Hk|]; exact IH.
Qed.

(** X22. Raising the tolerance of the line variant never loses an
    inlier: for every model, the consensus set at the lower tolerance is
    the consensus set at the higher one, filtered by the lower tolerance;
    so it is no longer. *)
Theorem larger_tolerance_keeps_line_inliers
  (self : Line.RANSAC) (tol : double) (model : Line.LineModel) :
  (Line.tolerance self <=? tol)%float = true ->
  Line.consensus_loop self model
  = filter (fun pt => Line.computeError model pt <? Line.tolerance self)%float
      (Line.consensus_loop (line_with_tolerance self tol) model)
  /\ (length (Line.consensus_loop self model)
      <= length (Line.consensus_loop (line_with_tolerance self tol) model))%nat.
Proof.
  intros Hle.
  assert (E : Line.consensus_loop self model
              = filter (fun pt => Line.computeError model pt <? Line.tolerance self)%float
                  (Line.consensus_loop (line_with_tolerance self tol) model)).
  { rewrite !line_consensus_filter. cbn [line_with_tolerance Line.data Line.tolerance].
    apply filter_narrow. intros pt Hpt.
    eapply Binary64Trans.ltb_leb_trans; eassumption. }
  split; [exact E|]. rewrite E at 1. apply filter_length_le.
Qed.

Lemma larger_tolerance_keeps_line_inliers_witness :
  (Line.tolerance line_of_main <=? 2)%float = true
  /\ Line.consensus_loop line_of_main {| Line.m := 2; Line.b := 1 |}%float
     = filter (fun pt => Line.computeError {| Line.m := 2; Line.b := 1 |} pt
                         <? Line.tolerance line_of_main)%float
         (Line.consensus_loop (line_with_tolerance line_of_main 2%float)
            {| Line.m := 2; Line.b := 1 |}%float)
  /\ (length (Line.consensus_loop line_of_main {| Line.m := 2; Line.b := 1 |}%float)
      <= length (Line.consensus_loop (line_with_tolerance line_of_main 2%float)
                   {| Line.m := 2; Line.b := 1 |}%float))%nat.
Proof.
  split; [reflexivity|].
  apply larger_tolerance_keeps_line_inliers. reflexivity.
Defined.

(** X23. Raising the error tolerance of the plane variant never loses an
    inlier: for every model, [getConsensusSet] at the lower tolerance is
    [getConsensusSet] at the higher one, filtered by the lower tolerance;
    so it is no longer. *)
Theorem larger_tolerance_keeps_plane_inliers
  (self : Plane.RANSAC) (tol : double) (model : Plane.PlaneModel) :
  (Plane.error_tolerance self <=? tol)%float = true ->
  Plane.getConsensusSet self model
  = filter (fun pt => Plane.computeDistance model pt <? Plane.error_tolerance self)%float
      (Plane.getConsensusSet (plane_with_tolerance self tol) model)
  /\ (length (Plane.getConsensusSet self model)
      <= length (Plane.getConsensusSet (plane_with_tolerance self tol) model))%nat.
Proof.
  intros Hle.
  assert (E : Plane.getConsensusSet self model
              = filter (fun pt => Plane.computeDistance model pt
                                  <? Plane.error_tolerance self)%float
                  (Plane.getConsensusSet (plane_with_tolerance self tol) model)).
  { rewrite !plane_consensus_filter.
    cbn [plane_with_tolerance Plane.data Plane.error_tolerance].
    destruct (Plane.isValid model); [|reflexivity].
    apply filter_narrow. intros pt Hpt.
    eapply Binary64Trans.ltb_leb_trans; eassumption. }
  split; [exact E|]. rewrite E at 1. apply filter_length_le.
Qed.

Lemma larger_tolerance_keeps_plane_inliers_witness :
  (Plane.error_tolerance scattered <=? 100)%float = true
  /\ Plane.getConsensusSet scattered ground
     = filter (fun pt => Plane.computeDistance ground pt
                         <? Plane.error_tolerance scattered)%float
         (Plane.getConsensusSet (plane_with_tolerance scattered 100%float) ground)
  /\ (length (Plane.getConsensusSet scattered ground)
      <= length (Plane.getConsensusSet (plane_with_tolerance scattered 100%float) ground))%nat.
Proof.
  split; [reflexivity|].
  apply larger_tolerance_keeps_plane_inliers. reflexivity.
Defined.

(** ** The score of a model *)

Section Score.

Import Plane.
Local Open Scope float_scope.

Variable self : RANSAC.
Variable model : PlaneModel.

Lemma computeDistance_clear (pt : Point3d) :
  sign_clear (Prim2SF (computeDistance model pt)).
Proof.
  unfold computeDistance. destruct (_ <? 1e-18).
  - vm_compute. reflexivity.
  - rewrite abs_spec. apply Binary64Trans.SFabs_clear.
Qed.

Lemma tally_stuck (v : list Point3d) :
  fold_left (tally self model) v Undefined = Undefined.
Proof. induction v as [|pt v IH]; [reflexivity | exact IH]. Qed.

Lemma tally_clear (v : list Point3d) (acc r : double * Z) :
  fold_left (tally self model) v (Ret acc) = Ret r ->
  sign_clear (Prim2SF (fst acc)) -> (0 <= snd acc)%Z ->
  sign_clear (Prim2SF (fst r)) /\ (0 <= snd r)%Z.
Proof.
  revert acc. induction v as [|pt v IH]; intros [total count] H Ht Hc.
  - injection H as <-. auto.
  - simpl in H. destruct (computeDistance model pt <? error_tolerance self).
    + destruct (count >=? INT_MAX)%Z; [now rewrite tally_stuck in H|].
      apply IH in H; [exact H | | simpl in *; lia].
      cbn [fst]. rewrite add_spec.
      apply Binary64Trans.SFadd_clear; [exact Ht | apply computeDistance_clear].
    + apply IH in H; auto.
Qed.

End Score.

(** X24. The score that [evaluateModel] returns is never negative: it
    does not compare below zero, and it is at least zero unless it is a
    NaN. *)
Theorem score_is_never_negative
  (self : Plane.RANSAC) (model : Plane.PlaneModel) (score : double) :
  Plane.evaluateModel self model = Ret score ->
  ((score <? 0) = false /\ (is_nan score || (0 <=? score)) = true)%float.
Proof.
  intros H. apply Binary64Trans.clear_not_below.
  unfold Plane.evaluateModel in H.
  destruct (Plane.isValid model); cbn [negb] in H;
    [|injection H as <-; vm_compute; reflexivity].
  bind_inv H. destruct v as [total count].
  apply tally_clear in E; [|exact eq_refl | simpl; lia].
  destruct E as [Ht Hc]. cbn [fst snd] in Ht, Hc.
  destruct (count =? 0)%Z eqn:Hz; [injection H as <-; vm_compute; reflexivity|].
  unfold fdiv_int in H. rewrite Hz in H. injection H as <-.
  rewrite div_spec. apply Binary64Trans.SFdiv_clear; [exact Ht|].
  now apply Binary64Trans.double_of_int_clear.
Qed.

Lemma score_is_never_negative_witness :
  exists score,
    Plane.evaluateModel scattered ground = Ret score
    /\ (score <? 0)%float = false
    /\ (is_nan score || (0 <=? score))%float = true.
Proof.
  destruct (Plane.evaluateModel scattered ground) as [score| |] eqn:H;
    [|vm_compute in H; discriminate ..].
  exists score. split; [reflexivity|].
  exact (score_is_never_negative scattered ground score H).
Defined.

(** ** Rounding, on the integers *)

Module RoundingZ.

Local Open Scope Z_scope.








End RoundingZ.

(** ** Rounding, on the reals *)

Module RoundingR.

Import Reals Lra Psatz RealValue.
Local Open Scope R_scope.







Lemma F2R_one (e : Z) : F2R 1 e = powerRZ 2 e.
Proof. unfold F2R. ring. Qed.








End RoundingR.

(** ** The operations of [normalized()], one by one *)

Module NormalizedSteps.

Import Reals Lra Psatz RealValue RoundingR.
Local Open Scope R_scope.

(** A zero or a positive finite number. *)
Local Abbreviation plain u :=
  (match u with
   | S754_zero _ => True
   | S754_finite false _ _ => True
   | _ => False
   end).



Lemma is_zero_value (f : float) : is_zero f = true -> value f = 0.
Proof. unfold is_zero, value. destruct (Prim2SF f); try discriminate. reflexivity. Qed.






End NormalizedSteps.

(** ** The length of a normalised vector *)

Module UnitLength.

Import Reals Lra Psatz RealValue RoundingR NormalizedSteps.
Local Open Scope R_scope.







End UnitLength.

Module UnitNormal.

Import Reals Lra RealValue RoundingR NormalizedSteps UnitLength.
Local Open Scope R_scope.





End UnitNormal.



